(** * pysubs3: time codes, subtitle events, SubRip / WebVTT adapters, format detection

    A shallow embedding of [pysubs3/time.py], [pysubs3/ssaevent.py],
    [pysubs3/subrip.py], [pysubs3/webvtt.py], [pysubs3/formats.py] and
    [pysubs3/lang_detector/__init__.py], followed by the properties of
    these functions.

    Conventions of the embedding.
    - A Python [int] is a [Z].
    - Where the code does arithmetic on its [IntOrFloat] arguments
      ([times_to_ms], and through it [make_time] and [SSAEvent.shift]), an
      argument is a [Number.t]: an int, or a float, which is an IEEE 754
      binary64 number; products and sums with a float are rounded as
      binary64 arithmetic rounds them, and [round] raises on an infinity
      and on NaN as Python's does.
    - Where the code only rounds, truncates or compares one [IntOrFloat]
      argument ([ms_to_times], [ms_to_str], [ms_to_frames]), the argument is
      the rational [Q] it denotes: an int and a finite float embed exactly
      and [round] is exact on them; infinities and NaN are outside these
      functions' model.
    - Text is a [list ascii]: one element per character, code points 0..255.
      Character classes ([str.isspace], [\s], [\d], line boundaries) are
      Python's, restricted to that range.
    - A function that can raise returns a [result]: [Ok] with its value or
      [Raise] with the exception; a function that warns returns its value
      together with the list of warnings it issued. *)

From Stdlib Require Import ZArith QArith Qround Lia List Ascii String Bool.
From Stdlib Require Import DecimalString Lqa Qabs Sorted SpecFloat.
From stdpp Require Import base gmap strings list.
Import ListNotations.

Definition str := list ascii.
Coercion list_ascii_of_string : string >-> list.

Local Open Scope string_scope.
Local Open Scope list_scope.
Local Open Scope Z_scope.

(** ** The Python runtime used by the sources *)

Module Py.

(** [round(x)] with one argument: the nearest integer, ties to the even
    neighbour. *)
Definition round (x : Q) : Z :=
  let fl := Qfloor x in
  match Qcompare (x - inject_Z fl) (1 # 2) with
  | Lt => fl
  | Gt => fl + 1
  | Eq => if Z.even fl then fl else fl + 1
  end.

(** [int(x)] on a number: truncation towards zero. *)
Definition trunc (x : Q) : Z := Z.quot (Qnum x) (Zpos (Qden x)).

(** [divmod(a, b)] on ints: floor division and the remainder with the sign
    of the divisor. *)
Definition divmod (a b : Z) : Z * Z := (a / b, a mod b).

(** Comparison of two pairs of ints, as Python compares tuples: the first
    position where the two differ decides by [op]; pairs that are equal
    throughout compare as their (equal) lengths do, which is [on_equal]. *)
Definition tuple_compare (op : Z -> Z -> bool) (on_equal : bool)
    (a b : Z * Z) : bool :=
  if negb (a.1 =? b.1) then op a.1 b.1
  else if negb (a.2 =? b.2) then op a.2 b.2
  else on_equal.

(** [sorted(xs, key=key)]: the stable sort; an element goes after the
    elements already placed whose key is not greater. *)
Fixpoint insert_by_key {A} (key : A -> Z) (x : A) (xs : list A) : list A :=
  match xs with
  | [] => [x]
  | y :: xs' => if key y <=? key x then y :: insert_by_key key x xs'
                else x :: xs
  end.

Definition sorted_by_key {A} (key : A -> Z) (xs : list A) : list A :=
  fold_left (fun placed x => insert_by_key key x placed) xs [].

(** *** Characters *)

(** [c.isspace()], also the class [\s] of [re]. *)
Definition isspace (c : ascii) : bool :=
  let n := N_of_ascii c in
  (((9 <=? n) && (n <=? 13)) || ((28 <=? n) && (n <=? 32))
   || (n =? 133) || (n =? 160))%N.

(** The class [\d] of [re], also the digits [int] accepts. *)
Definition isdigit (c : ascii) : bool :=
  let n := N_of_ascii c in ((48 <=? n) && (n <=? 57))%N.

Definition digit_value (c : ascii) : Z := Z.of_N (N_of_ascii c) - 48.

(** The line boundaries of [str.splitlines]. *)
Definition islinebreak (c : ascii) : bool :=
  let n := N_of_ascii c in
  (((10 <=? n) && (n <=? 13)) || ((28 <=? n) && (n <=? 30)) || (n =? 133))%N.

Definition LF : ascii := ascii_of_N 10.
Definition CR : ascii := ascii_of_N 13.

(** *** str methods *)

(** Removal of the leading characters of a class. *)
Fixpoint lstrip_with (p : ascii -> bool) (s : str) : str :=
  match s with
  | c :: s' => if p c then lstrip_with p s' else s
  | [] => []
  end.

Definition rstrip_with (p : ascii -> bool) (s : str) : str :=
  rev (lstrip_with p (rev s)).

(** [s.lstrip()], [s.rstrip()], [s.strip()] *)
Definition lstrip (s : str) : str := lstrip_with isspace s.
Definition rstrip (s : str) : str := rstrip_with isspace s.
Definition strip (s : str) : str := rstrip (lstrip s).

(** [s.strip(chars)] *)
Definition strip_chars (s chars : str) : str :=
  let p := fun c => existsb (Ascii.eqb c) chars in
  rstrip_with p (lstrip_with p s).

Fixpoint startswith (s prefix : str) : bool :=
  match prefix, s with
  | [], _ => true
  | p :: prefix', c :: s' => Ascii.eqb p c && startswith s' prefix'
  | _ :: _, [] => false
  end.

(** [sub in s] *)
Fixpoint contains (sub s : str) : bool :=
  startswith s sub ||
  match s with
  | _ :: s' => contains sub s'
  | [] => false
  end.

(** [s.replace(old, new)] for a non-empty [old]: the occurrences are taken
    from the left and do not overlap.  [skip] counts the characters of an
    occurrence that are still to be passed over. *)
Fixpoint replace_from (old new s : str) (skip : nat) : str :=
  match s with
  | [] => []
  | c :: s' =>
      match skip with
      | S k => replace_from old new s' k
      | O => if startswith s old
             then new ++ replace_from old new s' (Nat.pred (length old))
             else c :: replace_from old new s' 0
      end
  end.

Definition replace (s old new : str) : str := replace_from old new s 0.

(** [s.splitlines()]: [cur] is the line being read, last character first. *)
Fixpoint splitlines_from (s cur : str) : list str :=
  match s with
  | [] => match cur with [] => [] | _ => [rev cur] end
  | c :: s' =>
      if islinebreak c then
        match s' with
        | d :: s'' =>
            if Ascii.eqb c CR && Ascii.eqb d LF
            then rev cur :: splitlines_from s'' []
            else rev cur :: splitlines_from s' []
        | [] => rev cur :: splitlines_from s' []
        end
      else splitlines_from s' (c :: cur)
  end.

Definition splitlines (s : str) : list str := splitlines_from s [].

(** ["".join(parts)] *)
Definition join (parts : list str) : str := concat parts.

(** *** int and its renderings *)

(** The value of a run of decimal digits read after [acc]. *)
Fixpoint digits_value (s : str) (acc : Z) : option Z :=
  match s with
  | [] => Some acc
  | c :: s' => if isdigit c then digits_value s' (10 * acc + digit_value c)
               else None
  end.

(** [int(s)] for a decimal literal: surrounding whitespace and one sign are
    accepted, at least one digit is required; [None] is ValueError.  (The
    underscore separators of numeric literals are not modelled.) *)
Definition int (s : str) : option Z :=
  match strip s with
  | [] => None
  | c :: s' =>
      if Ascii.eqb c "-" then
        match s' with [] => None | _ => Z.opp <$> digits_value s' 0 end
      else if Ascii.eqb c "+" then
        match s' with [] => None | _ => digits_value s' 0 end
      else digits_value (c :: s') 0
  end.

(** [str(n)], also [format(n, "d")] *)
Definition format_d (n : Z) : str :=
  list_ascii_of_string (NilZero.string_of_int (Z.to_int n)).

(** [format(n, "0<width>d")]: the sign, then zeros up to [width]
    characters, then the digits. *)
Definition format_0d (width : nat) (n : Z) : str :=
  let sign : str := if n <? 0 then "-" else "" in
  let body := format_d (Z.abs n) in
  sign ++ repeat "0"%char (width - length sign - length body) ++ body.

(** *** dict *)

(** [d[key]] for a dict given by its items in insertion order, the keys
    distinct; [None] is KeyError. *)
Fixpoint dict_get {V} (d : list (str * V)) (key : str) : option V :=
  match d with
  | [] => None
  | (k, v) :: d' => if bool_decide (k = key) then Some v else dict_get d' key
  end.

End Py.

(** ** Exceptions and warnings *)

Inductive autodetection_message :=
| No_suitable_formats
| Multiple_suitable_formats (formats : gset str).

Inductive exn :=
| ValueError
| TypeError
| KeyError
| IndexError
| OverflowError
| ContentNotUsable
| FormatAutodetectionError (msg : autodetection_message)
| Other (name : str).         (* an exception of third-party code *)

Inductive result (A : Type) :=
| Ok (a : A)
| Raise (e : exn).
Arguments Ok {A} a.
Arguments Raise {A} e.

Definition bind {A B} (x : result A) (k : A -> result B) : result B :=
  match x with
  | Ok a => k a
  | Raise e => Raise e
  end.

Notation "'do' x <- m ; k" := (bind m (fun x => k))
  (at level 10, x name, m at level 100, k at level 200).

(** [int(s)], raising ValueError *)
Definition int (s : str) : result Z :=
  match Py.int s with
  | Some z => Ok z
  | None => Raise ValueError
  end.

(** [map(f, xs)] consumed at once: the first exception aborts. *)
Fixpoint mapM {A B} (f : A -> result B) (xs : list A) : result (list B) :=
  match xs with
  | [] => Ok []
  | x :: xs' => do y <- f x; do ys <- mapM f xs'; Ok (y :: ys)
  end.

Inductive warning :=
| RuntimeWarning (msg : str).

(** ** Numbers: int and float

    A float is an IEEE 754 binary64 number ([prec = 53], [emax = 1024]);
    its arithmetic is that of [SpecFloat], rounding to nearest, ties to
    even. *)

Module Number.

Definition prec : Z := 53.
Definition emax : Z := 1024.

Inductive t :=
| Int (z : Z)
| Float (f : spec_float).

(** The conversion of an int operand that meets a float: the nearest float,
    OverflowError ("int too large to convert to float") beyond the range. *)
Definition float_of_int (z : Z) : result spec_float :=
  match binary_normalize prec emax z 0 false with
  | S754_infinity _ => Raise OverflowError
  | f => Ok f
  end.

Definition to_float (x : t) : result spec_float :=
  match x with
  | Int z => float_of_int z
  | Float f => Ok f
  end.

(** [x * y] and [x + y]: exact on two ints, binary64 otherwise (a float
    product or sum beyond the range is an infinity, not an exception). *)
Definition mul (x y : t) : result t :=
  match x, y with
  | Int a, Int b => Ok (Int (a * b))
  | _, _ =>
      do a <- to_float x;
      do b <- to_float y;
      Ok (Float (SFmul prec emax a b))
  end.

Definition add (x y : t) : result t :=
  match x, y with
  | Int a, Int b => Ok (Int (a + b))
  | _, _ =>
      do a <- to_float x;
      do b <- to_float y;
      Ok (Float (SFadd prec emax a b))
  end.

(** The rational a finite float denotes. *)
Definition float_value (s : bool) (m : positive) (e : Z) : Q :=
  inject_Z (if s then Z.neg m else Z.pos m) * Qpower 2 e.

(** [round(x)] with one argument: the int itself; for a float the nearest
    int, ties to the even one, OverflowError on an infinity and ValueError
    on NaN. *)
Definition round (x : t) : result Z :=
  match x with
  | Int z => Ok z
  | Float (S754_zero _) => Ok 0
  | Float (S754_finite s m e) => Ok (Py.round (float_value s m e))
  | Float (S754_infinity _) => Raise OverflowError
  | Float S754_nan => Raise ValueError
  end.

(** The float literal [a / b] for two ints that are floats exactly: the
    quotient rounded once, as the literal is read. *)
Definition literal (a b : Z) : t :=
  Float (SFdiv prec emax (binary_normalize prec emax a 0 false)
           (binary_normalize prec emax b 0 false)).

End Number.

(** ** The regular expressions of [re] that the sources use

    A backtracking matcher in continuation-passing style: [run r s caps k]
    matches [r] at the front of [s] and hands the rest of the text and the
    groups captured so far to [k]; alternatives are tried in the order of
    [re] (repetitions are greedy), the first success wins. *)

Module Re.

Inductive regex :=
| Chars (p : ascii -> bool)              (* one character of a class *)
| Seq (r1 r2 : regex)                    (* r1 r2 *)
| Repeat (r : regex) (lo hi : nat)       (* r{lo,hi} *)
| Many (p : ascii -> bool) (lo : nat)    (* [class]{lo,}: [*] and [+] *)
| Group (i : nat) (r : regex)            (* the capturing group number i *)
| Eos.                                   (* $ *)

Definition captures := list (option str).

(** [$] without MULTILINE: the end of the text, or just before a newline
    that ends the text. *)
Definition at_end (s : str) : bool :=
  match s with
  | [] => true
  | [c] => Ascii.eqb c Py.LF
  | _ => false
  end.

Section Matcher.
Context {R : Type}.

Fixpoint many (p : ascii -> bool) (lo : nat) (s : str)
    (k : str -> option R) : option R :=
  match s with
  | c :: s' =>
      if p c then
        match many p (Nat.pred lo) s' k with
        | Some x => Some x
        | None => match lo with O => k s | S _ => None end
        end
      else match lo with O => k s | S _ => None end
  | [] => match lo with O => k s | S _ => None end
  end.

Fixpoint run (r : regex) (s : str) (caps : captures)
    (k : str -> captures -> option R) : option R :=
  match r with
  | Chars p =>
      match s with
      | c :: s' => if p c then k s' caps else None
      | [] => None
      end
  | Seq r1 r2 => run r1 s caps (fun s' caps' => run r2 s' caps' k)
  | Repeat r lo hi =>
      (fix rep (lo hi : nat) (s : str) (caps : captures) : option R :=
         match hi with
         | O => match lo with O => k s caps | S _ => None end
         | S hi' =>
             match run r s caps (rep (Nat.pred lo) hi') with
             | Some x => Some x
             | None => match lo with O => k s caps | S _ => None end
             end
         end) lo hi s caps
  | Many p lo => many p lo s (fun s' => k s' caps)
  | Group i r =>
      run r s caps
        (fun s' caps' =>
           k s' (<[i := Some (take (length s - length s') s)]> caps'))
  | Eos => if at_end s then k s caps else None
  end.
End Matcher.

(** A match at the front of [s]: the number of characters matched and the
    groups, for a pattern with [n] groups. *)
Definition match_at (r : regex) (n : nat) (s : str) : option (nat * captures) :=
  run r s (replicate n None)
    (fun s' caps => Some ((length s - length s')%nat, caps)).

(** [re.match(r, s)] as a truth value. *)
Definition match_ (r : regex) (n : nat) (s : str) : bool :=
  match match_at r n s with Some _ => true | None => false end.

(** The groups of a match as [findall] returns them: the empty string for a
    group that took no part in the match. *)
Definition groups (caps : captures) : list str :=
  map (fun c => match c with Some t => t | None => [] end) caps.

(** [r.findall(s)] for a pattern with [n >= 2] groups that matches no empty
    text: the group tuples of the matches, taken from the left without
    overlap.  [skip] counts the characters of a match still to be passed
    over. *)
Fixpoint findall_from (r : regex) (n : nat) (s : str) (skip : nat)
    : list (list str) :=
  match s with
  | [] => []
  | _ :: s' =>
      match skip with
      | S k => findall_from r n s' k
      | O =>
          match match_at r n s with
          | Some (len, caps) => groups caps :: findall_from r n s' (Nat.pred len)
          | None => findall_from r n s' 0
          end
      end
  end.

Definition findall (r : regex) (n : nat) (s : str) : list (list str) :=
  findall_from r n s 0.

(** [re.sub(r, repl, s)] for a pattern that matches no empty text and a
    replacement without group references. *)
Fixpoint sub_from (r : regex) (n : nat) (repl s : str) (skip : nat) : str :=
  match s with
  | [] => []
  | c :: s' =>
      match skip with
      | S k => sub_from r n repl s' k
      | O =>
          match match_at r n s with
          | Some (len, _) => repl ++ sub_from r n repl s' (Nat.pred len)
          | None => c :: sub_from r n repl s' 0
          end
      end
  end.

Definition sub (r : regex) (n : nat) (repl s : str) : str :=
  sub_from r n repl s 0.

(** Pattern syntax. *)
Definition lit (c : ascii) : regex := Chars (Ascii.eqb c).
Definition d (lo hi : nat) : regex := Repeat (Chars Py.isdigit) lo hi.
Definition is_LF (c : ascii) : bool := Ascii.eqb c Py.LF.
Definition is_SP (c : ascii) : bool := Ascii.eqb c " ".

End Re.

Declare Scope re_scope.
Delimit Scope re_scope with re.
Infix ";;" := Re.Seq (at level 100, right associativity) : re_scope.

(** ** pysubs3/timestamps.py

    This file is not among the sources at hand; [time.py] and [ssaevent.py]
    call it.  Only the constant-rate frame table is modelled. *)

Module timestamps.

(** Modelled from the spec: the two boundary semantics [TimeType.START] and
    [TimeType.END], missing from the sources. *)
Inductive TimeType := START | END.

(** Modelled from the spec: the frame table [Timestamps] of a constant frame
    rate, which is missing from the sources.  Frame [f] begins at the instant
    [f * 1000 / fps] milliseconds, and the table extrapolates arbitrarily
    far. *)
Record Timestamps := mkTimestamps { fps : Q }.

(** Modelled from the spec: the instant at which a frame begins, in
    milliseconds. *)
Definition frame_boundary (t : Timestamps) (frame : Z) : Q :=
  (inject_Z frame * 1000 / fps t)%Q.

(** Modelled from the spec: [Timestamps.from_fps], missing from the sources;
    ValueError when the rate is negative or zero, as the docstrings of
    [time.frames_to_ms] and [time.ms_to_frames] announce. *)
Definition from_fps (fps : Q) : result Timestamps :=
  if Qle_bool fps 0 then Raise ValueError else Ok (mkTimestamps fps).

(** Modelled from the spec: [Timestamps.frames_to_ms], missing from the
    sources.  START is the first millisecond of the frame, END the last
    millisecond before the next frame starts, that is START of the next
    frame minus one. *)
Definition frames_to_ms (t : Timestamps) (frame : Z) (time_type : TimeType)
    : result Z :=
  match time_type with
  | START => Ok (Qceiling (frame_boundary t frame))
  | END => Ok (Qceiling (frame_boundary t (frame + 1)) - 1)
  end.

(** Modelled from the spec: [Timestamps.ms_to_frames], missing from the
    sources.  START is the frame that contains [ms] (floor against the frame
    boundaries); END is the same, except that an instant exactly on a
    boundary belongs to the frame before it.  A negative [ms] is out of
    range. *)
Definition ms_to_frames (t : Timestamps) (ms : Z) (time_type : TimeType)
    : result Z :=
  if ms <? 0 then Raise ValueError
  else
    let x := (inject_Z ms * fps t / 1000)%Q in
    match time_type with
    | START => Ok (Qfloor x)
    | END => if Qeq_bool x (inject_Z (Qfloor x)) then Ok (Qfloor x - 1)
             else Ok (Qfloor x)
    end.

End timestamps.

(** ** pysubs3/time.py *)

Module time.

(** An [IntOrFloat] that is only rounded, truncated or compared, by its
    value. *)
Definition IntOrFloat := Q.

Record Times := mkTimes { t_h : Z; t_m : Z; t_s : Z; t_ms : Z }.

(** [times_to_ms(h, m, s, ms)]; [int] of the int that [round] returns is
    that int. *)
Definition times_to_ms (h m s ms : Number.t) : result Z :=
  do x <- Number.mul s (Number.Int 1000);
  do ms <- Number.add ms x;
  do x <- Number.mul m (Number.Int 60000);
  do ms <- Number.add ms x;
  do x <- Number.mul h (Number.Int 3600000);
  do ms <- Number.add ms x;
  Number.round ms.

(** [ms_to_times(ms)] *)
Definition ms_to_times (ms : IntOrFloat) : Times :=
  let ms := Py.round ms in
  let '(h, ms) := Py.divmod ms 3600000 in
  let '(m, ms) := Py.divmod ms 60000 in
  let '(s, ms) := Py.divmod ms 1000 in
  mkTimes h m s ms.

(** The [fps] argument: a number or a frame table. *)
Inductive fps_arg :=
| Real (fps : Q)
| Table (t : timestamps.Timestamps).

(** [make_time(h, m, s, ms, frames, fps, time_type)] *)
Definition make_time (h m s ms : Number.t) (frames : option Z)
    (fps : option fps_arg) (time_type : option timestamps.TimeType)
    : result Z :=
  match frames, fps, time_type with
  | None, None, None => times_to_ms h m s ms
  | Some frames, Some fps, Some time_type =>
      do t <- match fps with
              | Real fps => timestamps.from_fps fps
              | Table t => Ok t
              end;
      timestamps.frames_to_ms t frames time_type
  | _, _, _ => Raise ValueError
  end.

(** [frames_to_ms(frames, fps, time_type)] *)
Definition frames_to_ms (frames : Z) (fps : Q)
    (time_type : timestamps.TimeType) : result Z :=
  do t <- timestamps.from_fps fps;
  timestamps.frames_to_ms t frames time_type.

(** [ms_to_frames(ms, fps, time_type)]; [int(ms)] truncates towards zero. *)
Definition ms_to_frames (ms : IntOrFloat) (fps : Q)
    (time_type : timestamps.TimeType) : result Z :=
  do t <- timestamps.from_fps fps;
  timestamps.ms_to_frames t (Py.trunc ms) time_type.

(** [TIMESTAMP]: [(\d{1,2}):(\d{1,2}):(\d{1,2})[.,](\d{1,3})] *)
Definition TIMESTAMP : Re.regex :=
  (Re.Group 0 (Re.d 1 2) ;; Re.lit ":" ;;
   Re.Group 1 (Re.d 1 2) ;; Re.lit ":" ;;
   Re.Group 2 (Re.d 1 2) ;;
   Re.Chars (fun c => Ascii.eqb c "." || Ascii.eqb c ",") ;;
   Re.Group 3 (Re.d 1 3))%re.

(** [timestamp_to_ms(groups)].  The last group of [TIMESTAMP] has at most
    three digits; for a longer one Python's power is a float, which this
    integer model does not cover. *)
Definition timestamp_to_ms (groups : list str) : result Z :=
  match groups with
  | [_; _; _; g4] =>
      do vals <- mapM int groups;
      match vals with
      | [h; m; s; frac] =>
          let ms := frac * 10 ^ (3 - Z.of_nat (length g4)) in
          let ms := ms + s * 1000 in
          let ms := ms + m * 60000 in
          let ms := ms + h * 3600000 in
          Ok ms
      | _ => Raise ValueError
      end
  | [_; _; _] =>
      do vals <- mapM int groups;
      match vals with
      | [h; m; s] =>
          let ms := 0 in
          let ms := ms + s * 1000 in
          let ms := ms + m * 60000 in
          let ms := ms + h * 3600000 in
          Ok ms
      | _ => Raise ValueError
      end
  | _ => Raise ValueError
  end.

(** [ms_to_str(ms, fractions)] *)
Definition ms_to_str (ms : IntOrFloat) (fractions : bool) : str :=
  let sgn : str := if negb (Qle_bool 0 ms) then "-" else "" in
  let '(mkTimes h m s ms) := ms_to_times (Qabs ms) in
  if fractions then
    sgn ++ Py.format_0d 1 h ++ ":" ++ Py.format_0d 2 m ++ ":"
      ++ Py.format_0d 2 s ++ "." ++ Py.format_0d 3 ms
  else
    sgn ++ Py.format_0d 1 h ++ ":" ++ Py.format_0d 2 m ++ ":"
      ++ Py.format_0d 2 s.

End time.


(** ** pysubs3/ssaevent.py *)

Module SSAEvent.

(** The dataclass [SSAEvent]; the field [end] is [end_] here. *)
Record t := mk {
  start : Z;
  end_ : Z;
  text : str;
  marked : bool;
  layer : Z;
  style : str;
  name : str;
  marginl : Z;
  marginr : Z;
  marginv : Z;
  effect : str;
  type : str;
  language : option str
}.

(** [OVERRIDE_SEQUENCE]: [{[^}]*}] *)
Definition OVERRIDE_SEQUENCE : Re.regex :=
  (Re.lit "{" ;; Re.Many (fun c => negb (Ascii.eqb c "}")) 0 ;; Re.lit "}")%re.

(** The defaults of the dataclass fields, with the given times and text. *)
Definition new (start end_ : Z) (text : str) (language : option str) : t :=
  mk start end_ text false 0 "Default" "" 0 0 0 "" "Dialogue" language.

(** The values a field can hold. *)
Inductive value :=
| VInt (z : Z)
| VStr (s : str)
| VBool (b : bool)
| VNone.

#[global] Instance value_eq_dec : EqDecision value.
Proof. solve_decision. Defined.

Definition duration (self : t) : Z := end_ self - start self.

Definition is_comment (self : t) : bool :=
  bool_decide (type self = "Comment").

(** [self.shift(h, m, s, ms, frames, fps)] returns the event after the
    update. *)
Definition shift (self : t) (h m s ms : Number.t)
    (frames : option Z) (fps : option time.fps_arg) : result t :=
  match frames, fps with
  | None, None =>
      do delta <- time.make_time h m s ms None None None;
      let start' := start self + delta in
      let start' := Z.max start' 0 in
      let end' := end_ self + delta in
      let end' := Z.max end' 0 in
      Ok (mk start' end' (text self) (marked self) (layer self) (style self)
            (name self) (marginl self) (marginr self) (marginv self)
            (effect self) (type self) (language self))
  | None, _ | _, None => Raise ValueError
  | Some frames, Some fps =>
      do ts <- match fps with
               | time.Real fps => timestamps.from_fps fps
               | time.Table ts => Ok ts
               end;
      do start_frame <- timestamps.ms_to_frames ts (start self) timestamps.START;
      do end_frame <- timestamps.ms_to_frames ts (end_ self) timestamps.END;
      let start_frame := start_frame + frames in
      let end_frame := end_frame + frames in
      do start' <-
        match timestamps.frames_to_ms ts start_frame timestamps.START with
        | Raise ValueError => Ok 0
        | r => r
        end;
      do end' <-
        match timestamps.frames_to_ms ts end_frame timestamps.END with
        | Raise ValueError => Ok 0
        | r => r
        end;
      Ok (mk start' end' (text self) (marked self) (layer self) (style self)
            (name self) (marginl self) (marginr self) (marginv self)
            (effect self) (type self) (language self))
  end.

(** [self.as_dict()] *)
Definition as_dict (self : t) : gmap string value :=
  list_to_map
    [("start", VInt (start self)); ("end", VInt (end_ self));
     ("text", VStr (text self)); ("marked", VBool (marked self));
     ("layer", VInt (layer self)); ("style", VStr (style self));
     ("name", VStr (name self)); ("marginl", VInt (marginl self));
     ("marginr", VInt (marginr self)); ("marginv", VInt (marginv self));
     ("effect", VStr (effect self)); ("type", VStr (type self));
     ("language", match language self with
                  | Some l => VStr l
                  | None => VNone
                  end)].

(** [self.equals(other)] for an [other] that is an SSAEvent. *)
Definition equals (self other : t) : bool :=
  bool_decide (as_dict self = as_dict other).

(** The comparison operators, for an [other] that is an SSAEvent. *)
Definition __eq__ (self other : t) : bool :=
  (start self =? start other) && (end_ self =? end_ other).

Definition __ne__ (self other : t) : bool :=
  negb (start self =? start other) || negb (end_ self =? end_ other).

Definition __lt__ (self other : t) : bool :=
  Py.tuple_compare Z.ltb false (start self, end_ self) (start other, end_ other).

Definition __le__ (self other : t) : bool :=
  Py.tuple_compare Z.leb true (start self, end_ self) (start other, end_ other).

Definition __gt__ (self other : t) : bool :=
  Py.tuple_compare Z.gtb false (start self, end_ self) (start other, end_ other).

Definition __ge__ (self other : t) : bool :=
  Py.tuple_compare Z.geb true (start self, end_ self) (start other, end_ other).

(** The setter of [duration]: the event after [self.duration = ms]. *)
Definition set_duration (self : t) (ms : Z) : result t :=
  if 0 <=? ms then
    Ok (mk (start self) (start self + ms) (text self) (marked self)
          (layer self) (style self) (name self) (marginl self) (marginr self)
          (marginv self) (effect self) (type self) (language self))
  else Raise ValueError.

(** The setter of [is_comment]: the event after [self.is_comment = value]. *)
Definition set_is_comment (self : t) (value : bool) : t :=
  mk (start self) (end_ self) (text self) (marked self) (layer self)
    (style self) (name self) (marginl self) (marginr self) (marginv self)
    (effect self) (if value then "Comment" else "Dialogue") (language self).

(** The getter of [plaintext] *)
Definition plaintext (self : t) : str :=
  let text := text self in
  let text := Re.sub OVERRIDE_SEQUENCE 0 "" text in
  let text := Py.replace text "\h" " " in
  let text := Py.replace text "\n" [Py.LF] in
  text.

End SSAEvent.

(** ** pysubs3/ssastyle.py, pysubs3/ssafile.py, pysubs3/substation.py

    These files are not among the sources at hand; the adapters use a small
    part of each. *)

Module SSAStyle.

(** Modelled from the spec: the style record [SSAStyle], missing from the
    sources, with the boolean attributes the adapters and the tests of
    [parse_tags] read. *)
Record t := mk {
  italic : bool;
  underline : bool;
  strikeout : bool;
  drawing : bool;
  bold : bool
}.

Definition DEFAULT_STYLE : t := mk false false false false false.

End SSAStyle.

Module SSAFile.

(** Modelled from the spec: the subtitle collection [SSAFile], missing from
    the sources: the ordered entries, which iterating the collection yields,
    and the style table. *)
Record t := mk {
  events : list SSAEvent.t;
  styles : gmap str SSAStyle.t
}.

End SSAFile.

Module substation.

(** Modelled from the spec: the tokens of a marked-up text, a literal span
    or the body of a directive. *)
Inductive token :=
| Literal (s : str)
| Directive (body : str).

(** Modelled from the spec: the text cut at its override sequences (the
    pattern [SSAEvent.OVERRIDE_SEQUENCE] of ssaevent.py): literal spans and
    directive bodies alternate, from a literal to a literal.  [cur] is the literal
    being read, last character first. *)
Fixpoint tokens_from (s cur : str) (skip : nat) : list token :=
  match s with
  | [] => [Literal (rev cur)]
  | c :: s' =>
      match skip with
      | S k => tokens_from s' cur k
      | O =>
          match Re.match_at SSAEvent.OVERRIDE_SEQUENCE 0 s with
          | Some (len, _) =>
              Literal (rev cur) :: Directive (take (len - 2) s')
                :: tokens_from s' [] (Nat.pred len)
          | None => tokens_from s' (c :: cur) 0
          end
      end
  end.

(** Modelled from the spec: the pieces of [s] between the occurrences of
    [sep]; the tags of a directive are separated by backslashes. *)
Fixpoint split_on (sep : ascii) (s cur : str) : list str :=
  match s with
  | [] => [rev cur]
  | c :: s' => if Ascii.eqb c sep then rev cur :: split_on sep s' []
               else split_on sep s' (c :: cur)
  end.

(** Modelled from the spec: the value of an on/off tag. *)
Definition on_off (value : str) : option bool :=
  match value with
  | [c] => if Ascii.eqb c "1" then Some true
           else if Ascii.eqb c "0" then Some false else None
  | _ => None
  end.

(** Modelled from the spec: one tag of a directive, without its backslash,
    applied to the style [sty]; [base] is the style of the entry.  [r] resets
    to the style of the entry, [r] with a name to that style of the table;
    [i], [u], [s], [b] with 1 or 0 switch an attribute; [p] with a number
    switches the drawing mode.  A tag that is not recognised changes
    nothing. *)
Definition apply_tag (base : SSAStyle.t) (styles : gmap str SSAStyle.t)
    (sty : SSAStyle.t) (tag : str) : SSAStyle.t :=
  match tag with
  | [] => sty
  | c :: value =>
      let '(SSAStyle.mk i u s p b) := sty in
      if Ascii.eqb c "r" then
        match value with
        | [] => base
        | _ => match styles !! value with Some named => named | None => sty end
        end
      else if Ascii.eqb c "i" then
        match on_off value with Some v => SSAStyle.mk v u s p b | None => sty end
      else if Ascii.eqb c "u" then
        match on_off value with Some v => SSAStyle.mk i v s p b | None => sty end
      else if Ascii.eqb c "s" then
        match on_off value with Some v => SSAStyle.mk i u v p b | None => sty end
      else if Ascii.eqb c "b" then
        match on_off value with Some v => SSAStyle.mk i u s p v | None => sty end
      else if Ascii.eqb c "p" then
        match value, Py.digits_value value 0 with
        | _ :: _, Some scale => SSAStyle.mk i u s (0 <? scale) b
        | _, _ => sty
        end
      else sty
  end.

(** Modelled from the spec: a directive body applied to a style; its tags
    are the pieces that follow a backslash. *)
Definition apply_directive (base : SSAStyle.t) (styles : gmap str SSAStyle.t)
    (sty : SSAStyle.t) (body : str) : SSAStyle.t :=
  fold_left (apply_tag base styles) (tail (split_on "\" body [])) sty.

(** Modelled from the spec: the runs of the tokens that follow the first
    literal.  A literal is a run in the style reached so far; an empty
    literal between two adjacent directives is no run. *)
Fixpoint runs_from (base : SSAStyle.t) (styles : gmap str SSAStyle.t)
    (sty : SSAStyle.t) (toks : list token) : list (str * SSAStyle.t) :=
  match toks with
  | [] => []
  | Directive body :: toks' =>
      runs_from base styles (apply_directive base styles sty body) toks'
  | Literal s :: toks' =>
      match s, toks' with
      | [], _ :: _ => runs_from base styles sty toks'
      | _, _ => (s, sty) :: runs_from base styles sty toks'
      end
  end.

(** Modelled from the spec: [parse_tags(text, style, styles)], missing from
    the sources: the text as runs of (text, style).  The first run is in the
    style of the entry and is there even when it is empty; every directive
    closes the run before it.  The stack of checkpoints the spec gives to the
    reset directive has no effect on the runs it describes and is left
    out. *)
Definition parse_tags (text : str) (style : SSAStyle.t)
    (styles : gmap str SSAStyle.t) : list (str * SSAStyle.t) :=
  match tokens_from text [] 0 with
  | Literal s :: toks => (s, style) :: runs_from style styles style toks
  | toks => runs_from style styles style toks
  end.

End substation.


(** ** pysubs3/formatbase.py

    The members of a format class that the shared reader and writer reach
    through [cls]. *)

Module formatbase.

Record FormatBase := mkFormat {
  TIMESTAMP : Re.regex;
  ms_to_timestamp : Z -> str * list warning;
  timestamp_to_ms : list str -> result Z;
  _get_visible_lines : SSAFile.t -> list SSAEvent.t
}.

End formatbase.

(** ** pysubs3/lang_detector/__init__.py *)

Module lang_detector.

(** [text_preprocess(text)] *)
Definition text_preprocess (text : str) : str :=
  Py.strip
    (Py.replace
       (Py.replace (Py.replace text [Py.LF] " ") [Py.CR] " ")
       [ascii_of_N 9] " ").

(** One entry of what [get_language] returns, the dict with the keys
    ["lang"] and ["prob"]; the probability by its value. *)
Record guess := mk_guess { lang : str; prob : Q }.

(** [get_language] returns one dict for [top_k = 1] and a list of dicts
    otherwise. *)
Inductive languages :=
| One (g : guess)
| Several (gs : list guess).

Section get_language.
(** [FT_MODEL.predict(text, top_k)] of fastText, the model loaded with
    [fasttext.load_model] when it is first needed: the labels and their
    probabilities.  Third-party code; it raises when the import of fasttext
    has failed (which the module tolerates) or the model cannot be
    loaded. *)
Variable predict : str -> Z -> result (list str * list Q).

(** [get_language(text, top_k)] *)
Definition get_language (text : str) (top_k : Z) : result languages :=
  if (top_k <? 1) || (176 <? top_k) then Raise ValueError
  else
    do r <- predict (text_preprocess text) top_k;
    let '(langs, probs) := r in
    if 1 <? top_k then
      Ok (Several
            (map (fun '(lang, prob) =>
                    mk_guess (Py.replace lang "__label__" "") prob)
                 (zip langs probs)))
    else
      match langs with
      | lang :: _ =>
          match probs with
          | prob :: _ =>
              Ok (One (mk_guess (Py.replace lang "__label__" "") prob))
          | [] => Raise IndexError
          end
      | [] => Raise IndexError
      end.
End get_language.

End lang_detector.

(** ** pysubs3/subrip.py *)

Module SubripFormat.
Import formatbase.

(** [MAX_REPRESENTABLE_TIME = make_time(h=100) - 1], evaluated when the
    module is loaded; [make_time] returns there. *)
Definition MAX_REPRESENTABLE_TIME : Z :=
  match
    time.make_time (Number.Int 100) (Number.Int 0) (Number.Int 0)
      (Number.Int 0) None None None
  with
  | Ok t => t - 1
  | Raise _ => 0
  end.

Definition overflow_warning : warning :=
  RuntimeWarning
    "Overflow in SubRip timestamp, clamping to MAX_REPRESENTABLE_TIME".

(** [SubripFormat.ms_to_timestamp(ms)] *)
Definition ms_to_timestamp (ms : Z) : str * list warning :=
  let ms := if ms <? 0 then 0 else ms in
  let '(ms, warned) :=
    if MAX_REPRESENTABLE_TIME <? ms
    then (MAX_REPRESENTABLE_TIME, [overflow_warning])
    else (ms, []) in
  let '(time.mkTimes h m s ms) := time.ms_to_times (inject_Z ms) in
  (Py.format_0d 2 h ++ ":" ++ Py.format_0d 2 m ++ ":" ++ Py.format_0d 2 s
     ++ "," ++ Py.format_0d 3 ms,
   warned).

(** [SubripFormat.timestamp_to_ms(groups)] *)
Definition timestamp_to_ms (groups : list str) : result Z :=
  time.timestamp_to_ms groups.

(** The loop of [guess_format] over the lines. *)
Fixpoint guess_lines (cls : FormatBase) (lines : list str) : option str :=
  match lines with
  | [] => None
  | line :: lines' =>
      if (length (Re.findall (formatbase.TIMESTAMP cls) 4 line) =? 2)%nat
      then Some ("srt" : str)
      else guess_lines cls lines'
  end.

(** [SubripFormat.guess_format(text)], a classmethod: [cls] is the class it
    is called on. *)
Definition guess_format (cls : FormatBase) (text : str) : option str :=
  if Py.contains "[Script Info]" text || Py.contains "[V4+ Styles]" text
  then None
  else if Py.startswith (Py.lstrip text) "WEBVTT"
  then None
  else guess_lines cls (Py.splitlines text).

(** [SubripFormat._get_visible_lines(subs)] *)
Definition _get_visible_lines (subs : SSAFile.t) : list SSAEvent.t :=
  filter (fun line => negb (SSAEvent.is_comment line)) (SSAFile.events subs).

Definition cls : FormatBase :=
  mkFormat time.TIMESTAMP ms_to_timestamp timestamp_to_ms _get_visible_lines.

(** *** The reader *)

Section from_file.
(** [BeautifulSoup(s, "html.parser").get_text()] is third-party code; it
    can raise (the parser of the standard library does on some markup). *)
Variable get_text : str -> result str.
(** The fastText model behind [get_language]. *)
Variable predict : str -> Z -> result (list str * list Q).

Variable cls : FormatBase.
Variable keep_html_tags : bool.
Variable detect_language : bool.

(** [\s*$], [\s*\d+\s*$] and [\n+ *\d+ *$] *)
Definition BLANK : Re.regex := (Re.Many Py.isspace 0 ;; Re.Eos)%re.
Definition NUMBER : Re.regex :=
  (Re.Many Py.isspace 0 ;; Re.Many Py.isdigit 1 ;; Re.Many Py.isspace 0 ;;
   Re.Eos)%re.
Definition NEXT_NUMBER : Re.regex :=
  (Re.Many Re.is_LF 1 ;; Re.Many Re.is_SP 0 ;; Re.Many Py.isdigit 1 ;;
   Re.Many Re.is_SP 0 ;; Re.Eos)%re.

(** The state of the loop over the lines of the file. *)
Definition reader_state : Type := list (Z * Z) * list (list str).

Definition read_line (st : reader_state) (line : str) : result reader_state :=
  let '(timestamps, following_lines) := st in
  let stamps := Re.findall (formatbase.TIMESTAMP cls) 4 line in
  match stamps with
  | [stamp1; stamp2] =>
      do start <- formatbase.timestamp_to_ms cls stamp1;
      do end_ <- formatbase.timestamp_to_ms cls stamp2;
      Ok (timestamps ++ [(start, end_)], following_lines ++ [[]])
  | _ =>
      match timestamps with
      | _ :: _ =>
          Ok (timestamps,
              alter (fun lines => lines ++ [line])
                    (Nat.pred (length following_lines)) following_lines)
      | [] => Ok st
      end
  end.

Fixpoint read_lines (st : reader_state) (fp : list str) : result reader_state :=
  match fp with
  | [] => Ok st
  | line :: fp' => do st' <- read_line st line; read_lines st' fp'
  end.

(** [prepare_text(lines)] of [from_file] *)
Definition from_file_prepare_text (lines : list str) : result str :=
  if (2 <=? length lines)%nat
     && forallb (Re.match_ BLANK 0) (removelast lines)
     && Re.match_ NUMBER 0 (List.last lines [])
  then Ok []
  else
    let s := Py.strip (Py.join lines) in
    let s := Re.sub NEXT_NUMBER 0 "" s in
    if negb keep_html_tags then
      do soup <- get_text s;
      Ok (Py.strip soup)
    else Ok s.

(** [get_language(text)["lang"]]: the subscript is a TypeError on a
    list. *)
Definition language_of (text : str) : result str :=
  do r <- lang_detector.get_language predict text 1;
  match r with
  | lang_detector.One g => Ok (lang_detector.lang g)
  | lang_detector.Several _ => Raise TypeError
  end.

(** The entry stored for a timestamp line and the lines that follow it;
    with [detect_language], [prepare_text] is called a second time for the
    argument of [get_language]. *)
Definition make_event (entry : (Z * Z) * list str) : result SSAEvent.t :=
  let '((start, end_), lines) := entry in
  if detect_language then
    do text <- from_file_prepare_text lines;
    do text' <- from_file_prepare_text lines;
    do language <- language_of text';
    Ok (SSAEvent.new start end_ text (Some language))
  else
    do text <- from_file_prepare_text lines;
    Ok (SSAEvent.new start end_ text None).

(** [SubripFormat.from_file(subs, fp, ...)]: the entries it stores in
    [subs.events]; [fp] is the file as its lines. *)
Definition from_file (fp : list str) : result (list SSAEvent.t) :=
  do st <- read_lines ([], []) fp;
  let '(timestamps, following_lines) := st in
  mapM make_event (zip timestamps following_lines).
End from_file.

(** *** The writer *)

Section to_file.
(** [substation.parse_tags] *)
Variable parse_tags :
  str -> SSAStyle.t -> gmap str SSAStyle.t -> list (str * SSAStyle.t).

Variable cls : FormatBase.
Variable subs : SSAFile.t.
Variable apply_styles : bool.
Variable keep_ssa_tags : bool.

(** The loop of [prepare_text] over the fragments: [body] grows, or the
    first drawing fragment raises. *)
Fixpoint collect_fragments (fragments : list (str * SSAStyle.t))
    (body : list str) : result (list str) :=
  match fragments with
  | [] => Ok body
  | (fragment, sty) :: fragments' =>
      let fragment :=
        if apply_styles then
          let fragment :=
            if SSAStyle.italic sty then "<i>" ++ fragment ++ "</i>"
            else fragment in
          let fragment :=
            if SSAStyle.underline sty then "<u>" ++ fragment ++ "</u>"
            else fragment in
          let fragment :=
            if SSAStyle.strikeout sty then "<s>" ++ fragment ++ "</s>"
            else fragment in
          fragment
        else fragment in
      if SSAStyle.drawing sty then Raise ContentNotUsable
      else collect_fragments fragments' (body ++ [fragment])
  end.

(** [prepare_text(text, style)] of [to_file] *)
Definition to_file_prepare_text (text : str) (style : SSAStyle.t)
    : result str :=
  let text := Py.replace text "\h" " " in
  let text := Py.replace text "\n" [Py.LF] in
  do body <-
    (if keep_ssa_tags then Ok [text]
     else collect_fragments (parse_tags text style (SSAFile.styles subs)) []);
  Ok (Re.sub (Re.Many Re.is_LF 1) 0 [Py.LF] (Py.strip (Py.join body))).

(** The loop of [to_file] over the visible lines: what is printed from
    [lineno] on, and the warnings issued on the way. *)
Fixpoint write_lines (lines : list SSAEvent.t) (lineno : Z)
    : result (str * list warning) :=
  match lines with
  | [] => Ok ([], [])
  | line :: lines' =>
      let '(start, w1) := formatbase.ms_to_timestamp cls (SSAEvent.start line) in
      let '(end_, w2) := formatbase.ms_to_timestamp cls (SSAEvent.end_ line) in
      match to_file_prepare_text (SSAEvent.text line)
              (default SSAStyle.DEFAULT_STYLE
                 (SSAFile.styles subs !! SSAEvent.style line)) with
      | Raise ContentNotUsable =>
          do rest <- write_lines lines' lineno;
          Ok (rest.1, w1 ++ w2 ++ rest.2)
      | Raise e => Raise e
      | Ok text =>
          do rest <- write_lines lines' (lineno + 1);
          Ok (Py.format_d lineno ++ [Py.LF]
                ++ start ++ " --> " ++ end_ ++ [Py.LF]
                ++ text ++ [Py.LF; Py.LF]
                ++ rest.1,
              w1 ++ w2 ++ rest.2)
      end
  end.

(** [SubripFormat.to_file(subs, fp, ...)]: the text written to [fp] and
    the warnings issued. *)
Definition to_file : result (str * list warning) :=
  let visible_lines := formatbase._get_visible_lines cls subs in
  write_lines visible_lines 1.
End to_file.

End SubripFormat.

(** ** pysubs3/webvtt.py *)

Module WebVTTFormat.
Import formatbase.

(** [TIMESTAMP]: [(\d{0,4}:)?(\d{2}):(\d{2})\.(\d{2,3})] *)
Definition TIMESTAMP : Re.regex :=
  (Re.Repeat (Re.Group 0 (Re.d 0 4 ;; Re.lit ":")) 0 1 ;;
   Re.Group 1 (Re.d 2 2) ;; Re.lit ":" ;;
   Re.Group 2 (Re.d 2 2) ;; Re.lit "." ;;
   Re.Group 3 (Re.d 2 3))%re.

(** [WebVTTFormat.ms_to_timestamp(ms)] *)
Definition ms_to_timestamp (ms : Z) : str * list warning :=
  let '(result, warned) := SubripFormat.ms_to_timestamp ms in
  (Py.replace result "," ".", warned).

(** [WebVTTFormat.timestamp_to_ms(groups)] *)
Definition timestamp_to_ms (groups : list str) : result Z :=
  match groups with
  | [_h; _m; _s; _ms] =>
      do h <- match _h with
              | [] => Ok 0
              | _ => int (Py.strip_chars _h ":")
              end;
      do vals <- mapM int [_m; _s; _ms];
      match vals with
      | [m; s; ms] =>
          time.make_time (Number.Int h) (Number.Int m) (Number.Int s)
            (Number.Int ms) None None None
      | _ => Raise ValueError
      end
  | _ => Raise ValueError
  end.

(** [WebVTTFormat.guess_format(text)] *)
Definition guess_format (text : str) : option str :=
  if Py.startswith (Py.lstrip text) "WEBVTT" then Some ("vtt" : str) else None.

(** [WebVTTFormat._get_visible_lines(subs)] *)
Definition _get_visible_lines (subs : SSAFile.t) : list SSAEvent.t :=
  let visible_lines :=
    filter (fun line => negb (SSAEvent.is_comment line)) (SSAFile.events subs) in
  Py.sorted_by_key SSAEvent.start visible_lines.

Definition cls : FormatBase :=
  mkFormat TIMESTAMP ms_to_timestamp timestamp_to_ms _get_visible_lines.

(** [WebVTTFormat.to_file(subs, fp, ...)]: the header line, then the writer
    of the parent class run for this class. *)
Definition to_file
    (parse_tags :
       str -> SSAStyle.t -> gmap str SSAStyle.t -> list (str * SSAStyle.t))
    (subs : SSAFile.t) (apply_styles keep_ssa_tags : bool)
    : result (str * list warning) :=
  do out <- SubripFormat.to_file parse_tags cls subs apply_styles keep_ssa_tags;
  Ok ("WEBVTT" ++ [Py.LF; Py.LF] ++ out.1, out.2).

End WebVTTFormat.

(** ** pysubs3/formats.py *)

Module formats.

(** The loop of [autodetect_format]: every class is asked for its guess and
    the guesses that are not None are added to the set [formats]. *)
Definition collect_guesses (impls : list (str -> option str)) (content : str)
    : gset str :=
  fold_left
    (fun formats guess_format =>
       match guess_format content with
       | Some guess => formats ∪ {[guess]}
       | None => formats
       end)
    impls ∅.

(** The three-way end of [autodetect_format]. *)
Definition resolve (formats : gset str) : result str :=
  if (size formats =? 1)%nat then
    match elements formats with
    | guess :: _ => Ok guess
    | [] => Raise KeyError
    end
  else if bool_decide (formats = ∅) then
    Raise (FormatAutodetectionError No_suitable_formats)
  else
    Raise (FormatAutodetectionError (Multiple_suitable_formats formats)).

(** The exceptions of the look-ups. *)
Inductive lookup_error :=
| UnknownFormatIdentifierError (format_ : str)
| UnknownFileExtensionError (ext : str)
| RuntimeError (format_ : str).

(** [FILE_EXTENSION_TO_FORMAT_IDENTIFIER] *)
Definition FILE_EXTENSION_TO_FORMAT_IDENTIFIER : list (str * str) :=
  [(".srt" : str, "srt" : str);
   (".ass" : str, "ass" : str);
   (".ssa" : str, "ssa" : str);
   (".sub" : str, "microdvd" : str);
   (".json" : str, "json" : str);
   (".txt" : str, "tmp" : str);
   (".vtt" : str, "vtt" : str)].

(** [get_format_identifier(ext)] *)
Definition get_format_identifier (ext : str) : str + lookup_error :=
  match Py.dict_get FILE_EXTENSION_TO_FORMAT_IDENTIFIER ext with
  | Some format_ => inl format_
  | None => inr (UnknownFileExtensionError ext)
  end.

(** The loop of [get_file_extension] over the items. *)
Fixpoint first_extension (items : list (str * str)) (format_ : str)
    : str + lookup_error :=
  match items with
  | [] => inr (RuntimeError format_)
  | (ext, f) :: items' =>
      if bool_decide (f = format_) then inl ext
      else first_extension items' format_
  end.

Section registry.
(** The [guess_format] of the format classes whose files are not among the
    sources at hand. *)
Variable SubstationFormat_guess_format : str -> option str.
Variable MicroDVDFormat_guess_format : str -> option str.
Variable JSONFormat_guess_format : str -> option str.
Variable MPL2Format_guess_format : str -> option str.
Variable TmpFormat_guess_format : str -> option str.

(** [FORMAT_IDENTIFIER_TO_FORMAT_CLASS], each class by its
    [guess_format]. *)
Definition FORMAT_IDENTIFIER_TO_FORMAT_CLASS
    : list (str * (str -> option str)) :=
  [("srt" : str, SubripFormat.guess_format SubripFormat.cls);
   ("ass" : str, SubstationFormat_guess_format);
   ("ssa" : str, SubstationFormat_guess_format);
   ("microdvd" : str, MicroDVDFormat_guess_format);
   ("json" : str, JSONFormat_guess_format);
   ("mpl2" : str, MPL2Format_guess_format);
   ("tmp" : str, TmpFormat_guess_format);
   ("vtt" : str, WebVTTFormat.guess_format)].

(** [autodetect_format(content)] *)
Definition autodetect_format (content : str) : result str :=
  resolve (collect_guesses (map snd FORMAT_IDENTIFIER_TO_FORMAT_CLASS) content).

(** [FORMAT_IDENTIFIERS] *)
Definition FORMAT_IDENTIFIERS : list str :=
  map fst FORMAT_IDENTIFIER_TO_FORMAT_CLASS.

(** [get_format_class(format_)], the class by its [guess_format]. *)
Definition get_format_class (format_ : str)
    : (str -> option str) + lookup_error :=
  match Py.dict_get FORMAT_IDENTIFIER_TO_FORMAT_CLASS format_ with
  | Some impl => inl impl
  | None => inr (UnknownFormatIdentifierError format_)
  end.

(** [get_file_extension(format_)] *)
Definition get_file_extension (format_ : str) : str + lookup_error :=
  match Py.dict_get FORMAT_IDENTIFIER_TO_FORMAT_CLASS format_ with
  | None => inr (UnknownFormatIdentifierError format_)
  | Some _ => first_extension FILE_EXTENSION_TO_FORMAT_IDENTIFIER format_
  end.
End registry.

End formats.

(** * Definitions used to state the properties

    These follow the wording of the specification, not the sources; the
    properties compare them with the functions above. *)

Module Spec.

(** The pair entries are ordered by. *)
Definition key (e : SSAEvent.t) : Z * Z := (SSAEvent.start e, SSAEvent.end_ e).

(** The lexicographic order on pairs of ints. *)
Definition lex_lt (a b : Z * Z) : Prop :=
  a.1 < b.1 \/ (a.1 = b.1 /\ a.2 < b.2).

Definition lex_le (a b : Z * Z) : Prop := lex_lt a b \/ a = b.

(** Every field of [a] equals the corresponding field of [b]. *)
Definition fields_equal (a b : SSAEvent.t) : Prop :=
  SSAEvent.start a = SSAEvent.start b
  /\ SSAEvent.end_ a = SSAEvent.end_ b
  /\ SSAEvent.text a = SSAEvent.text b
  /\ SSAEvent.marked a = SSAEvent.marked b
  /\ SSAEvent.layer a = SSAEvent.layer b
  /\ SSAEvent.style a = SSAEvent.style b
  /\ SSAEvent.name a = SSAEvent.name b
  /\ SSAEvent.marginl a = SSAEvent.marginl b
  /\ SSAEvent.marginr a = SSAEvent.marginr b
  /\ SSAEvent.marginv a = SSAEvent.marginv b
  /\ SSAEvent.effect a = SSAEvent.effect b
  /\ SSAEvent.type a = SSAEvent.type b
  /\ SSAEvent.language a = SSAEvent.language b.

(** The value of [H:MM:SS.mm] read as hours, minutes, seconds and hundredths
    of a second. *)
Definition hundredths_to_ms (h m s mm : Z) : Z :=
  h * 3600000 + m * 60000 + s * 1000 + mm * 10.

(** [ms] brought into the range a SubRip timestamp can show. *)
Definition clamp (ms : Z) : Z :=
  Z.max 0 (Z.min ms SubripFormat.MAX_REPRESENTABLE_TIME).

(** The character of a decimal digit. *)
Definition digit_char (d : Z) : ascii := ascii_of_N (Z.to_N (48 + d)).

Definition two_digits (n : Z) : str :=
  [digit_char (n / 10); digit_char (n mod 10)].

Definition three_digits (n : Z) : str :=
  [digit_char (n / 100); digit_char (n / 10 mod 10); digit_char (n mod 10)].

(** [HH:MM:SS,mmm], with [sep] before the milliseconds. *)
Definition render_timestamp (sep : ascii) (t : Z) : str :=
  two_digits (t / 3600000) ++ ":" ++ two_digits (t / 60000 mod 60) ++ ":"
    ++ two_digits (t / 1000 mod 60) ++ [sep] ++ three_digits (t mod 1000).

(** The number a text of decimal digits denotes. *)
Definition decimal (digits : str) : Z :=
  fold_left (fun acc c => 10 * acc + Py.digit_value c) digits 0.

(** A non-empty text of decimal digits. *)
Definition digit_string (g : str) : Prop :=
  g <> [] /\ Forall (fun c => Py.isdigit c = true) g.

(** The four groups of digits of a rendered timestamp. *)
Definition timestamp_groups (t : Z) : list str :=
  [two_digits (t / 3600000); two_digits (t / 60000 mod 60);
   two_digits (t / 1000 mod 60); three_digits (t mod 1000)].

(** The four groups the pattern of WebVTT takes from a rendered timestamp:
    the hours keep their colon. *)
Definition webvtt_timestamp_groups (t : Z) : list str :=
  [two_digits (t / 3600000) ++ ":"; two_digits (t / 60000 mod 60);
   two_digits (t / 1000 mod 60); three_digits (t mod 1000)].

(** [marker] occurs somewhere in [text]. *)
Definition occurs_in (marker text : str) : Prop :=
  exists before after, text = before ++ marker ++ after.

(** [text], after its leading whitespace, starts with [marker]. *)
Definition starts_after_whitespace (marker text : str) : Prop :=
  exists spaces rest,
    text = spaces ++ marker ++ rest
    /\ Forall (fun c => Py.isspace c = true) spaces.

(** The text carries a marker of SubStation or the signature of WebVTT. *)
Definition foreign_signature (text : str) : Prop :=
  occurs_in "[Script Info]" text
  \/ occurs_in "[V4+ Styles]" text
  \/ starts_after_whitespace "WEBVTT" text.

(** Some line of the text holds exactly two matches of the SubRip
    timestamp pattern. *)
Definition has_timestamp_line (text : str) : Prop :=
  exists line,
    line ∈ Py.splitlines text
    /\ length (Re.findall time.TIMESTAMP 4 line) = 2%nat.

(** A line of whitespace only. *)
Definition blank (line : str) : Prop :=
  Forall (fun c => Py.isspace c = true) line.

(** A bare number: digits, with whitespace around at most. *)
Definition bare_number (line : str) : Prop :=
  exists before digits after,
    line = before ++ digits ++ after
    /\ Forall (fun c => Py.isspace c = true) before
    /\ digits <> []
    /\ Forall (fun c => Py.isdigit c = true) digits
    /\ Forall (fun c => Py.isspace c = true) after.

(** The body of an empty subtitle: at least two lines, blank but for the
    last, which is a bare number. *)
Definition empty_subtitle_body (lines : list str) : Prop :=
  (2 <= length lines)%nat
  /\ Forall blank (removelast lines)
  /\ bare_number (List.last lines []).

(** The number of the next entry left at the end of a body: newlines, then
    a number with spaces around at most. *)
Definition next_number_artifact (t : str) : Prop :=
  exists newlines spaces digits spaces',
    t = newlines ++ spaces ++ digits ++ spaces'
    /\ newlines <> []
    /\ Forall (fun c => c = Py.LF) newlines
    /\ Forall (fun c => c = " "%char) spaces
    /\ digits <> []
    /\ Forall (fun c => Py.isdigit c = true) digits
    /\ Forall (fun c => c = " "%char) spaces'.

(** *** The writer *)

Section Writer.
Variable parse_tags :
  str -> SSAStyle.t -> gmap str SSAStyle.t -> list (str * SSAStyle.t).
Variable cls : formatbase.FormatBase.
Variable subs : SSAFile.t.
Variable apply_styles : bool.

(** The runs of an entry: its text, with the whitespace escapes replaced,
    parsed against the style of the entry. *)
Definition runs (line : SSAEvent.t) : list (str * SSAStyle.t) :=
  parse_tags
    (Py.replace (Py.replace (SSAEvent.text line) "\h" " ") "\n" [Py.LF])
    (default SSAStyle.DEFAULT_STYLE
       (SSAFile.styles subs !! SSAEvent.style line))
    (SSAFile.styles subs).

(** Some run of the entry is in drawing mode. *)
Definition has_drawing_run (line : SSAEvent.t) : bool :=
  existsb (fun run => SSAStyle.drawing run.2) (runs line).

(** A run in the markup of SubRip: italic innermost, then underline, then
    strikeout. *)
Definition markup (run : str * SSAStyle.t) : str :=
  let fragment := run.1 in
  if apply_styles then
    let fragment :=
      if SSAStyle.italic run.2 then "<i>" ++ fragment ++ "</i>"
      else fragment in
    let fragment :=
      if SSAStyle.underline run.2 then "<u>" ++ fragment ++ "</u>"
      else fragment in
    if SSAStyle.strikeout run.2 then "<s>" ++ fragment ++ "</s>"
    else fragment
  else fragment.

(** The text written for some runs: joined, stripped, runs of newlines
    made one. *)
Definition written_text (rs : list (str * SSAStyle.t)) : str :=
  Re.sub (Re.Many Re.is_LF 1) 0 [Py.LF] (Py.strip (Py.join (map markup rs))).

(** An entry as it is written under the number [n], with the text
    [text]. *)
Definition written_entry (n : Z) (line : SSAEvent.t) (text : str) : str :=
  Py.format_d n ++ [Py.LF]
    ++ (formatbase.ms_to_timestamp cls (SSAEvent.start line)).1 ++ " --> "
    ++ (formatbase.ms_to_timestamp cls (SSAEvent.end_ line)).1 ++ [Py.LF]
    ++ text ++ [Py.LF; Py.LF].

(** The entries [lines], written under the numbers [n], [n + 1], ...,
    each with the text [text_of] gives it. *)
Fixpoint written_from (text_of : SSAEvent.t -> str) (n : Z)
    (lines : list SSAEvent.t) : str :=
  match lines with
  | [] => []
  | line :: lines' =>
      written_entry n line (text_of line)
        ++ written_from text_of (n + 1) lines'
  end.

(** What the code writes: the visible entries without a drawing run, each
    with all its runs. *)
Definition written_without_drawing_entries : str :=
  written_from (fun line => written_text (runs line)) 1
    (filter (fun line => negb (has_drawing_run line))
       (formatbase._get_visible_lines cls subs)).

(** What the claim describes: every visible entry, each with its runs
    that are not in drawing mode. *)
Definition written_without_drawing_runs : str :=
  written_from
    (fun line =>
       written_text
         (filter (fun run => negb (SSAStyle.drawing run.2)) (runs line)))
    1 (formatbase._get_visible_lines cls subs).

(** The warnings of the timestamps of all the visible entries. *)
Definition timestamp_warnings : list warning :=
  flat_map
    (fun line =>
       (formatbase.ms_to_timestamp cls (SSAEvent.start line)).2
         ++ (formatbase.ms_to_timestamp cls (SSAEvent.end_ line)).2)
    (formatbase._get_visible_lines cls subs).
End Writer.

(** The text written for an entry when the inline tags are kept: the
    whitespace escapes replaced, the ends stripped, runs of newlines made
    one. *)
Definition kept_tags_text (line : SSAEvent.t) : str :=
  Re.sub (Re.Many Re.is_LF 1) 0 [Py.LF]
    (Py.strip
       (Py.replace (Py.replace (SSAEvent.text line) "\h" " ") "\n" [Py.LF])).

(** The collection without its comment entries. *)
Definition without_comments (subs : SSAFile.t) : SSAFile.t :=
  SSAFile.mk
    (filter (fun line => negb (SSAEvent.is_comment line)) (SSAFile.events subs))
    (SSAFile.styles subs).

(** No override sequence in [text]: no opening brace with a closing brace
    somewhere after it. *)
Definition no_override_sequence (text : str) : Prop :=
  forall before after,
    text = before ++ "{"%char :: after -> "}"%char ∉ after.

(** The characters [text_preprocess] turns into spaces. *)
Definition is_line_noise (c : ascii) : bool :=
  Ascii.eqb c Py.LF || Ascii.eqb c Py.CR || Ascii.eqb c (ascii_of_N 9).

(** A timestamp line, for the reader run for [cls]: a line with exactly
    two matches of the pattern of [cls]. *)
Definition timestamp_line (cls : formatbase.FormatBase) (line : str) : Prop :=
  length (Re.findall (formatbase.TIMESTAMP cls) 4 line) = 2%nat.

(** The file seen as its entries: the lines before the first timestamp
    line, then the entries, each a timestamp line with its body, the lines
    up to the next timestamp line or the end of the file. *)
Definition file_entries (cls : formatbase.FormatBase) (fp leading : list str)
    (entries : list (str * list str)) : Prop :=
  fp = leading ++ concat (map (fun entry => entry.1 :: entry.2) entries)
  /\ Forall (fun line => ~ timestamp_line cls line) leading
  /\ Forall (fun entry =>
               timestamp_line cls entry.1
               /\ Forall (fun line => ~ timestamp_line cls line) entry.2)
            entries.

(** The text stored for a body.  For an empty-subtitle body it is empty.
    For any other body, [kept] is the joined lines, stripped at both ends,
    without the longest end that is the artifact of the next entry's
    number; [kept] is stored as it is when [keep_html_tags] is set, and
    after the markup-stripping [get_text] and one more strip otherwise. *)
Definition stored_of_body (get_text : str -> result str)
    (keep_html_tags : bool) (lines : list str) (stored : str) : Prop :=
  (empty_subtitle_body lines /\ stored = [])
  \/ (~ empty_subtitle_body lines
      /\ exists kept artifact,
           Py.strip (Py.join lines) = kept ++ artifact
           /\ (artifact = [] \/ next_number_artifact artifact)
           /\ (forall before t,
                 Py.strip (Py.join lines) = before ++ t ->
                 next_number_artifact t ->
                 (length kept <= length before)%nat)
           /\ if keep_html_tags then stored = kept
              else exists soup,
                     get_text kept = Ok soup /\ stored = Py.strip soup).

End Spec.

(** * Sample inputs *)

Module Samples.

(** The text of the test [test_drawing_tag]: a drawing, then [test]. *)
Definition drawing_then_text : SSAEvent.t :=
  SSAEvent.new 0 10000 "{\p1}m 0 0 l 100 0 100 100 0 100{\p0}test" None.

Definition one_drawing_entry : SSAFile.t :=
  SSAFile.mk [drawing_then_text] ∅.

Definition hello : SSAEvent.t :=
  SSAEvent.new 1000 2000 "Hello, {\i1}world{\i0}!" None.

Definition three_entries : SSAFile.t :=
  SSAFile.mk [hello; drawing_then_text; SSAEvent.new 3000 4500 "Bye" None] ∅.

(** Classes that never guess, and one that always claims SubStation. *)
Definition no_guess : str -> option str := fun _ => None.
Definition guess_ass : str -> option str := fun _ => Some ("ass" : str).

Definition nl : str := [Py.LF].

(** A markup-stripping step that returns the text as it is, a fastText that
    could not be imported, and one that takes every text for English. *)
Definition plain_text : str -> result str := fun s => Ok s.
Definition no_fasttext : str -> Z -> result (list str * list Q) :=
  fun _ _ => Raise (Other "NameError").
Definition english : str -> Z -> result (list str * list Q) :=
  fun _ _ => Ok ([("__label__en" : str)], [1%Q]).

(** The lines of a file of two entries, the number of the second one after
    a blank line. *)
Definition two_entries_file : list str :=
  [("1" : str) ++ nl;
   ("00:00:01,000 --> 00:00:02,000" : str) ++ nl;
   ("Hi" : str) ++ nl;
   nl;
   ("2" : str) ++ nl;
   ("00:00:03,000 --> 00:00:04,000" : str) ++ nl;
   ("Bye" : str) ++ nl].

End Samples.

(** * Properties *)

(** ** Rounding *)

Section Rounding.
Local Open Scope Q_scope.

Lemma inject_Z_succ (z : Z) : inject_Z (z + 1) == inject_Z z + 1.
Proof. rewrite inject_Z_plus. reflexivity. Qed.

Lemma round_cases (x : Q) :
  (x - inject_Z (Qfloor x) < 1 # 2 /\ Py.round x = Qfloor x)
  \/ (1 # 2 < x - inject_Z (Qfloor x) /\ Py.round x = (Qfloor x + 1)%Z)
  \/ (x - inject_Z (Qfloor x) == 1 # 2
      /\ Py.round x
         = (if Z.even (Qfloor x) then Qfloor x else Qfloor x + 1)%Z).
Proof.
  unfold Py.round.
  destruct (Qcompare (x - inject_Z (Qfloor x)) (1 # 2)) eqn:E.
  - right; right. split; [by apply Qeq_alt | done].
  - left. split; [by apply Qlt_alt | done].
  - right; left. split; [by apply Qgt_alt | done].
Qed.

Lemma floor_bounds (x : Q) :
  inject_Z (Qfloor x) <= x /\ x < inject_Z (Qfloor x) + 1.
Proof.
  split; [apply Qfloor_le |].
  pose proof (Qlt_floor x) as H. rewrite inject_Z_succ in H. exact H.
Qed.

(** [round] is within one half of its argument. *)
Lemma round_nearest (x : Q) : Qabs (inject_Z (Py.round x) - x) <= 1 # 2.
Proof.
  destruct (floor_bounds x) as [Hlo Hhi].
  apply Qabs_Qle_condition.
  destruct (round_cases x) as [[H ->] | [[H ->] | [H ->]]].
  - split; lra.
  - rewrite inject_Z_succ. split; lra.
  - destruct (Z.even (Qfloor x)); [| rewrite inject_Z_succ]; split; lra.
Qed.

Lemma floor_inject_Z (z : Z) : Qfloor (inject_Z z) = z.
Proof. unfold Qfloor, inject_Z. simpl. apply Z.div_1_r. Qed.

Lemma round_inject_Z (z : Z) : Py.round (inject_Z z) = z.
Proof.
  unfold Py.round. rewrite floor_inject_Z.
  replace (Qcompare (inject_Z z - inject_Z z) (1 # 2)) with Lt; [done |].
  symmetry. rewrite <- Qlt_alt. lra.
Qed.

Lemma round_nonneg (x : Q) : 0 <= x -> (0 <= Py.round x)%Z.
Proof.
  intros Hx.
  assert (0 <= Qfloor x)%Z as Hfl.
  { rewrite <- (floor_inject_Z 0). by apply Qfloor_resp_le. }
  destruct (round_cases x) as [[_ ->] | [[_ ->] | [_ ->]]];
    [| | destruct (Z.even _)]; lia.
Qed.
End Rounding.

(** ** [time.ms_to_times] *)

(** C7.  For every non-negative number of milliseconds [ms], the tuple
    [(h, m, s, ms_part)] that [ms_to_times] returns has
    [0 <= ms_part < 1000], [0 <= s < 60], [0 <= m < 60] (and [0 <= h]), and
    [h * 3600000 + m * 60000 + s * 1000 + ms_part] is [ms] rounded to the
    nearest integer: [round(ms)], which lies within one half of [ms]. *)
Theorem ms_to_times_normalized (ms : Q) :
  (0 <= ms)%Q ->
  let t := time.ms_to_times ms in
  0 <= time.t_ms t < 1000
  /\ 0 <= time.t_s t < 60
  /\ 0 <= time.t_m t < 60
  /\ 0 <= time.t_h t
  /\ time.t_h t * 3600000 + time.t_m t * 60000 + time.t_s t * 1000
     + time.t_ms t = Py.round ms
  /\ (Qabs (inject_Z (Py.round ms) - ms) <= 1 # 2)%Q.
Proof.
  intros Hms. pose proof (round_nonneg ms Hms) as Hr.
  pose proof (round_nearest ms) as Hn.
  unfold time.ms_to_times, Py.divmod. cbn [time.t_h time.t_m time.t_s time.t_ms].
  set (r := Py.round ms) in *.
  pose proof (Z.mod_pos_bound r 3600000 ltac:(lia)) as H1.
  pose proof (Z.mod_pos_bound (r mod 3600000) 60000 ltac:(lia)) as H2.
  pose proof (Z.mod_pos_bound ((r mod 3600000) mod 60000) 1000 ltac:(lia)) as H3.
  pose proof (Z.div_mod r 3600000 ltac:(lia)) as E1.
  pose proof (Z.div_mod (r mod 3600000) 60000 ltac:(lia)) as E2.
  pose proof (Z.div_mod ((r mod 3600000) mod 60000) 1000 ltac:(lia)) as E3.
  assert (0 <= r / 3600000) by (apply Z.div_pos; lia).
  assert (0 <= (r mod 3600000) / 60000 < 60)
    by (split; [apply Z.div_pos; lia | apply Z.div_lt_upper_bound; lia]).
  assert (0 <= ((r mod 3600000) mod 60000) / 1000 < 60)
    by (split; [apply Z.div_pos; lia | apply Z.div_lt_upper_bound; lia]).
  repeat split; try lia; done.
Qed.

(** At one and a half milliseconds, where the tie goes to the even
    neighbour 2. *)
Lemma ms_to_times_normalized_witness :
  (0 <= 3 # 2)%Q
  /\ (let t := time.ms_to_times (3 # 2) in
      0 <= time.t_ms t < 1000
      /\ 0 <= time.t_s t < 60
      /\ 0 <= time.t_m t < 60
      /\ 0 <= time.t_h t
      /\ time.t_h t * 3600000 + time.t_m t * 60000 + time.t_s t * 1000
         + time.t_ms t = Py.round (3 # 2)
      /\ (Qabs (inject_Z (Py.round (3 # 2)) - (3 # 2)) <= 1 # 2)%Q).
Proof.
  split; [discriminate | apply (ms_to_times_normalized (3 # 2)); discriminate].
Defined.

Example ms_to_times_of_tie :
  time.ms_to_times (3 # 2) = time.mkTimes 0 0 0 2
  /\ time.ms_to_times (inject_Z 359999999) = time.mkTimes 99 59 59 999.
Proof. vm_compute. done. Qed.

(** ** [SSAEvent]: shifting and comparing *)







(** A shift back by one hour of an entry at 1 s .. 2.5 s ends at 0 .. 0. *)
Example shift_before_zero :
  SSAEvent.shift (SSAEvent.new 1000 2500 "Hi" None) (Number.Int (-1))
    (Number.Int 0) (Number.Int 0) (Number.Int 0) None None
  = Ok (SSAEvent.new 0 0 "Hi" None).
Proof. reflexivity. Qed.

(** The example of the docstring of [make_time]: [make_time(s=1.5)] is
    1500. *)
Example make_time_of_a_float :
  time.make_time (Number.Int 0) (Number.Int 0) (Number.literal 3 2)
    (Number.Int 0) None None None
  = Ok 1500.
Proof. vm_compute. reflexivity. Qed.

(** Floats are rounded as the code rounds them: [0.0005 * 1000] is the
    float 0.5, which [round] takes to 0, so that [shift(s=0.0005)] moves
    nothing. *)
Example shift_by_half_a_millisecond :
  SSAEvent.shift (SSAEvent.new (-1) 5 "Hi" None) (Number.Int 0)
    (Number.Int 0) (Number.literal 5 10000) (Number.Int 0) None None
  = Ok (SSAEvent.new 0 5 "Hi" None).
Proof. vm_compute. reflexivity. Qed.

(** [shift(h=1e305)]: the product is an infinity and [round] raises. *)
Example shift_by_an_infinity :
  SSAEvent.shift (SSAEvent.new 1000 2500 "Hi" None)
    (Number.literal (10 ^ 305) 1) (Number.Int 0) (Number.Int 0)
    (Number.Int 0) None None
  = Raise OverflowError.
Proof. vm_compute. reflexivity. Qed.

Lemma tuple_compare_lt (a b : Z * Z) :
  Py.tuple_compare Z.ltb false a b = true <-> Spec.lex_lt a b.
Proof.
  unfold Py.tuple_compare, Spec.lex_lt. destruct a as [a1 a2], b as [b1 b2]. cbn.
  destruct (Z.eqb_spec a1 b1), (Z.eqb_spec a2 b2); cbn;
    rewrite ?Z.ltb_lt; lia.
Qed.

Lemma tuple_compare_le (a b : Z * Z) :
  Py.tuple_compare Z.leb true a b = true <-> Spec.lex_le a b.
Proof.
  unfold Py.tuple_compare, Spec.lex_le, Spec.lex_lt.
  destruct a as [a1 a2], b as [b1 b2]. cbn.
  destruct (Z.eqb_spec a1 b1), (Z.eqb_spec a2 b2); cbn;
    rewrite ?Z.leb_le; subst.
  - split; [by right | done].
  - split; [intros; left; lia | intros [? | ?]; simplify_eq; lia].
  - split; [intros; left; lia | intros [? | ?]; simplify_eq; lia].
  - split; [intros; left; lia | intros [? | ?]; simplify_eq; lia].
Qed.

Lemma tuple_compare_gt (a b : Z * Z) :
  Py.tuple_compare Z.gtb false a b = true <-> Spec.lex_lt b a.
Proof.
  unfold Py.tuple_compare, Spec.lex_lt. destruct a as [a1 a2], b as [b1 b2]. cbn.
  rewrite !Z.gtb_ltb.
  destruct (Z.eqb_spec a1 b1), (Z.eqb_spec a2 b2); cbn;
    rewrite ?Z.ltb_lt; lia.
Qed.

Lemma tuple_compare_ge (a b : Z * Z) :
  Py.tuple_compare Z.geb true a b = true <-> Spec.lex_le b a.
Proof.
  unfold Py.tuple_compare, Spec.lex_le, Spec.lex_lt.
  destruct a as [a1 a2], b as [b1 b2]. cbn. rewrite !Z.geb_leb.
  destruct (Z.eqb_spec a1 b1), (Z.eqb_spec a2 b2); cbn;
    rewrite ?Z.leb_le; subst.
  - split; [by right | done].
  - split; [intros; left; lia | intros [? | ?]; simplify_eq; lia].
  - split; [intros; left; lia | intros [? | ?]; simplify_eq; lia].
  - split; [intros; left; lia | intros [? | ?]; simplify_eq; lia].
Qed.

Lemma as_dict_fields (a b : SSAEvent.t) :
  SSAEvent.as_dict a = SSAEvent.as_dict b -> Spec.fields_equal a b.
Proof.
  intros H.
  assert (forall k, SSAEvent.as_dict a !! k = SSAEvent.as_dict b !! k) as L
    by (intros k; by rewrite H).
  pose proof (L "start"%string) as H1. pose proof (L "end"%string) as H2.
  pose proof (L "text"%string) as H3. pose proof (L "marked"%string) as H4.
  pose proof (L "layer"%string) as H5. pose proof (L "style"%string) as H6.
  pose proof (L "name"%string) as H7. pose proof (L "marginl"%string) as H8.
  pose proof (L "marginr"%string) as H9. pose proof (L "marginv"%string) as H10.
  pose proof (L "effect"%string) as H11. pose proof (L "type"%string) as H12.
  pose proof (L "language"%string) as H13.
  clear H L. destruct a, b. vm_compute in H1, H2, H3, H4, H5, H6, H7, H8, H9, H10, H11, H12, H13.
  unfold Spec.fields_equal. cbn.
  destruct language, language0; simplify_eq; done.
Qed.

(** C6.  Between two SSAEvents, [==] holds exactly when the [start]s and the
    [end]s are equal and [!=] is its negation; [<], [<=], [>], [>=] are the
    lexicographic order of the pairs [(start, end)]; so the six operators
    read no other field.  The separate [equals] holds exactly when every
    field of the one equals the same field of the other. *)
Theorem comparisons_by_start_end (a b : SSAEvent.t) :
  (SSAEvent.__eq__ a b = true
     <-> SSAEvent.start a = SSAEvent.start b /\ SSAEvent.end_ a = SSAEvent.end_ b)
  /\ SSAEvent.__ne__ a b = negb (SSAEvent.__eq__ a b)
  /\ (SSAEvent.__lt__ a b = true <-> Spec.lex_lt (Spec.key a) (Spec.key b))
  /\ (SSAEvent.__le__ a b = true <-> Spec.lex_le (Spec.key a) (Spec.key b))
  /\ (SSAEvent.__gt__ a b = true <-> Spec.lex_lt (Spec.key b) (Spec.key a))
  /\ (SSAEvent.__ge__ a b = true <-> Spec.lex_le (Spec.key b) (Spec.key a))
  /\ (SSAEvent.equals a b = true <-> Spec.fields_equal a b).
Proof.
  split_and!.
  - unfold SSAEvent.__eq__. rewrite andb_true_iff, !Z.eqb_eq. done.
  - unfold SSAEvent.__ne__, SSAEvent.__eq__. by rewrite negb_andb.
  - apply tuple_compare_lt.
  - apply tuple_compare_le.
  - apply tuple_compare_gt.
  - apply tuple_compare_ge.
  - unfold SSAEvent.equals. rewrite bool_decide_eq_true. split.
    + apply as_dict_fields.
    + unfold Spec.fields_equal. intros H.
      destruct a, b. cbn in H. destruct_and!. by subst.
Qed.

(** Two entries with the same times and different texts: equal for [==],
    not for [equals]. *)
Example same_times_other_text :
  let a := SSAEvent.new 0 1000 "Hi" None in
  let b := SSAEvent.new 0 1000 "Bye" None in
  SSAEvent.__eq__ a b = true /\ SSAEvent.equals a b = false
  /\ SSAEvent.__lt__ a b = false /\ SSAEvent.__le__ a b = true.
Proof. vm_compute. done. Qed.

(** ** Timestamps of WebVTT and SubRip *)

Lemma round_comp (x y : Q) : (x == y)%Q -> Py.round x = Py.round y.
Proof.
  intros H. unfold Py.round.
  assert (Qfloor x = Qfloor y) as -> by (by rewrite H).
  assert (Qcompare (x - inject_Z (Qfloor y)) (1 # 2)
          = Qcompare (y - inject_Z (Qfloor y)) (1 # 2)) as ->
    by (by rewrite H).
  done.
Qed.

(** On ints, [times_to_ms] is the plain sum. *)
Lemma times_to_ms_int (h m s ms : Z) :
  time.times_to_ms (Number.Int h) (Number.Int m) (Number.Int s) (Number.Int ms)
  = Ok (ms + s * 1000 + m * 60000 + h * 3600000).
Proof. reflexivity. Qed.

(** What [WebVTTFormat.timestamp_to_ms] computes: the last group is added as
    a count of milliseconds, whatever the number of its digits. *)
Lemma webvtt_timestamp_to_ms_value (_h _m _s _ms : str) (h m s f : Z) :
  match _h with [] => Ok 0 | _ => int (Py.strip_chars _h ":") end = Ok h ->
  int _m = Ok m -> int _s = Ok s -> int _ms = Ok f ->
  WebVTTFormat.timestamp_to_ms [_h; _m; _s; _ms]
  = Ok (h * 3600000 + m * 60000 + s * 1000 + f).
Proof.
  intros Hh Hm Hs Hf. unfold WebVTTFormat.timestamp_to_ms.
  rewrite Hh. cbn [bind mapM]. rewrite Hm, Hs, Hf. cbn [bind].
  unfold time.make_time. rewrite times_to_ms_int. f_equal. lia.
Qed.

(** C2, at the timestamp [0:00:01.50].  The pattern of WebVTT splits it into
    the groups [0:], [00], [01], [50]; [WebVTTFormat.timestamp_to_ms] makes
    1050 ms of them, where hundredths of a second give 1500 ms, the value
    the generic [time.timestamp_to_ms] computes for the same fields. *)
Theorem webvtt_two_digit_fraction :
  Re.findall WebVTTFormat.TIMESTAMP 4 "0:00:01.50"
    = [[("0:" : str); ("00" : str); ("01" : str); ("50" : str)]]
  /\ WebVTTFormat.timestamp_to_ms
       [("0:" : str); ("00" : str); ("01" : str); ("50" : str)] = Ok 1050
  /\ Spec.hundredths_to_ms 0 0 1 50 = 1500
  /\ time.timestamp_to_ms
       [("0" : str); ("00" : str); ("01" : str); ("50" : str)] = Ok 1500.
Proof. vm_compute. done. Qed.

(** *** Rendering *)

Lemma format_0d_2_checked :
  forallb (fun k => bool_decide
             (Py.format_0d 2 (Z.of_nat k) = Spec.two_digits (Z.of_nat k)))
          (seq 0 100) = true.
Proof. vm_compute. reflexivity. Qed.

Lemma format_0d_3_checked :
  forallb (fun k => bool_decide
             (Py.format_0d 3 (Z.of_nat k) = Spec.three_digits (Z.of_nat k)))
          (seq 0 1000) = true.
Proof. vm_compute. reflexivity. Qed.

Lemma format_0d_2 (n : Z) :
  0 <= n < 100 -> Py.format_0d 2 n = Spec.two_digits n.
Proof.
  intros Hn. pose proof format_0d_2_checked as H.
  rewrite forallb_forall in H. specialize (H (Z.to_nat n)).
  rewrite Z2Nat.id in H by lia. eapply bool_decide_eq_true_1, H, in_seq. lia.
Qed.

Lemma format_0d_3 (n : Z) :
  0 <= n < 1000 -> Py.format_0d 3 n = Spec.three_digits n.
Proof.
  intros Hn. pose proof format_0d_3_checked as H.
  rewrite forallb_forall in H. specialize (H (Z.to_nat n)).
  rewrite Z2Nat.id in H by lia. eapply bool_decide_eq_true_1, H, in_seq. lia.
Qed.

Lemma MAX_REPRESENTABLE_TIME_value :
  SubripFormat.MAX_REPRESENTABLE_TIME = 359999999.
Proof. reflexivity. Qed.

Lemma clamp_range (ms : Z) : 0 <= Spec.clamp ms <= 359999999.
Proof. unfold Spec.clamp. rewrite MAX_REPRESENTABLE_TIME_value. lia. Qed.

(** The fields [ms_to_times] computes for an instant within range. *)
Lemma ms_to_times_fields (c : Z) :
  0 <= c <= 359999999 ->
  time.ms_to_times (inject_Z c)
  = time.mkTimes (c / 3600000) (c / 60000 mod 60) (c / 1000 mod 60)
      (c mod 1000).
Proof.
  intros Hc. unfold time.ms_to_times, Py.divmod. rewrite round_inject_Z.
  f_equal; Z.div_mod_to_equations; lia.
Qed.

Lemma subrip_ms_to_timestamp_clamped (ms : Z) :
  SubripFormat.ms_to_timestamp ms
  = (Spec.render_timestamp "," (Spec.clamp ms),
     if 359999999 <? ms then [SubripFormat.overflow_warning] else []).
Proof.
  pose proof (clamp_range ms) as Hc.
  unfold SubripFormat.ms_to_timestamp.
  rewrite MAX_REPRESENTABLE_TIME_value.
  assert ((if 359999999 <? (if ms <? 0 then 0 else ms)
           then (359999999, [SubripFormat.overflow_warning])
           else (if ms <? 0 then 0 else ms, []))
          = (Spec.clamp ms,
             if 359999999 <? ms then [SubripFormat.overflow_warning] else []))
    as ->.
  { unfold Spec.clamp. rewrite MAX_REPRESENTABLE_TIME_value.
    destruct (Z.ltb_spec ms 0), (Z.ltb_spec 359999999 ms); try lia;
      repeat match goal with
             | |- context [?a <? ?b] => destruct (Z.ltb_spec a b); try lia
             end; f_equal; lia. }
  rewrite ms_to_times_fields by done.
  unfold Spec.render_timestamp.
  assert (0 <= Spec.clamp ms / 3600000 < 100)
    by (Z.div_mod_to_equations; lia).
  assert (0 <= Spec.clamp ms / 60000 mod 60 < 100)
    by (Z.div_mod_to_equations; lia).
  assert (0 <= Spec.clamp ms / 1000 mod 60 < 100)
    by (Z.div_mod_to_equations; lia).
  assert (0 <= Spec.clamp ms mod 1000 < 1000)
    by (Z.div_mod_to_equations; lia).
  rewrite !format_0d_2, format_0d_3 by done. reflexivity.
Qed.

Lemma digit_char_not_comma (d : Z) :
  0 <= d <= 9 -> Ascii.eqb "," (Spec.digit_char d) = false.
Proof.
  intros Hd.
  assert (d = 0 \/ d = 1 \/ d = 2 \/ d = 3 \/ d = 4 \/ d = 5 \/ d = 6
          \/ d = 7 \/ d = 8 \/ d = 9) as Hcases by lia.
  repeat destruct Hcases as [-> | Hcases]; try reflexivity.
  by subst.
Qed.

(** Replacing one character by another is a map over the text. *)
Lemma replace_char (o n : ascii) (s : str) :
  Py.replace s [o] [n] = map (fun c => if Ascii.eqb o c then n else c) s.
Proof.
  unfold Py.replace. induction s as [| c s IH]; [done |].
  cbn [Py.replace_from Py.startswith map length Nat.pred].
  replace (Py.startswith s []) with true by (by destruct s).
  rewrite andb_true_r. destruct (Ascii.eqb o c); cbn [app]; by rewrite IH.
Qed.

(** Replacing the comma of a rendered timestamp by a dot. *)
Lemma replace_comma_in_timestamp (t : Z) :
  0 <= t <= 359999999 ->
  Py.replace (Spec.render_timestamp "," t) "," "."
  = Spec.render_timestamp "." t.
Proof.
  intros Ht.
  change (Py.replace (Spec.render_timestamp "," t) ["," %char] ["."%char]
          = Spec.render_timestamp "." t).
  rewrite replace_char.
  unfold Spec.render_timestamp, Spec.two_digits, Spec.three_digits.
  assert (forall d, 0 <= d <= 9 -> Ascii.eqb "," (Spec.digit_char d) = false)
    as D by apply digit_char_not_comma.
  cbn [map app list_ascii_of_string].
  rewrite !D by (Z.div_mod_to_equations; lia).
  reflexivity.
Qed.

(** C4, as the code has it.  [SubripFormat.ms_to_timestamp] is total: for
    every int [ms] it returns the [HH:MM:SS,mmm] rendering of [ms] clamped
    into [0, MAX_REPRESENTABLE_TIME], with MAX_REPRESENTABLE_TIME =
    359999999; it issues the overflow warning, and raises nothing, exactly
    when [ms] exceeds that maximum (a negative [ms] becomes 0 without a
    warning); the WebVTT stringifier returns the same string with [.] in
    place of [,] and the same warnings. *)
Theorem ms_to_timestamp_clamps (ms : Z) :
  SubripFormat.MAX_REPRESENTABLE_TIME = 359999999
  /\ 0 <= Spec.clamp ms <= SubripFormat.MAX_REPRESENTABLE_TIME
  /\ SubripFormat.ms_to_timestamp ms
     = (Spec.render_timestamp "," (Spec.clamp ms),
        if SubripFormat.MAX_REPRESENTABLE_TIME <? ms
        then [SubripFormat.overflow_warning] else [])
  /\ WebVTTFormat.ms_to_timestamp ms
     = (Py.replace (SubripFormat.ms_to_timestamp ms).1 "," ".",
        (SubripFormat.ms_to_timestamp ms).2)
  /\ (WebVTTFormat.ms_to_timestamp ms).1
     = Spec.render_timestamp "." (Spec.clamp ms)
  /\ length (SubripFormat.ms_to_timestamp ms).1 = 12%nat.
Proof.
  pose proof (clamp_range ms) as Hc.
  rewrite MAX_REPRESENTABLE_TIME_value.
  split; [done |]. split; [lia |].
  split; [apply subrip_ms_to_timestamp_clamped |].
  split; [| split].
  - unfold WebVTTFormat.ms_to_timestamp.
    by destruct (SubripFormat.ms_to_timestamp ms).
  - unfold WebVTTFormat.ms_to_timestamp.
    rewrite subrip_ms_to_timestamp_clamped. cbn [fst].
    by apply replace_comma_in_timestamp.
  - rewrite subrip_ms_to_timestamp_clamped. reflexivity.
Qed.

(** C4 as worded fails at [ms = -1]: the value is clamped (to 0, shown as
    [00:00:00,000]) and no warning is issued. *)
Lemma negative_clamped_without_warning :
  Spec.clamp (-1) = 0
  /\ Spec.clamp (-1) <> -1
  /\ SubripFormat.ms_to_timestamp (-1) = (("00:00:00,000" : str), []).
Proof. vm_compute. split_and!; [done | discriminate | done]. Qed.

Example overflow_clamped_with_warning :
  SubripFormat.ms_to_timestamp 360000000
  = (("99:59:59,999" : str), [SubripFormat.overflow_warning])
  /\ WebVTTFormat.ms_to_timestamp 360000000
     = (("99:59:59.999" : str), [SubripFormat.overflow_warning]).
Proof. vm_compute. done. Qed.

(** ** Format detection *)

Lemma collect_guesses_from (impls : list (str -> option str)) (content : str)
    (acc : gset str) (g : str) :
  g ∈ fold_left
        (fun formats guess_format =>
           match guess_format content with
           | Some guess => formats ∪ {[guess]}
           | None => formats
           end) impls acc
  <-> g ∈ acc
      \/ exists guess_format,
           guess_format ∈ impls /\ guess_format content = Some g.
Proof.
  revert acc. induction impls as [| impl impls IH]; intros acc; cbn [fold_left].
  - split; [by left | intros [? | (? & H & _)]; [done | by inversion H]].
  - rewrite IH. split.
    + intros [H | (f & Hin & Hf)].
      * destruct (impl content) as [guess |] eqn:E; [| by left].
        apply elem_of_union in H as [H | H]; [by left |].
        apply elem_of_singleton in H as ->.
        right. exists impl. split; [left | done].
      * right. exists f. split; [by right | done].
    + intros [H | (f & Hin & Hf)].
      * left. destruct (impl content); [| done].
        apply elem_of_union. by left.
      * apply elem_of_cons in Hin as [-> | Hin].
        -- left. rewrite Hf. apply elem_of_union. right.
           by apply elem_of_singleton.
        -- right. by exists f.
Qed.

(** The set [autodetect_format] builds holds exactly the guesses of the
    registered classes. *)
Lemma collect_guesses_spec (impls : list (str -> option str))
    (content g : str) :
  g ∈ formats.collect_guesses impls content
  <-> exists guess_format,
        guess_format ∈ impls /\ guess_format content = Some g.
Proof.
  unfold formats.collect_guesses. rewrite collect_guesses_from. split.
  - intros [H | H]; [by apply not_elem_of_empty in H | done].
  - by right.
Qed.

(** The three ends of [autodetect_format], by the set of guesses. *)
Lemma resolve_three_way (guesses : gset str) :
  (exists g, guesses = {[g]} /\ formats.resolve guesses = Ok g)
  \/ (guesses = ∅
      /\ formats.resolve guesses
         = Raise (FormatAutodetectionError No_suitable_formats))
  \/ ((1 < size guesses)%nat
      /\ formats.resolve guesses
         = Raise (FormatAutodetectionError (Multiple_suitable_formats guesses))).
Proof.
  unfold formats.resolve. destruct (Nat.eqb_spec (size guesses) 1) as [H1 | H1].
  - left. apply size_1_elem_of in H1 as [g Hg]. apply leibniz_equiv in Hg.
    exists g. subst. by rewrite elements_singleton.
  - right. case_bool_decide as H0.
    + by left.
    + right. split; [| done].
      assert (size guesses <> 0%nat) by (by rewrite size_empty_iff; intros ?%leibniz_equiv).
      lia.
Qed.

(** C3.  For every input text (and whatever the classes outside these
    sources guess), the set [autodetect_format] collects holds exactly the
    guesses of the registered classes that are not None, and the function
    ends in one of three ways: the set is a singleton and its element is
    returned; the set is empty and FormatAutodetectionError "No suitable
    formats" is raised; the set has several elements and
    FormatAutodetectionError "Multiple suitable formats" is raised with that
    set.  It never picks one of several candidates. *)
Theorem autodetect_format_three_way
    (substation microdvd json mpl2 tmp : str -> option str) (content : str) :
  let impls :=
    map snd (formats.FORMAT_IDENTIFIER_TO_FORMAT_CLASS
               substation microdvd json mpl2 tmp) in
  let guesses := formats.collect_guesses impls content in
  let outcome :=
    formats.autodetect_format substation microdvd json mpl2 tmp content in
  (forall g, g ∈ guesses
             <-> exists guess_format,
                   guess_format ∈ impls /\ guess_format content = Some g)
  /\ ((exists g, guesses = {[g]} /\ outcome = Ok g)
      \/ (guesses = ∅
          /\ outcome = Raise (FormatAutodetectionError No_suitable_formats))
      \/ ((1 < size guesses)%nat
          /\ outcome
             = Raise (FormatAutodetectionError
                        (Multiple_suitable_formats guesses)))).
Proof.
  cbv zeta. split.
  - intros g. apply collect_guesses_spec.
  - apply resolve_three_way.
Qed.

(** The empty text: no format. *)
Example autodetect_empty :
  formats.autodetect_format Samples.no_guess Samples.no_guess
    Samples.no_guess Samples.no_guess Samples.no_guess ""
  = Raise (FormatAutodetectionError No_suitable_formats).
Proof. vm_compute. reflexivity. Qed.

(** A SubRip timestamp line alone: SubRip. *)
Example autodetect_srt :
  formats.autodetect_format Samples.no_guess Samples.no_guess
    Samples.no_guess Samples.no_guess Samples.no_guess
    "00:00:01,000 --> 00:00:02,000"
  = Ok ("srt" : str).
Proof. vm_compute. reflexivity. Qed.

(** A second class that claims the text: the error names both. *)
Example autodetect_ambiguous :
  formats.autodetect_format Samples.guess_ass Samples.no_guess
    Samples.no_guess Samples.no_guess Samples.no_guess
    "00:00:01,000 --> 00:00:02,000"
  = Raise (FormatAutodetectionError
             (Multiple_suitable_formats {[ ("srt" : str); ("ass" : str) ]})).
Proof. vm_compute. reflexivity. Qed.

(** ** Guessing SubRip *)

Lemma startswith_spec (s prefix : str) :
  Py.startswith s prefix = true <-> exists rest, s = prefix ++ rest.
Proof.
  revert s. induction prefix as [| p prefix IH]; intros s.
  - destruct s; cbn; split; eauto.
  - destruct s as [| c s]; cbn.
    + split; [done | intros [? ?]; done].
    + rewrite andb_true_iff, IH. split.
      * intros [->%Ascii.eqb_eq [rest ->]]. by exists rest.
      * intros [rest [= -> ->]]. split; [apply Ascii.eqb_refl | by exists rest].
Qed.

Lemma contains_spec (sub s : str) :
  Py.contains sub s = true <-> Spec.occurs_in sub s.
Proof.
  unfold Spec.occurs_in. induction s as [| c s IH]; cbn [Py.contains].
  - rewrite orb_false_r, startswith_spec. split.
    + intros [rest H]. exists [], rest. done.
    + intros (before & after & H). symmetry in H.
      apply app_eq_nil in H as [-> H]. exists after. done.
  - rewrite orb_true_iff, startswith_spec, IH. split.
    + intros [[rest ->] | (before & after & ->)].
      * by exists [], rest.
      * by exists (c :: before), after.
    + intros (before & after & H). destruct before as [| b before].
      * left. by exists after.
      * right. injection H as -> ->. by exists before, after.
Qed.

Lemma lstrip_with_app (p : ascii -> bool) (spaces s : str) :
  Forall (fun c => p c = true) spaces ->
  Py.lstrip_with p (spaces ++ s) = Py.lstrip_with p s.
Proof.
  induction 1 as [| c spaces Hc _ IH]; [done |]. cbn. by rewrite Hc.
Qed.

Lemma lstrip_with_split (p : ascii -> bool) (s : str) :
  exists spaces,
    s = spaces ++ Py.lstrip_with p s
    /\ Forall (fun c => p c = true) spaces.
Proof.
  induction s as [| c s (spaces & IH & Hsp)]; [by exists [] |].
  cbn. destruct (p c) eqn:E.
  - exists (c :: spaces). split; [by rewrite IH at 1 | by constructor].
  - by exists [].
Qed.

Lemma lstrip_startswith_spec (marker text : str) :
  match marker with c :: _ => Py.isspace c = false | [] => False end ->
  Py.startswith (Py.lstrip text) marker = true
  <-> Spec.starts_after_whitespace marker text.
Proof.
  intros Hm. unfold Spec.starts_after_whitespace, Py.lstrip.
  rewrite startswith_spec. split.
  - intros [rest H]. destruct (lstrip_with_split Py.isspace text) as (sp & E & Hsp).
    exists sp, rest. by rewrite <- H.
  - intros (sp & rest & -> & Hsp). exists rest.
    rewrite lstrip_with_app by done.
    destruct marker as [| c marker]; [done |]. cbn. by rewrite Hm.
Qed.

Lemma guess_lines_spec (cls : formatbase.FormatBase) (lines : list str) :
  (SubripFormat.guess_lines cls lines = Some ("srt" : str)
   /\ exists line,
        line ∈ lines
        /\ length (Re.findall (formatbase.TIMESTAMP cls) 4 line) = 2%nat)
  \/ (SubripFormat.guess_lines cls lines = None
      /\ ~ exists line,
             line ∈ lines
             /\ length (Re.findall (formatbase.TIMESTAMP cls) 4 line) = 2%nat).
Proof.
  induction lines as [| line lines IH]; cbn [SubripFormat.guess_lines].
  - right. split; [done | intros (? & H & _); by inversion H].
  - destruct (Nat.eqb_spec
                (length (Re.findall (formatbase.TIMESTAMP cls) 4 line)) 2)
      as [E | E].
    + left. split; [done |]. exists line. split; [left | done].
    + destruct IH as [[-> (l & Hin & Hl)] | [-> Hno]].
      * left. split; [done |]. exists l. split; [by right | done].
      * right. split; [done |]. intros (l & Hin & Hl).
        apply elem_of_cons in Hin as [-> | Hin]; [done |].
        apply Hno. by exists l.
Qed.

(** The test [guess_format] makes of the foreign signatures. *)
Lemma foreign_signature_spec (text : str) :
  Py.contains "[Script Info]" text || Py.contains "[V4+ Styles]" text
    || Py.startswith (Py.lstrip text) "WEBVTT" = true
  <-> Spec.foreign_signature text.
Proof.
  unfold Spec.foreign_signature.
  rewrite !orb_true_iff, !contains_spec, lstrip_startswith_spec by done.
  tauto.
Qed.

(** C8.  [SubripFormat.guess_format] returns None for every text that
    contains [[Script Info]] or [[V4+ Styles]], or that starts with [WEBVTT]
    once its leading whitespace is removed; for every other text it returns
    ["srt"] when some line of the text holds exactly two matches of the
    SubRip timestamp pattern, and None when no line does. *)
Theorem subrip_guess_format_cases (text : str) :
  (Spec.foreign_signature text
   /\ SubripFormat.guess_format SubripFormat.cls text = None)
  \/ (~ Spec.foreign_signature text
      /\ Spec.has_timestamp_line text
      /\ SubripFormat.guess_format SubripFormat.cls text = Some ("srt" : str))
  \/ (~ Spec.foreign_signature text
      /\ ~ Spec.has_timestamp_line text
      /\ SubripFormat.guess_format SubripFormat.cls text = None).
Proof.
  pose proof (foreign_signature_spec text) as F.
  unfold SubripFormat.guess_format.
  destruct (Py.contains "[Script Info]" text || Py.contains "[V4+ Styles]" text)
    eqn:E1.
  - left. split; [by apply F | done].
  - rewrite orb_false_l in F.
    destruct (Py.startswith (Py.lstrip text) "WEBVTT") eqn:E2.
    + left. split; [by apply F | done].
    + assert (~ Spec.foreign_signature text) as NF
        by (intros H; apply F in H; discriminate).
      right.
      destruct (guess_lines_spec SubripFormat.cls (Py.splitlines text))
        as [[-> H] | [-> H]]; [left | right]; done.
Qed.

Example guess_srt :
  SubripFormat.guess_format SubripFormat.cls
    ("1" ++ Samples.nl ++ "00:00:01,000 --> 00:00:02,000" ++ Samples.nl ++ "Hi" ++ Samples.nl)
  = Some ("srt" : str).
Proof. vm_compute. reflexivity. Qed.

Example guess_not_webvtt :
  SubripFormat.guess_format SubripFormat.cls
    (Samples.nl ++ " WEBVTT" ++ Samples.nl ++ Samples.nl ++ "00:00:01,000 --> 00:00:02,000" ++ Samples.nl)
  = None.
Proof. vm_compute. reflexivity. Qed.

Example guess_not_substation :
  SubripFormat.guess_format SubripFormat.cls
    ("[Script Info]" ++ Samples.nl ++ "; 0:00:01.00 0:00:02.00" ++ Samples.nl)
  = None.
Proof. vm_compute. reflexivity. Qed.

Example guess_one_timestamp :
  SubripFormat.guess_format SubripFormat.cls ("00:00:01,000 -->" ++ Samples.nl)
  = None.
Proof. vm_compute. reflexivity. Qed.

(** ** The matcher on repetitions of a character class *)

Section Many.
Context {R : Type}.
Implicit Types (p : ascii -> bool) (k : str -> option R).

(** A success of [many] splits the text into a run of the class, long
    enough, and a rest on which the continuation succeeds. *)
Lemma many_sound p lo s k r :
  Re.many p lo s k = Some r ->
  exists a rest,
    s = a ++ rest /\ (lo <= length a)%nat
    /\ Forall (fun c => p c = true) a /\ k rest = Some r.
Proof.
  revert lo. induction s as [| c s IH]; intros lo; cbn [Re.many].
  - destruct lo; [| done]. intros H. exists [], []. done.
  - destruct (p c) eqn:Hc.
    + destruct (Re.many p (Nat.pred lo) s k) as [x |] eqn:E.
      * intros [= ->]. destruct (IH _ E) as (a & rest & -> & Hlo & Ha & Hk).
        exists (c :: a), rest. split_and!; [done | cbn; lia | by constructor | done].
      * destruct lo; [| done]. intros H. exists [], (c :: s). done.
    + destruct lo; [| done]. intros H. exists [], (c :: s). done.
Qed.

(** [many] succeeds as soon as some such split exists. *)
Lemma many_complete p lo a rest k :
  (lo <= length a)%nat ->
  Forall (fun c => p c = true) a ->
  is_Some (k rest) ->
  is_Some (Re.many p lo (a ++ rest) k).
Proof.
  intros Hlo Ha Hk. revert lo Hlo.
  induction Ha as [| c a Hc Ha IH]; intros lo Hlo.
  - destruct lo; [| cbn in Hlo; lia]. cbn [app].
    destruct rest as [| c s]; cbn [Re.many]; [done |].
    destruct (p c); [| done].
    by destruct (Re.many p (Nat.pred 0) s k).
  - cbn [app Re.many]. rewrite Hc.
    destruct (IH (Nat.pred lo) ltac:(cbn in Hlo; lia)) as [x ->]. done.
Qed.

Lemma many_complete_at p lo s a rest k :
  s = a ++ rest ->
  (lo <= length a)%nat ->
  Forall (fun c => p c = true) a ->
  is_Some (k rest) ->
  is_Some (Re.many p lo s k).
Proof. intros ->. apply many_complete. Qed.
End Many.

Lemma at_end_cases (s : str) :
  Re.at_end s = true <-> s = [] \/ s = [Py.LF].
Proof.
  destruct s as [| c [| d s]]; cbn.
  - split; [by left | done].
  - rewrite Ascii.eqb_eq. split; [intros ->; by right | intros [? | [= ->]]; done].
  - split; [done | intros [? | ?]; done].
Qed.

(** ** The patterns of the SubRip reader *)

(** [\s*$] matches the lines of whitespace. *)
Lemma BLANK_spec (line : str) :
  Re.match_ SubripFormat.BLANK 0 line = true <-> Spec.blank line.
Proof.
  unfold Re.match_, Re.match_at, SubripFormat.BLANK, Spec.blank.
  cbn [Re.run]. split.
  - destruct (Re.many _ _ _ _) as [r |] eqn:E; [intros _ | done].
    apply many_sound in E as (a & rest & -> & _ & Ha & Hk).
    destruct (Re.at_end rest) eqn:Hend; [| done].
    apply at_end_cases in Hend as [-> | ->]; apply Forall_app; split; try done.
    by repeat constructor.
  - intros H. set (k := fun s' : str => _).
    destruct (many_complete_at Py.isspace 0 line line [] k) as [r ->];
      [by rewrite app_nil_r | lia | done | done | done].
Qed.

(** [\s*\d+\s*$] matches the bare numbers. *)
Lemma NUMBER_spec (line : str) :
  Re.match_ SubripFormat.NUMBER 0 line = true <-> Spec.bare_number line.
Proof.
  unfold Re.match_, Re.match_at, SubripFormat.NUMBER, Spec.bare_number.
  cbn [Re.run]. split.
  - destruct (Re.many _ _ _ _) as [r |] eqn:E; [intros _ | done].
    apply many_sound in E as (a & rest1 & -> & _ & Ha & E).
    apply many_sound in E as (d & rest2 & -> & Hd1 & Hd & E).
    apply many_sound in E as (b & rest3 & -> & _ & Hb & E).
    destruct (Re.at_end rest3) eqn:Hend; [| done].
    exists a, d, (b ++ rest3). split_and!; try done.
    + intros ->. cbn in Hd1. lia.
    + apply at_end_cases in Hend as [-> | ->]; apply Forall_app; split; try done.
      by repeat constructor.
  - intros (a & d & b & -> & Ha & Hd1 & Hd & Hb).
    set (k := fun s' : str => _).
    destruct (many_complete Py.isspace 0 a (d ++ b) k) as [r ->];
      [lia | done | | done].
    subst k. cbv beta.
    set (k := fun s' : str => _).
    destruct (many_complete Py.isdigit 1 d b k) as [r ->];
      [destruct d; [done | cbn; lia] | done | | done].
    subst k. cbv beta.
    set (k := fun s' : str => _).
    destruct (many_complete_at Py.isspace 0 b b [] k) as [r ->];
      [by rewrite app_nil_r | lia | done | done | done].
Qed.

(** The test [prepare_text] makes for the body of an empty subtitle. *)
Lemma empty_subtitle_body_spec (lines : list str) :
  (2 <=? length lines)%nat
    && forallb (Re.match_ SubripFormat.BLANK 0) (removelast lines)
    && Re.match_ SubripFormat.NUMBER 0 (List.last lines []) = true
  <-> Spec.empty_subtitle_body lines.
Proof.
  unfold Spec.empty_subtitle_body.
  rewrite !andb_true_iff, Nat.leb_le, NUMBER_spec, forallb_forall, Forall_forall.
  split.
  - intros [[H1 H2] H3]. split_and!; [done | | done].
    intros x Hx. apply BLANK_spec, H2. by apply list_elem_of_In.
  - intros (H1 & H2 & H3). split_and!; [done | | done].
    intros x Hx. apply BLANK_spec, H2. by apply list_elem_of_In.
Qed.

(** [\n+ *\d+ *$] at the front of a text: what a match covers. *)
Lemma NEXT_NUMBER_sound (s : str) (len : nat) (caps : Re.captures) :
  Re.match_at SubripFormat.NEXT_NUMBER 0 s = Some (len, caps) ->
  exists artifact rest,
    s = artifact ++ rest /\ Spec.next_number_artifact artifact
    /\ Re.at_end rest = true /\ len = length artifact.
Proof.
  unfold Re.match_at, SubripFormat.NEXT_NUMBER. cbn [Re.run]. intros E.
  apply many_sound in E as (nl & rest1 & E1 & Hn1 & Hnl & E).
  apply many_sound in E as (sp & rest2 & -> & _ & Hsp & E).
  apply many_sound in E as (dg & rest3 & -> & Hd1 & Hdg & E).
  apply many_sound in E as (sp' & rest & -> & _ & Hsp' & E).
  destruct (Re.at_end rest) eqn:Hend; [| done]. injection E as <- _.
  exists (nl ++ sp ++ dg ++ sp'), rest. split_and!.
  - by rewrite E1, <- !app_assoc.
  - exists nl, sp, dg, sp'. split_and!; try done.
    + intros ->. cbn in Hn1. lia.
    + eapply Forall_impl; [exact Hnl |]. intros c. apply Ascii.eqb_eq.
    + eapply Forall_impl; [exact Hsp |]. intros c. apply Ascii.eqb_eq.
    + intros ->. cbn in Hd1. lia.
    + eapply Forall_impl; [exact Hsp' |]. intros c. apply Ascii.eqb_eq.
  - done.
  - rewrite E1, !length_app. lia.
Qed.

Lemma NEXT_NUMBER_complete (t : str) :
  Spec.next_number_artifact t ->
  is_Some (Re.match_at SubripFormat.NEXT_NUMBER 0 t).
Proof.
  intros (nl & sp & dg & sp' & E & Hn1 & Hnl & Hsp & Hd1 & Hdg & Hsp').
  unfold Re.match_at, SubripFormat.NEXT_NUMBER. cbn [Re.run].
  assert (forall l : str, Forall (fun c => c = Py.LF) l ->
                          Forall (fun c => Re.is_LF c = true) l) as toLF
    by (intros l Hl; eapply Forall_impl; [exact Hl | intros c ->; done]).
  assert (forall l : str, Forall (fun c => c = " "%char) l ->
                          Forall (fun c => Re.is_SP c = true) l) as toSP
    by (intros l Hl; eapply Forall_impl; [exact Hl | intros c ->; done]).
  set (k := fun s' : str => _).
  destruct (many_complete_at Re.is_LF 1 t nl (sp ++ dg ++ sp') k) as [r ->];
    [done | destruct nl; [done | cbn; lia] | by apply toLF | | done].
  subst k. cbv beta. set (k := fun s' : str => _).
  destruct (many_complete Re.is_SP 0 sp (dg ++ sp') k) as [r ->];
    [lia | by apply toSP | | done].
  subst k. cbv beta. set (k := fun s' : str => _).
  destruct (many_complete Py.isdigit 1 dg sp' k) as [r ->];
    [destruct dg; [done | cbn; lia] | done | | done].
  subst k. cbv beta. set (k := fun s' : str => _).
  destruct (many_complete_at Re.is_SP 0 sp' sp' [] k) as [r ->];
    [by rewrite app_nil_r | lia | by apply toSP | done | done].
Qed.

Lemma sub_from_skip_all (r : Re.regex) (n : nat) (repl s : str) (k : nat) :
  (length s <= k)%nat -> Re.sub_from r n repl s k = [].
Proof.
  revert k. induction s as [| c s IH]; intros k Hk; [done |].
  cbn in Hk. destruct k as [| k]; [lia |]. cbn. apply IH. lia.
Qed.

(** On a text that does not end with a newline, [re.sub] with
    [\n+ *\d+ *$] and the empty replacement cuts off the longest end of the
    text that is such an artifact, and nothing when there is none. *)
Lemma sub_NEXT_NUMBER (s : str) :
  last s <> Some Py.LF ->
  exists kept artifact,
    s = kept ++ artifact
    /\ (artifact = [] \/ Spec.next_number_artifact artifact)
    /\ (forall before t,
          s = before ++ t -> Spec.next_number_artifact t ->
          (length kept <= length before)%nat)
    /\ Re.sub SubripFormat.NEXT_NUMBER 0 "" s = kept.
Proof.
  unfold Re.sub. induction s as [| c s IH]; intros Hlast.
  - exists [], []. split_and!; [done | by left | intros; cbn; lia | done].
  - cbn [Re.sub_from].
    destruct (Re.match_at SubripFormat.NEXT_NUMBER 0 (c :: s))
      as [[len caps] |] eqn:E.
    + apply NEXT_NUMBER_sound in E as (art & rest & Hs & Hart & Hend & ->).
      apply at_end_cases in Hend as [-> | ->].
      * rewrite app_nil_r in Hs. subst art.
        exists [], (c :: s). split_and!; [done | by right | intros; cbn; lia |].
        cbn. by apply sub_from_skip_all.
      * exfalso. apply Hlast. rewrite Hs. apply last_snoc.
    + destruct IH as (kept & art & Hs & Hart & Hmin & Hsub).
      { intros H. apply Hlast. rewrite last_cons, H. done. }
      exists (c :: kept), art. split_and!.
      * by rewrite Hs at 1.
      * done.
      * intros before t Hbt Ht. destruct before as [| b before].
        -- cbn in Hbt. subst t. apply NEXT_NUMBER_complete in Ht.
           rewrite E in Ht. by destruct Ht.
        -- injection Hbt as -> Hbt. cbn. apply le_n_S. by eapply Hmin.
      * by rewrite Hsub.
Qed.

Lemma lstrip_with_head (p : ascii -> bool) (s : str) (c : ascii) :
  head (Py.lstrip_with p s) = Some c -> p c = false.
Proof.
  induction s as [| d s IH]; cbn; [done |].
  destruct (p d) eqn:E; [done |]. cbn. by intros [= <-].
Qed.

(** A stripped text does not end with a newline. *)
Lemma strip_last (s : str) : last (Py.strip s) <> Some Py.LF.
Proof.
  unfold Py.strip, Py.rstrip, Py.rstrip_with.
  destruct (Py.lstrip_with Py.isspace (rev (Py.lstrip s))) as [| c l] eqn:E;
    [done |].
  cbn [rev]. rewrite last_snoc. intros [= ->].
  assert (Py.isspace Py.LF = false) as H
    by (apply (lstrip_with_head Py.isspace (rev (Py.lstrip s))); by rewrite E).
  done.
Qed.

(** ** [prepare_text] of the SubRip reader *)

(** What [prepare_text] returns for a body: the text characterised by
    [Spec.stored_of_body]; it raises only what the markup-stripping step
    raises, which is called only when [keep_html_tags] is off and the body
    is no empty subtitle. *)
Lemma from_file_prepare_text_spec (get_text : str -> result str)
    (keep_html_tags : bool) (lines : list str) :
  match SubripFormat.from_file_prepare_text get_text keep_html_tags lines with
  | Ok stored => Spec.stored_of_body get_text keep_html_tags lines stored
  | Raise err =>
      keep_html_tags = false
      /\ ~ Spec.empty_subtitle_body lines
      /\ exists s, get_text s = Raise err
  end.
Proof.
  unfold SubripFormat.from_file_prepare_text, Spec.stored_of_body.
  pose proof (empty_subtitle_body_spec lines) as B.
  destruct ((2 <=? length lines)%nat
            && forallb (Re.match_ SubripFormat.BLANK 0) (removelast lines)
            && Re.match_ SubripFormat.NUMBER 0 (List.last lines [])) eqn:E.
  - left. split; [by apply B | done].
  - assert (~ Spec.empty_subtitle_body lines) as NB
      by (intros H; apply B in H; discriminate).
    destruct (sub_NEXT_NUMBER (Py.strip (Py.join lines)) (strip_last _))
      as (kept & art & Hs & Hart & Hmin & Hsub).
    rewrite Hsub. destruct keep_html_tags; cbn [negb].
    + right. split; [done |]. exists kept, art. by split_and!.
    + destruct (get_text kept) as [soup | err] eqn:G; cbn [bind].
      * right. split; [done |]. exists kept, art. split_and!; try done.
        by exists soup.
      * split_and!; try done. by exists kept.
Qed.

(** The degenerate empty subtitle: a blank line, then the number of the next
    entry. *)
Example prepare_text_empty_subtitle :
  SubripFormat.from_file_prepare_text Samples.plain_text true
    [Samples.nl; "2" ++ Samples.nl]
  = Ok [].
Proof. vm_compute. reflexivity. Qed.

(** A body followed by a blank line and the number of the next entry. *)
Example prepare_text_strips_next_number :
  SubripFormat.from_file_prepare_text Samples.plain_text true
    ["Hi" ++ Samples.nl; "there" ++ Samples.nl; Samples.nl; "2" ++ Samples.nl]
  = Ok ("Hi" ++ Samples.nl ++ "there").
Proof. vm_compute. reflexivity. Qed.

(** ** The writer of SubRip and WebVTT *)

Section WriterFacts.
Variable parse_tags :
  str -> SSAStyle.t -> gmap str SSAStyle.t -> list (str * SSAStyle.t).
Variable cls : formatbase.FormatBase.
Variable subs : SSAFile.t.
Variable apply_styles : bool.

(** The loop over the fragments raises exactly when one of them is in
    drawing mode, and otherwise appends the markup of all of them. *)
Lemma collect_fragments_spec (fragments : list (str * SSAStyle.t))
    (body : list str) :
  SubripFormat.collect_fragments apply_styles fragments body
  = if existsb (fun run => SSAStyle.drawing run.2) fragments
    then Raise ContentNotUsable
    else Ok (body ++ map (Spec.markup apply_styles) fragments).
Proof.
  revert body. induction fragments as [| [fragment sty] frs IH]; intros body.
  - cbn. by rewrite app_nil_r.
  - cbn [SubripFormat.collect_fragments existsb map snd].
    destruct (SSAStyle.drawing sty) eqn:Hd; [done |].
    rewrite IH. cbn [orb]. destruct (existsb _ frs); [done |].
    rewrite <- app_assoc. reflexivity.
Qed.

Lemma to_file_prepare_text_spec (line : SSAEvent.t) :
  SubripFormat.to_file_prepare_text parse_tags subs apply_styles false
    (SSAEvent.text line)
    (default SSAStyle.DEFAULT_STYLE
       (SSAFile.styles subs !! SSAEvent.style line))
  = if Spec.has_drawing_run parse_tags subs line
    then Raise ContentNotUsable
    else Ok (Spec.written_text apply_styles (Spec.runs parse_tags subs line)).
Proof.
  unfold SubripFormat.to_file_prepare_text, Spec.has_drawing_run.
  rewrite collect_fragments_spec. fold (Spec.runs parse_tags subs line).
  by destruct (existsb _ (Spec.runs parse_tags subs line)).
Qed.

Lemma write_lines_spec (lines : list SSAEvent.t) (lineno : Z) :
  SubripFormat.write_lines parse_tags cls subs apply_styles false lines lineno
  = Ok (Spec.written_from cls
          (fun line =>
             Spec.written_text apply_styles (Spec.runs parse_tags subs line))
          lineno
          (filter (fun line => negb (Spec.has_drawing_run parse_tags subs line))
             lines),
        flat_map
          (fun line =>
             (formatbase.ms_to_timestamp cls (SSAEvent.start line)).2
               ++ (formatbase.ms_to_timestamp cls (SSAEvent.end_ line)).2)
          lines).
Proof.
  revert lineno. induction lines as [| line lines IH]; intros lineno; [done |].
  cbn [SubripFormat.write_lines flat_map].
  destruct (formatbase.ms_to_timestamp cls (SSAEvent.start line))
    as [start w1] eqn:E1.
  destruct (formatbase.ms_to_timestamp cls (SSAEvent.end_ line))
    as [end_ w2] eqn:E2.
  rewrite to_file_prepare_text_spec, filter_cons. cbv beta.
  destruct (Spec.has_drawing_run parse_tags subs line) eqn:Hd; cbn [negb].
  - rewrite decide_False by (by intros []). rewrite IH. cbn [bind fst snd].
    by rewrite <- app_assoc.
  - rewrite decide_True by done. rewrite IH. cbn [bind fst snd Spec.written_from].
    unfold Spec.written_entry. rewrite E1, E2. cbn [fst].
    f_equal. f_equal; [by rewrite <- !app_assoc | by rewrite <- app_assoc].
Qed.
End WriterFacts.

(** C1, as the code has it.  With the conversion of the inline tags on
    ([keep_ssa_tags] off), the writer of SubRip and of WebVTT never fails:
    a visible entry one of whose runs is in drawing mode is left out whole
    (nothing of it is written, neither its number and timestamps nor its
    other runs), every other visible entry is written with all its runs,
    and the written entries are numbered 1, 2, ... in their order.  The
    warnings are those of the timestamps of all the visible entries. *)
Theorem writer_leaves_out_entries_with_drawing
    (parse_tags :
       str -> SSAStyle.t -> gmap str SSAStyle.t -> list (str * SSAStyle.t))
    (subs : SSAFile.t) (apply_styles : bool) :
  SubripFormat.to_file parse_tags SubripFormat.cls subs apply_styles false
  = Ok (Spec.written_without_drawing_entries parse_tags SubripFormat.cls subs
          apply_styles,
        Spec.timestamp_warnings SubripFormat.cls subs)
  /\ WebVTTFormat.to_file parse_tags subs apply_styles false
     = Ok ("WEBVTT" ++ [Py.LF; Py.LF]
             ++ Spec.written_without_drawing_entries parse_tags
                  WebVTTFormat.cls subs apply_styles,
           Spec.timestamp_warnings WebVTTFormat.cls subs).
Proof.
  unfold WebVTTFormat.to_file, SubripFormat.to_file.
  rewrite !write_lines_spec. done.
Qed.

(** C1 as worded fails on the entry [{\p1}m 0 0 l 100 0 100 100 0 100{\p0}test]:
    nothing is written for it, where leaving out the drawing run alone
    would write the entry with the text [test]. *)
Lemma drawing_entry_not_written :
  SubripFormat.to_file substation.parse_tags SubripFormat.cls
    Samples.one_drawing_entry true false
  = Ok ([], [])
  /\ Spec.written_without_drawing_runs substation.parse_tags SubripFormat.cls
       Samples.one_drawing_entry true
     = "1" ++ [Py.LF] ++ "00:00:00,000 --> 00:00:10,000" ++ [Py.LF]
         ++ "test" ++ [Py.LF; Py.LF]
  /\ SubripFormat.to_file substation.parse_tags SubripFormat.cls
       Samples.one_drawing_entry true false
     <> Ok (Spec.written_without_drawing_runs substation.parse_tags
              SubripFormat.cls Samples.one_drawing_entry true,
            []).
Proof. vm_compute. split_and!; [done | done | discriminate]. Qed.

(** Three entries, the second with a drawing: two are written, numbered 1
    and 2. *)
Example three_entries_written :
  SubripFormat.to_file substation.parse_tags SubripFormat.cls
    Samples.three_entries true false
  = Ok ("1" ++ [Py.LF] ++ "00:00:01,000 --> 00:00:02,000" ++ [Py.LF]
          ++ "Hello, <i>world</i>!" ++ [Py.LF; Py.LF]
          ++ "2" ++ [Py.LF] ++ "00:00:03,000 --> 00:00:04,500" ++ [Py.LF]
          ++ "Bye" ++ [Py.LF; Py.LF],
        []).
Proof. vm_compute. reflexivity. Qed.

(** With [keep_ssa_tags] on, the text goes out as it is, drawing
    included. *)
Example drawing_kept_with_ssa_tags :
  SubripFormat.to_file substation.parse_tags SubripFormat.cls
    Samples.one_drawing_entry true true
  = Ok ("1" ++ [Py.LF] ++ "00:00:00,000 --> 00:00:10,000" ++ [Py.LF]
          ++ "{\p1}m 0 0 l 100 0 100 100 0 100{\p0}test" ++ [Py.LF; Py.LF],
        []).
Proof. vm_compute. reflexivity. Qed.

(** ** Frames and milliseconds *)

Section Frames.
Local Open Scope Q_scope.

Lemma floor_unique (x : Q) (z : Z) :
  inject_Z z <= x -> x < inject_Z z + 1 -> Qfloor x = z.
Proof.
  intros Hlo Hhi. destruct (floor_bounds x) as [Flo Fhi].
  assert (inject_Z z < inject_Z (Qfloor x + 1)) as H1
    by (rewrite inject_Z_succ; lra).
  assert (inject_Z (Qfloor x) < inject_Z (z + 1)) as H2
    by (rewrite inject_Z_succ; lra).
  rewrite <- Zlt_Qlt in H1, H2. lia.
Qed.

Lemma inject_Z_pred (z : Z) : inject_Z (z - 1) == inject_Z z - 1.
Proof. unfold Z.sub. rewrite inject_Z_plus, inject_Z_opp. reflexivity. Qed.

Lemma ceiling_bounds (x : Q) :
  x <= inject_Z (Qceiling x) /\ inject_Z (Qceiling x) < x + 1.
Proof.
  split; [apply Qle_ceiling |].
  pose proof (Qceiling_lt x) as H. rewrite inject_Z_pred in H. lra.
Qed.

Lemma not_integer_between (x : Q) (z : Z) :
  inject_Z z < x -> x < inject_Z z + 1 ->
  Qeq_bool x (inject_Z (Qfloor x)) = false.
Proof.
  intros Hlo Hhi.
  rewrite (floor_unique x z) by lra.
  destruct (Qeq_bool x (inject_Z z)) eqn:E; [| done].
  apply Qeq_bool_iff in E. lra.
Qed.

Lemma trunc_inject_Z (z : Z) : Py.trunc (inject_Z z) = z.
Proof. unfold Py.trunc. cbn. apply Z.quot_1_r. Qed.

Lemma from_fps_positive (fps : Q) :
  0 < fps -> timestamps.from_fps fps = Ok (timestamps.mkTimestamps fps).
Proof.
  intros H. unfold timestamps.from_fps.
  destruct (Qle_bool fps 0) eqn:E; [| done].
  apply Qle_bool_iff in E. lra.
Qed.

(** The first millisecond of frame [f] lies in frame [f], at rates up to
    one frame per millisecond. *)
Lemma start_in_frame (fps : Q) (f : Z) :
  0 < fps -> fps <= 1000 ->
  let ms := Qceiling (inject_Z f * 1000 / fps) in
  inject_Z f <= inject_Z ms * fps / 1000
  /\ inject_Z ms * fps / 1000 < inject_Z f + 1.
Proof.
  intros Hpos Hfps ms.
  destruct (ceiling_bounds (inject_Z f * 1000 / fps)) as [Hlo Hhi].
  fold ms in Hlo, Hhi.
  set (c := inject_Z ms) in *. set (b := inject_Z f * 1000 / fps) in *.
  assert (b * fps == inject_Z f * 1000) as Hb
    by (unfold b; field; lra).
  set (y := c * fps / 1000).
  assert (y * 1000 == c * fps) as Hy by (unfold y; field).
  split; nra.
Qed.

(** The last millisecond of frame [f] lies strictly inside frame [f], at
    rates below one frame per millisecond. *)
Lemma end_in_frame (fps : Q) (f : Z) :
  0 < fps -> fps < 1000 ->
  let ms := (Qceiling (inject_Z (f + 1) * 1000 / fps) - 1)%Z in
  inject_Z f < inject_Z ms * fps / 1000
  /\ inject_Z ms * fps / 1000 < inject_Z f + 1.
Proof.
  intros Hpos Hfps ms.
  destruct (ceiling_bounds (inject_Z (f + 1) * 1000 / fps)) as [Hlo Hhi].
  assert (inject_Z ms
          == inject_Z (Qceiling (inject_Z (f + 1) * 1000 / fps)) - 1) as Hms.
  { unfold ms. apply inject_Z_pred. }
  set (c := inject_Z ms) in *.
  set (c' := inject_Z (Qceiling (inject_Z (f + 1) * 1000 / fps))) in *.
  set (b := inject_Z (f + 1) * 1000 / fps) in *.
  assert (b * fps == (inject_Z f + 1) * 1000) as Hb
    by (unfold b; rewrite inject_Z_succ; field; lra).
  set (y := c * fps / 1000).
  assert (y * 1000 == c * fps) as Hy by (unfold y; field).
  split; nra.
Qed.
End Frames.

Lemma nonneg_of_frame (fps : Q) (f ms : Z) :
  0 <= f -> (0 < fps)%Q ->
  (inject_Z f <= inject_Z ms * fps / 1000)%Q -> 0 <= ms.
Proof.
  intros Hf Hpos H.
  assert (inject_Z 0 <= inject_Z f)%Q as Hf' by (by rewrite <- Zle_Qle).
  change (inject_Z 0) with 0%Q in Hf'.
  set (c := inject_Z ms) in *. set (y := (c * fps / 1000)%Q) in *.
  assert (y * 1000 == c * fps)%Q as Hy by (unfold y; field).
  assert (0 <= c)%Q as Hc by nra.
  unfold c in Hc. change 0%Q with (inject_Z 0) in Hc.
  by rewrite <- Zle_Qle in Hc.
Qed.

(** C5, on the frame table modelled from the specification, as it holds
    there.  For every frame index [f >= 0], every constant rate
    [0 < fps < 1000] (more than one millisecond per frame) and both
    boundary semantics, [frames_to_ms] returns a millisecond value and
    [ms_to_frames] takes it back to [f].  The opposite composition need not
    return its argument: at 25 fps it takes 1 ms to 0 ms. *)
Theorem frames_ms_roundtrip (f : Z) (fps : Q) (time_type : timestamps.TimeType) :
  0 <= f -> (0 < fps)%Q -> (fps < 1000)%Q ->
  (exists ms,
     time.frames_to_ms f fps time_type = Ok ms
     /\ time.ms_to_frames (inject_Z ms) fps time_type = Ok f)
  /\ (time.ms_to_frames 1%Q 25%Q timestamps.START = Ok 0
      /\ time.frames_to_ms 0 25%Q timestamps.START = Ok 0).
Proof.
  intros Hf Hpos Hfps. split; [| by vm_compute].
  unfold time.frames_to_ms, time.ms_to_frames.
  rewrite from_fps_positive by done. cbn [bind].
  destruct time_type; cbn [timestamps.frames_to_ms]; eexists; (split; [done |]);
    rewrite trunc_inject_Z; unfold timestamps.ms_to_frames, timestamps.frame_boundary;
    cbn [timestamps.fps].
  - destruct (start_in_frame fps f Hpos ltac:(lra)) as [Hlo Hhi].
    cbv zeta in Hlo, Hhi.
    pose proof (nonneg_of_frame fps f _ Hf Hpos Hlo) as H0.
    destruct (Z.ltb_spec (Qceiling (inject_Z f * 1000 / fps)) 0); [lia |].
    f_equal. by apply floor_unique.
  - destruct (end_in_frame fps f Hpos Hfps) as [Hlo Hhi].
    cbv zeta in Hlo, Hhi.
    pose proof (nonneg_of_frame fps f _ Hf Hpos ltac:(apply Qlt_le_weak, Hlo)) as H0.
    destruct (Z.ltb_spec (Qceiling (inject_Z (f + 1) * 1000 / fps) - 1) 0); [lia |].
    rewrite (not_integer_between _ f) by done.
    f_equal. apply floor_unique; [by apply Qlt_le_weak | done].
Qed.

(** Frame 7 at 24000/1001 frames per second, at the end of the frame. *)
Lemma frames_ms_roundtrip_witness :
  0 <= 7 /\ (0 < 24000 # 1001)%Q /\ (24000 # 1001 < 1000)%Q
  /\ ((exists ms,
         time.frames_to_ms 7 (24000 # 1001) timestamps.END = Ok ms
         /\ time.ms_to_frames (inject_Z ms) (24000 # 1001) timestamps.END = Ok 7)
      /\ (time.ms_to_frames 1%Q 25%Q timestamps.START = Ok 0
          /\ time.frames_to_ms 0 25%Q timestamps.START = Ok 0)).
Proof.
  split; [lia |]. split; [reflexivity |]. split; [reflexivity |].
  apply (frames_ms_roundtrip 7 (24000 # 1001) timestamps.END);
    [lia | reflexivity | reflexivity].
Defined.

(** At 2000 frames per second no millisecond lies in frame 1: a frame
    lasts half a millisecond, and the whole milliseconds fall in the frames
    of even index.  So no millisecond value that [frames_to_ms] could return
    for frame 1 is taken back to it. *)
Lemma no_millisecond_in_frame_1_at_2000fps (ms : Z) :
  time.ms_to_frames (inject_Z ms) 2000%Q timestamps.START <> Ok 1.
Proof.
  unfold time.ms_to_frames. cbn [timestamps.from_fps bind].
  change (Qle_bool 2000 0) with false. cbv iota.
  rewrite trunc_inject_Z. unfold timestamps.ms_to_frames. cbn [timestamps.fps].
  destruct (ms <? 0); [done |]. intros [= H].
  change (Z.pos (1 * 1 * 1000)) with 1000 in H.
  Z.div_mod_to_equations. lia.
Qed.

(** C5 as worded fails at 2000 frames per second: frame 1 starts at 1 ms,
    and 1 ms lies in frame 2. *)
Lemma roundtrip_fails_at_2000fps :
  time.frames_to_ms 1 2000%Q timestamps.START = Ok 1
  /\ time.ms_to_frames (inject_Z 1) 2000%Q timestamps.START = Ok 2
  /\ (2 : Z) <> 1.
Proof. vm_compute. split_and!; [done | done | discriminate]. Qed.

(** ** More on [time.py] *)

(** *** Parts and milliseconds *)

(** X1.  [times_to_ms] undoes [ms_to_times] up to the rounding, for every number,
    the negative ones included: the parts are in range (the hours carry the
    sign) and add up to the rounded argument. *)
Theorem times_to_ms_of_ms_to_times (x : Q) :
  let t := time.ms_to_times x in
  0 <= time.t_ms t < 1000 /\ 0 <= time.t_s t < 60 /\ 0 <= time.t_m t < 60
  /\ time.times_to_ms (Number.Int (time.t_h t)) (Number.Int (time.t_m t))
       (Number.Int (time.t_s t)) (Number.Int (time.t_ms t))
     = Ok (Py.round x).
Proof.
  cbv zeta. rewrite times_to_ms_int.
  unfold time.ms_to_times, Py.divmod.
  cbn [time.t_h time.t_m time.t_s time.t_ms].
  set (r := Py.round x).
  split; [| split; [| split; [| f_equal]]]; Z.div_mod_to_equations; lia.
Qed.

(** One millisecond before zero is 59 min 59.999 s of the hour -1. *)
Example ms_to_times_negative :
  time.ms_to_times (-1)%Q = time.mkTimes (-1) 59 59 999.
Proof. reflexivity. Qed.

(** *** Digits *)

Lemma isdigit_facts (c : ascii) :
  Py.isdigit c = true ->
  Py.isspace c = false /\ Ascii.eqb c "-" = false /\ Ascii.eqb c "+" = false
  /\ Py.islinebreak c = false /\ 0 <= Py.digit_value c <= 9
  /\ Ascii.eqb c ":" = false.
Proof.
  destruct c as [[] [] [] [] [] [] [] []]; vm_compute; intros H;
    try discriminate H; repeat split; discriminate.
Qed.

Lemma lstrip_with_stops (p : ascii -> bool) (c : ascii) (s : str) :
  p c = false -> Py.lstrip_with p (c :: s) = c :: s.
Proof. intros H. cbn. by rewrite H. Qed.

Lemma strip_digit_string (g : str) :
  Spec.digit_string g -> Py.strip g = g.
Proof.
  intros [Hne Hg]. unfold Py.strip, Py.lstrip, Py.rstrip, Py.rstrip_with.
  destruct g as [| c g]; [done |].
  rewrite lstrip_with_stops
    by (apply isdigit_facts; by inversion Hg).
  destruct (rev (c :: g)) as [| d l] eqn:E.
  - apply (f_equal (@length _)) in E. rewrite length_rev in E. done.
  - rewrite lstrip_with_stops.
    + by rewrite <- E, rev_involutive.
    + apply isdigit_facts. rewrite Forall_forall in Hg. apply Hg.
      apply list_elem_of_In, in_rev. rewrite E. by left.
Qed.

Lemma digits_value_fold (g : str) (acc : Z) :
  Forall (fun c => Py.isdigit c = true) g ->
  Py.digits_value g acc
  = Some (fold_left (fun acc c => 10 * acc + Py.digit_value c) g acc).
Proof.
  intros Hg. revert acc. induction Hg as [| c g Hc _ IH]; intros acc; [done |].
  cbn. by rewrite Hc, IH.
Qed.

(** [int] on a text of digits. *)
Lemma int_digit_string (g : str) :
  Spec.digit_string g -> int g = Ok (Spec.decimal g).
Proof.
  intros Hg. unfold int, Py.int. rewrite strip_digit_string by done.
  destruct Hg as [Hne Hg]. destruct g as [| c g]; [done |].
  destruct (isdigit_facts c ltac:(by inversion Hg)) as (_ & -> & -> & _).
  by rewrite digits_value_fold.
Qed.

Lemma decimal_nonneg_from (g : str) (acc : Z) :
  Forall (fun c => Py.isdigit c = true) g -> 0 <= acc ->
  0 <= fold_left (fun acc c => 10 * acc + Py.digit_value c) g acc.
Proof.
  intros Hg. revert acc. induction Hg as [| c g Hc _ IH]; intros acc Hacc; [done |].
  cbn. apply IH. pose proof (isdigit_facts c Hc). lia.
Qed.

Lemma decimal_nonneg (g : str) : Spec.digit_string g -> 0 <= Spec.decimal g.
Proof. intros [_ Hg]. by apply decimal_nonneg_from. Qed.

Lemma decimal_snoc (g : str) (c : ascii) :
  Spec.decimal (g ++ [c]) = 10 * Spec.decimal g + Py.digit_value c.
Proof. unfold Spec.decimal. by rewrite fold_left_app. Qed.

Lemma digit_string_snoc (g : str) (c : ascii) :
  Spec.digit_string g -> Py.isdigit c = true -> Spec.digit_string (g ++ [c]).
Proof.
  intros [Hne Hg] Hc. split; [by destruct g |].
  apply Forall_app. split; [done | by constructor].
Qed.

(** What [time.timestamp_to_ms] computes from four groups of digits. *)
Lemma timestamp_to_ms_digits (h m s f : str) :
  Spec.digit_string h -> Spec.digit_string m -> Spec.digit_string s ->
  Spec.digit_string f ->
  time.timestamp_to_ms [h; m; s; f]
  = Ok (Spec.decimal f * 10 ^ (3 - Z.of_nat (length f))
        + Spec.decimal s * 1000 + Spec.decimal m * 60000
        + Spec.decimal h * 3600000).
Proof.
  intros Hh Hm Hs Hf. unfold time.timestamp_to_ms. cbn [mapM].
  rewrite !int_digit_string by done. reflexivity.
Qed.

Lemma timestamp_to_ms_digits_nonneg (h m s f : str) :
  Spec.digit_string h -> Spec.digit_string m -> Spec.digit_string s ->
  Spec.digit_string f -> (length f <= 3)%nat ->
  0 <= Spec.decimal f * 10 ^ (3 - Z.of_nat (length f))
       + Spec.decimal s * 1000 + Spec.decimal m * 60000
       + Spec.decimal h * 3600000.
Proof.
  intros Hh Hm Hs Hf Hlen.
  pose proof (decimal_nonneg h Hh). pose proof (decimal_nonneg m Hm).
  pose proof (decimal_nonneg s Hs). pose proof (decimal_nonneg f Hf).
  assert (0 <= 10 ^ (3 - Z.of_nat (length f))) by (apply Z.pow_nonneg; lia).
  nia.
Qed.

(** *** [timestamp_to_ms] *)

(** X2.  From the four groups of a timestamp, digits all, with a fraction of at
    most three digits, [timestamp_to_ms] returns
    [h * 3600000 + m * 60000 + s * 1000 + frac * 10 ^ (3 - k)] for a
    fraction of [k] digits, which is never negative; from three groups it
    returns the same without a fraction. *)
Theorem timestamp_to_ms_value (h m s f : str) :
  Spec.digit_string h -> Spec.digit_string m -> Spec.digit_string s ->
  Spec.digit_string f -> (length f <= 3)%nat ->
  exists ms,
    time.timestamp_to_ms [h; m; s; f] = Ok ms
    /\ ms = Spec.decimal h * 3600000 + Spec.decimal m * 60000
            + Spec.decimal s * 1000
            + Spec.decimal f * 10 ^ (3 - Z.of_nat (length f))
    /\ 0 <= ms
    /\ time.timestamp_to_ms [h; m; s]
       = Ok (Spec.decimal h * 3600000 + Spec.decimal m * 60000
             + Spec.decimal s * 1000).
Proof.
  intros Hh Hm Hs Hf Hlen. eexists. split; [by apply timestamp_to_ms_digits |].
  split; [lia |]. split.
  - by apply timestamp_to_ms_digits_nonneg.
  - unfold time.timestamp_to_ms. cbn [mapM].
    rewrite !int_digit_string by done. cbn [bind]. f_equal. lia.
Qed.

Lemma digit_string_of_text (g : str) :
  g <> [] -> forallb Py.isdigit g = true -> Spec.digit_string g.
Proof.
  intros Hne H. split; [done |]. apply Forall_forall. intros c Hc.
  rewrite forallb_forall in H. by apply H, list_elem_of_In.
Qed.

(** The example of the docstring: [0:00:00.42] is 420 ms. *)
Lemma timestamp_to_ms_value_witness :
  Spec.digit_string "0" /\ Spec.digit_string "00" /\ Spec.digit_string "00"
  /\ Spec.digit_string "42" /\ (length ("42" : str) <= 3)%nat
  /\ exists ms,
       time.timestamp_to_ms [("0" : str); ("00" : str); ("00" : str); ("42" : str)]
       = Ok ms
       /\ ms = Spec.decimal "0" * 3600000 + Spec.decimal "00" * 60000
               + Spec.decimal "00" * 1000
               + Spec.decimal "42" * 10 ^ (3 - Z.of_nat (length ("42" : str)))
       /\ 0 <= ms
       /\ time.timestamp_to_ms [("0" : str); ("00" : str); ("00" : str)]
          = Ok (Spec.decimal "0" * 3600000 + Spec.decimal "00" * 60000
                + Spec.decimal "00" * 1000).
Proof.
  assert (forall g : str, g <> [] -> forallb Py.isdigit g = true ->
                          Spec.digit_string g) as D
    by exact digit_string_of_text.
  split; [by apply D |]. split; [by apply D |]. split; [by apply D |].
  split; [by apply D |]. split; [cbn; lia |].
  apply (timestamp_to_ms_value "0" "00" "00" "42");
    [by apply D | by apply D | by apply D | by apply D | cbn; lia].
Defined.

(** X3.  A zero appended to a fraction of one or two digits changes nothing:
    [.5], [.50] and [.500] are the same instant. *)
Theorem timestamp_to_ms_trailing_zero (h m s f : str) :
  Spec.digit_string h -> Spec.digit_string m -> Spec.digit_string s ->
  Spec.digit_string f -> (length f < 3)%nat ->
  time.timestamp_to_ms [h; m; s; f ++ "0"] = time.timestamp_to_ms [h; m; s; f].
Proof.
  intros Hh Hm Hs Hf Hlen.
  assert (Spec.digit_string (f ++ "0")) as Hf0 by (by apply digit_string_snoc).
  rewrite !timestamp_to_ms_digits by done.
  change (list_ascii_of_string "0") with ["0"%char].
  rewrite decimal_snoc, length_app. cbn [length].
  change (Py.digit_value "0") with 0.
  f_equal.
  assert (length f = 1 \/ length f = 2)%nat as [-> | ->]
    by (destruct Hf as [Hne _]; destruct f; [done | cbn in *; lia]);
    cbn; lia.
Qed.

Lemma timestamp_to_ms_trailing_zero_witness :
  Spec.digit_string "1" /\ Spec.digit_string "02" /\ Spec.digit_string "03"
  /\ Spec.digit_string "5" /\ (length ("5" : str) < 3)%nat
  /\ time.timestamp_to_ms
       [("1" : str); ("02" : str); ("03" : str); ("5" : str) ++ "0"]
     = time.timestamp_to_ms [("1" : str); ("02" : str); ("03" : str); ("5" : str)].
Proof.
  assert (forall g : str, g <> [] -> forallb Py.isdigit g = true ->
                          Spec.digit_string g) as D
    by exact digit_string_of_text.
  split; [by apply D |]. split; [by apply D |]. split; [by apply D |].
  split; [by apply D |]. split; [cbn; lia |].
  apply (timestamp_to_ms_trailing_zero "1" "02" "03" "5");
    [by apply D | by apply D | by apply D | by apply D | cbn; lia].
Defined.

(** ** The matcher on the timestamp patterns *)

Section RunLemmas.
Context {R : Type}.
Implicit Types (k : str -> Re.captures -> option R) (v : R).

Lemma run_Seq_intro r1 r2 s caps k v :
  Re.run r1 s caps (fun s' caps' => Re.run r2 s' caps' k) = Some v ->
  Re.run (Re.Seq r1 r2) s caps k = Some v.
Proof. done. Qed.

Lemma run_Chars_intro p c s caps k v :
  p c = true -> k s caps = Some v ->
  Re.run (Re.Chars p) (c :: s) caps k = Some v.
Proof. intros Hc Hk. cbn. by rewrite Hc. Qed.

Lemma run_lit_intro c s caps k v :
  k s caps = Some v -> Re.run (Re.lit c) (c :: s) caps k = Some v.
Proof. apply run_Chars_intro, Ascii.eqb_refl. Qed.

(** Greedy repetition of a class over a run [a] that is as long as allowed,
    or after which the class stops. *)
Lemma run_Repeat_Chars_intro p (a : str) :
  forall lo hi s caps k v,
    Forall (fun c => p c = true) a ->
    (lo <= length a <= hi)%nat ->
    (length a = hi \/ forall c s', s = c :: s' -> p c = false) ->
    k s caps = Some v ->
    Re.run (Re.Repeat (Re.Chars p) lo hi) (a ++ s) caps k = Some v.
Proof.
  induction a as [| c a IH]; intros lo hi s caps k v Ha Hlen Hstop Hk.
  - cbn [length] in Hlen. assert (lo = 0%nat) as -> by lia. cbn [app Re.run].
    destruct hi as [| hi]; [done |].
    destruct Hstop as [Hstop | Hstop]; [done |].
    destruct s as [| d s]; [by rewrite Hk |].
    rewrite (Hstop d s eq_refl). done.
  - cbn [length] in Hlen. destruct hi as [| hi]; [lia |].
    apply Forall_cons in Ha as [Hc Ha].
    pose proof (IH (Nat.pred lo) hi s caps k v Ha ltac:(lia)
                  ltac:(destruct Hstop as [H | H]; [left; cbn in H; lia | by right])
                  Hk) as H.
    cbn [Re.run] in H. cbn [app Re.run]. rewrite Hc, H. done.
Qed.

Lemma take_length_prefix {A} (a s : list A) :
  take (length (a ++ s) - length s) (a ++ s) = a.
Proof.
  rewrite length_app, Nat.add_sub. by rewrite take_app_length.
Qed.

(** The same inside a capturing group, which then holds the run. *)
Lemma run_Group_Repeat_intro i p (a : str) lo hi s caps k v :
  Forall (fun c => p c = true) a ->
  (lo <= length a <= hi)%nat ->
  (length a = hi \/ forall c s', s = c :: s' -> p c = false) ->
  k s (<[i := Some a]> caps) = Some v ->
  Re.run (Re.Group i (Re.Repeat (Re.Chars p) lo hi)) (a ++ s) caps k = Some v.
Proof.
  intros Ha Hlen Hstop Hk. cbn [Re.run].
  pose proof (run_Repeat_Chars_intro p a lo hi s caps
                (fun s' caps' =>
                   k s' (<[i := Some (take (length (a ++ s) - length s') (a ++ s))]>
                           caps'))
                v Ha Hlen Hstop) as H.
  cbn [Re.run] in H. apply H. by rewrite take_length_prefix.
Qed.

Lemma run_Group_intro i r s caps k v :
  Re.run r s caps
    (fun s' caps' => k s' (<[i := Some (take (length s - length s') s)]> caps'))
  = Some v ->
  Re.run (Re.Group i r) s caps k = Some v.
Proof. done. Qed.

(** An optional part that matches. *)
Lemma run_optional_intro r s caps k v :
  Re.run r s caps k = Some v ->
  Re.run (Re.Repeat r 0 1) s caps k = Some v.
Proof.
  intros H.
  change (match Re.run r s caps k with
          | Some x => Some x
          | None => k s caps
          end = Some v).
  by rewrite H.
Qed.
End RunLemmas.

Lemma digits_stop_at (c : ascii) (s : str) :
  Py.isdigit c = false ->
  forall d s', c :: s = d :: s' -> Py.isdigit d = false.
Proof. by intros H d s' [= <- _]. Qed.

(** The SubStation and SubRip pattern on a text that starts with a
    timestamp of two-digit hours. *)
Lemma match_at_TIMESTAMP_hh (a b c d e f g h i sep : ascii) (rest : str) :
  Forall (fun x => Py.isdigit x = true) [a; b; c; d; e; f; g; h; i] ->
  sep = "."%char \/ sep = ","%char ->
  Re.match_at time.TIMESTAMP 4
    (a :: b :: ":"%char :: c :: d :: ":"%char :: e :: f :: sep
       :: g :: h :: i :: rest)
  = Some (12%nat, [Some [a; b]; Some [c; d]; Some [e; f]; Some [g; h; i]]).
Proof.
  intros D Hsep.
  apply Forall_cons in D as [Ha D]. apply Forall_cons in D as [Hb D].
  apply Forall_cons in D as [Hc D]. apply Forall_cons in D as [Hd D].
  apply Forall_cons in D as [He D]. apply Forall_cons in D as [Hf D].
  apply Forall_cons in D as [Hg D]. apply Forall_cons in D as [Hh D].
  apply Forall_cons in D as [Hi _].
  unfold Re.match_at, time.TIMESTAMP, Re.d.
  apply run_Seq_intro.
  apply (run_Group_Repeat_intro 0 Py.isdigit [a; b]);
    [by repeat constructor | cbn; lia | by left |].
  apply run_Seq_intro, run_lit_intro, run_Seq_intro.
  apply (run_Group_Repeat_intro 1 Py.isdigit [c; d]);
    [by repeat constructor | cbn; lia | by left |].
  apply run_Seq_intro, run_lit_intro, run_Seq_intro.
  apply (run_Group_Repeat_intro 2 Py.isdigit [e; f]);
    [by repeat constructor | cbn; lia | by left |].
  apply run_Seq_intro, run_Chars_intro; [by destruct Hsep as [-> | ->] |].
  apply (run_Group_Repeat_intro 3 Py.isdigit [g; h; i]);
    [by repeat constructor | cbn; lia | by left |].
  cbn [length]. do 2 f_equal. lia.
Qed.

(** *** The digits the writers produce *)

Lemma digit_char_facts (d : Z) :
  0 <= d <= 9 ->
  Py.isdigit (Spec.digit_char d) = true
  /\ Py.digit_value (Spec.digit_char d) = d.
Proof.
  intros Hd.
  assert (d = 0 \/ d = 1 \/ d = 2 \/ d = 3 \/ d = 4 \/ d = 5 \/ d = 6
          \/ d = 7 \/ d = 8 \/ d = 9) as Hcases by lia.
  repeat destruct Hcases as [-> | Hcases]; try (by vm_compute).
  subst. by vm_compute.
Qed.

Lemma two_digits_facts (n : Z) :
  0 <= n < 100 ->
  Spec.digit_string (Spec.two_digits n) /\ Spec.decimal (Spec.two_digits n) = n.
Proof.
  intros Hn. unfold Spec.two_digits.
  destruct (digit_char_facts (n / 10) ltac:(Z.div_mod_to_equations; lia))
    as [D1 V1].
  destruct (digit_char_facts (n mod 10) ltac:(Z.div_mod_to_equations; lia))
    as [D2 V2].
  split; [split; [done | by repeat constructor] |].
  unfold Spec.decimal. cbn [fold_left]. rewrite V1, V2.
  Z.div_mod_to_equations. lia.
Qed.

Lemma three_digits_facts (n : Z) :
  0 <= n < 1000 ->
  Spec.digit_string (Spec.three_digits n)
  /\ Spec.decimal (Spec.three_digits n) = n.
Proof.
  intros Hn. unfold Spec.three_digits.
  destruct (digit_char_facts (n / 100) ltac:(Z.div_mod_to_equations; lia))
    as [D1 V1].
  destruct (digit_char_facts (n / 10 mod 10) ltac:(Z.div_mod_to_equations; lia))
    as [D2 V2].
  destruct (digit_char_facts (n mod 10) ltac:(Z.div_mod_to_equations; lia))
    as [D3 V3].
  split; [split; [done | by repeat constructor] |].
  unfold Spec.decimal. cbn [fold_left]. rewrite V1, V2, V3.
  Z.div_mod_to_equations. lia.
Qed.

(** *** Scanning a text for timestamps *)

Lemma findall_from_skip (r : Re.regex) (n : nat) (s : str) (k : nat) :
  (k <= length s)%nat ->
  Re.findall_from r n s k = Re.findall_from r n (drop k s) 0.
Proof.
  revert k. induction s as [| c s IH]; intros k Hk.
  - cbn in Hk. by replace k with 0%nat by lia.
  - destruct k as [| k]; [done |]. cbn in Hk. cbn [drop]. rewrite <- IH by lia. done.
Qed.

Lemma findall_from_match (r : Re.regex) (n : nat) (c : ascii) (s : str)
    (len : nat) (caps : Re.captures) :
  Re.match_at r n (c :: s) = Some (len, caps) ->
  (Nat.pred len <= length s)%nat ->
  Re.findall_from r n (c :: s) 0
  = Re.groups caps :: Re.findall_from r n (drop (Nat.pred len) s) 0.
Proof.
  intros H Hlen. cbn [Re.findall_from]. rewrite H. by rewrite findall_from_skip.
Qed.

Lemma findall_from_no_match (r : Re.regex) (n : nat) (c : ascii) (s : str) :
  Re.match_at r n (c :: s) = None ->
  Re.findall_from r n (c :: s) 0 = Re.findall_from r n s 0.
Proof. intros H. cbn [Re.findall_from]. by rewrite H. Qed.

(** No timestamp of SubRip starts at a character that is not a digit. *)
Lemma match_at_TIMESTAMP_not_digit (c : ascii) (s : str) :
  Py.isdigit c = false -> Re.match_at time.TIMESTAMP 4 (c :: s) = None.
Proof.
  intros Hc. unfold Re.match_at, time.TIMESTAMP, Re.d. cbn [Re.run].
  by rewrite Hc.
Qed.

Lemma findall_from_match_at (r : Re.regex) (n : nat) (s : str)
    (len : nat) (caps : Re.captures) :
  Re.match_at r n s = Some (len, caps) ->
  (0 < len <= length s)%nat ->
  Re.findall_from r n s 0
  = Re.groups caps :: Re.findall_from r n (drop len s) 0.
Proof.
  intros H Hlen. destruct s as [| c s]; [cbn in Hlen; lia |].
  destruct len as [| len]; [lia |]. cbn in Hlen.
  rewrite (findall_from_match r n c s (S len) caps H) by (cbn; lia). done.
Qed.

Lemma render_timestamp_length (sep : ascii) (t : Z) :
  length (Spec.render_timestamp sep t) = 12%nat.
Proof. reflexivity. Qed.

Lemma render_timestamp_digits (t : Z) :
  0 <= t <= 359999999 ->
  Forall (fun x => Py.isdigit x = true)
    [Spec.digit_char (t / 3600000 / 10); Spec.digit_char ((t / 3600000) mod 10);
     Spec.digit_char (t / 60000 mod 60 / 10);
     Spec.digit_char ((t / 60000 mod 60) mod 10);
     Spec.digit_char (t / 1000 mod 60 / 10);
     Spec.digit_char ((t / 1000 mod 60) mod 10);
     Spec.digit_char (t mod 1000 / 100); Spec.digit_char (t mod 1000 / 10 mod 10);
     Spec.digit_char ((t mod 1000) mod 10)].
Proof.
  intros Ht.
  repeat (constructor;
          [apply digit_char_facts; Z.div_mod_to_equations; lia |]).
  constructor.
Qed.

(** The pattern of SubRip at the front of a rendered timestamp. *)
Lemma match_at_rendered (sep : ascii) (t : Z) (rest : str) :
  0 <= t <= 359999999 ->
  sep = "."%char \/ sep = ","%char ->
  Re.match_at time.TIMESTAMP 4 (Spec.render_timestamp sep t ++ rest)
  = Some (12%nat, map Some (Spec.timestamp_groups t)).
Proof.
  intros Ht Hsep.
  apply (match_at_TIMESTAMP_hh _ _ _ _ _ _ _ _ _ sep rest
           (render_timestamp_digits t Ht) Hsep).
Qed.

Lemma groups_map_Some (gs : list str) : Re.groups (map Some gs) = gs.
Proof. unfold Re.groups. rewrite map_map. apply map_id. Qed.

(** The line [start --> end] of the writers, scanned with the pattern of
    SubRip: the two timestamps, by their groups. *)
Lemma findall_rendered_line (sep : ascii) (t1 t2 : Z) :
  0 <= t1 <= 359999999 -> 0 <= t2 <= 359999999 ->
  sep = "."%char \/ sep = ","%char ->
  Re.findall time.TIMESTAMP 4
    (Spec.render_timestamp sep t1 ++ " --> " ++ Spec.render_timestamp sep t2
       ++ [Py.LF])
  = [Spec.timestamp_groups t1; Spec.timestamp_groups t2].
Proof.
  intros H1 H2 Hsep. unfold Re.findall.
  rewrite (findall_from_match_at _ _ _ _ _ (match_at_rendered sep t1 _ H1 Hsep))
    by (rewrite length_app, render_timestamp_length; lia).
  rewrite groups_map_Some. f_equal.
  rewrite <- (render_timestamp_length sep t1) at 1. rewrite drop_app_length.
  cbn [app list_ascii_of_string].
  rewrite !findall_from_no_match by (by apply match_at_TIMESTAMP_not_digit).
  rewrite (findall_from_match_at _ _ _ _ _ (match_at_rendered sep t2 _ H2 Hsep))
    by (rewrite length_app, render_timestamp_length; cbn; lia).
  rewrite groups_map_Some. by f_equal.
Qed.

(** The groups of a rendered timestamp, read by [time.timestamp_to_ms]. *)
Lemma timestamp_to_ms_groups (t : Z) :
  0 <= t <= 359999999 ->
  time.timestamp_to_ms (Spec.timestamp_groups t) = Ok t.
Proof.
  intros Ht. unfold Spec.timestamp_groups.
  destruct (two_digits_facts (t / 3600000) ltac:(Z.div_mod_to_equations; lia))
    as [D1 V1].
  destruct (two_digits_facts (t / 60000 mod 60) ltac:(Z.div_mod_to_equations; lia))
    as [D2 V2].
  destruct (two_digits_facts (t / 1000 mod 60) ltac:(Z.div_mod_to_equations; lia))
    as [D3 V3].
  destruct (three_digits_facts (t mod 1000) ltac:(Z.div_mod_to_equations; lia))
    as [D4 V4].
  rewrite timestamp_to_ms_digits by done. rewrite V1, V2, V3, V4.
  f_equal. cbn [length Spec.three_digits]. Z.div_mod_to_equations. lia.
Qed.

(** *** Reading back what the SubRip writer prints *)

(** X4.  The reader takes the line [start --> end] that the SubRip writer prints
    for an entry as a timestamp line and reads from it the two instants
    clamped into [0, MAX_REPRESENTABLE_TIME]: within that range the times of
    an entry survive writing and reading. *)
Theorem subrip_timestamp_line_read_back (start end_ : Z)
    (st : SubripFormat.reader_state) :
  SubripFormat.read_line SubripFormat.cls st
    ((SubripFormat.ms_to_timestamp start).1 ++ " --> "
       ++ (SubripFormat.ms_to_timestamp end_).1 ++ [Py.LF])
  = Ok (st.1 ++ [(Spec.clamp start, Spec.clamp end_)], st.2 ++ [[]]).
Proof.
  rewrite !subrip_ms_to_timestamp_clamped. cbn [fst].
  pose proof (clamp_range start) as H1. pose proof (clamp_range end_) as H2.
  unfold SubripFormat.read_line. destruct st as [timestamps following_lines].
  cbn [formatbase.TIMESTAMP formatbase.timestamp_to_ms SubripFormat.cls].
  rewrite findall_rendered_line by (done || by right).
  unfold SubripFormat.timestamp_to_ms.
  rewrite !timestamp_to_ms_groups by done. reflexivity.
Qed.

(** *** The pattern of WebVTT *)

Lemma match_at_WebVTT_hh (a b c d e f g h i : ascii) (rest : str) :
  Forall (fun x => Py.isdigit x = true) [a; b; c; d; e; f; g; h; i] ->
  Re.match_at WebVTTFormat.TIMESTAMP 4
    (a :: b :: ":"%char :: c :: d :: ":"%char :: e :: f :: "."%char
       :: g :: h :: i :: rest)
  = Some (12%nat,
          [Some [a; b; ":"%char]; Some [c; d]; Some [e; f]; Some [g; h; i]]).
Proof.
  intros D.
  apply Forall_cons in D as [Ha D]. apply Forall_cons in D as [Hb D].
  apply Forall_cons in D as [Hc D]. apply Forall_cons in D as [Hd D].
  apply Forall_cons in D as [He D]. apply Forall_cons in D as [Hf D].
  apply Forall_cons in D as [Hg D]. apply Forall_cons in D as [Hh D].
  apply Forall_cons in D as [Hi _].
  unfold Re.match_at, WebVTTFormat.TIMESTAMP, Re.d.
  apply run_Seq_intro, run_optional_intro, run_Group_intro, run_Seq_intro.
  apply (run_Repeat_Chars_intro Py.isdigit [a; b]);
    [by repeat constructor | cbn; lia | right; by apply digits_stop_at |].
  apply run_lit_intro.
  rewrite (take_length_prefix [a; b; ":"%char]
             (c :: d :: ":"%char :: e :: f :: "."%char :: g :: h :: i :: rest)
           : take (length (a :: b :: ":"%char :: c :: d :: ":"%char :: e :: f
                             :: "."%char :: g :: h :: i :: rest)
                   - length (c :: d :: ":"%char :: e :: f :: "."%char
                               :: g :: h :: i :: rest))
               (a :: b :: ":"%char :: c :: d :: ":"%char :: e :: f
                  :: "."%char :: g :: h :: i :: rest)
             = [a; b; ":"%char]).
  apply run_Seq_intro.
  apply (run_Group_Repeat_intro 1 Py.isdigit [c; d]);
    [by repeat constructor | cbn; lia | by left |].
  apply run_Seq_intro, run_lit_intro, run_Seq_intro.
  apply (run_Group_Repeat_intro 2 Py.isdigit [e; f]);
    [by repeat constructor | cbn; lia | by left |].
  apply run_Seq_intro, run_lit_intro.
  apply (run_Group_Repeat_intro 3 Py.isdigit [g; h; i]);
    [by repeat constructor | cbn; lia | by left |].
  cbn [length]. do 2 f_equal. lia.
Qed.

Lemma match_at_WebVTT_rendered (t : Z) (rest : str) :
  0 <= t <= 359999999 ->
  Re.match_at WebVTTFormat.TIMESTAMP 4 (Spec.render_timestamp "." t ++ rest)
  = Some (12%nat, map Some (Spec.webvtt_timestamp_groups t)).
Proof.
  intros Ht.
  apply (match_at_WebVTT_hh _ _ _ _ _ _ _ _ _ rest (render_timestamp_digits t Ht)).
Qed.

(** No timestamp of WebVTT starts at a character that is neither a digit
    nor a colon. *)
Lemma match_at_WebVTT_not_digit (c : ascii) (s : str) :
  Py.isdigit c = false -> Ascii.eqb ":" c = false ->
  Re.match_at WebVTTFormat.TIMESTAMP 4 (c :: s) = None.
Proof.
  intros Hc Hcolon. unfold Re.match_at, WebVTTFormat.TIMESTAMP, Re.d, Re.lit.
  cbn [Re.run]. by rewrite Hc, Hcolon.
Qed.

Lemma findall_WebVTT_rendered_line (t1 t2 : Z) :
  0 <= t1 <= 359999999 -> 0 <= t2 <= 359999999 ->
  Re.findall WebVTTFormat.TIMESTAMP 4
    (Spec.render_timestamp "." t1 ++ " --> " ++ Spec.render_timestamp "." t2
       ++ [Py.LF])
  = [Spec.webvtt_timestamp_groups t1; Spec.webvtt_timestamp_groups t2].
Proof.
  intros H1 H2. unfold Re.findall.
  rewrite (findall_from_match_at _ _ _ _ _ (match_at_WebVTT_rendered t1 _ H1))
    by (rewrite length_app, render_timestamp_length; lia).
  rewrite groups_map_Some. f_equal.
  rewrite <- (render_timestamp_length "." t1) at 1. rewrite drop_app_length.
  cbn [app list_ascii_of_string].
  rewrite !findall_from_no_match by (by apply match_at_WebVTT_not_digit).
  rewrite (findall_from_match_at _ _ _ _ _ (match_at_WebVTT_rendered t2 _ H2))
    by (rewrite length_app, render_timestamp_length; cbn; lia).
  rewrite groups_map_Some. by f_equal.
Qed.

Lemma strip_colon_of_hours (a b : ascii) :
  Py.isdigit a = true -> Py.isdigit b = true ->
  Py.strip_chars [a; b; ":"%char] ":" = [a; b].
Proof.
  intros Ha Hb.
  destruct (isdigit_facts a Ha) as (_ & _ & _ & _ & _ & Ea).
  destruct (isdigit_facts b Hb) as (_ & _ & _ & _ & _ & Eb).
  unfold Py.strip_chars, Py.rstrip_with. cbn. rewrite Ea. cbn. rewrite Eb. done.
Qed.

Lemma webvtt_timestamp_to_ms_groups (t : Z) :
  0 <= t <= 359999999 ->
  WebVTTFormat.timestamp_to_ms (Spec.webvtt_timestamp_groups t) = Ok t.
Proof.
  intros Ht. unfold Spec.webvtt_timestamp_groups.
  destruct (two_digits_facts (t / 3600000) ltac:(Z.div_mod_to_equations; lia))
    as [D1 V1].
  destruct (two_digits_facts (t / 60000 mod 60) ltac:(Z.div_mod_to_equations; lia))
    as [D2 V2].
  destruct (two_digits_facts (t / 1000 mod 60) ltac:(Z.div_mod_to_equations; lia))
    as [D3 V3].
  destruct (three_digits_facts (t mod 1000) ltac:(Z.div_mod_to_equations; lia))
    as [D4 V4].
  rewrite (webvtt_timestamp_to_ms_value _ _ _ _ (t / 3600000)
             (t / 60000 mod 60) (t / 1000 mod 60) (t mod 1000)).
  - f_equal. Z.div_mod_to_equations. lia.
  - unfold Spec.two_digits in *. cbn [app list_ascii_of_string].
    destruct D1 as [_ D1]. apply Forall_cons in D1 as [Ha D1].
    apply Forall_cons in D1 as [Hb _].
    rewrite strip_colon_of_hours by done.
    rewrite int_digit_string by (split; [done | by repeat constructor]).
    by rewrite V1.
  - by rewrite int_digit_string, V2.
  - by rewrite int_digit_string, V3.
  - by rewrite int_digit_string, V4.
Qed.

(** X5.  The same for WebVTT: the reader run for WebVTT takes the line
    [start --> end] that the WebVTT writer prints as a timestamp line and
    reads the two clamped instants from it. *)
Theorem webvtt_timestamp_line_read_back (start end_ : Z)
    (st : SubripFormat.reader_state) :
  SubripFormat.read_line WebVTTFormat.cls st
    ((WebVTTFormat.ms_to_timestamp start).1 ++ " --> "
       ++ (WebVTTFormat.ms_to_timestamp end_).1 ++ [Py.LF])
  = Ok (st.1 ++ [(Spec.clamp start, Spec.clamp end_)], st.2 ++ [[]]).
Proof.
  pose proof (clamp_range start) as H1. pose proof (clamp_range end_) as H2.
  assert (forall ms, (WebVTTFormat.ms_to_timestamp ms).1
                     = Spec.render_timestamp "." (Spec.clamp ms)) as E.
  { intros ms. unfold WebVTTFormat.ms_to_timestamp.
    rewrite subrip_ms_to_timestamp_clamped. cbn [fst].
    apply replace_comma_in_timestamp, clamp_range. }
  rewrite !E.
  unfold SubripFormat.read_line. destruct st as [timestamps following_lines].
  cbn [formatbase.TIMESTAMP formatbase.timestamp_to_ms WebVTTFormat.cls].
  rewrite findall_WebVTT_rendered_line by done.
  rewrite !webvtt_timestamp_to_ms_groups by done. reflexivity.
Qed.

(** ** [time.ms_to_str] *)

Lemma ms_to_times_comp (x y : Q) :
  (x == y)%Q -> time.ms_to_times x = time.ms_to_times y.
Proof. intros H. unfold time.ms_to_times. by rewrite (round_comp x y H). Qed.

(** X6.  A negative number is printed as the minus sign followed by what is
    printed for its opposite, with and without the fraction. *)
Theorem ms_to_str_negative (x : Q) (fractions : bool) :
  (x < 0)%Q ->
  time.ms_to_str x fractions = "-" ++ time.ms_to_str (- x)%Q fractions.
Proof.
  intros Hx. unfold time.ms_to_str.
  assert (Qle_bool 0 x = false) as ->.
  { destruct (Qle_bool 0 x) eqn:E; [| done]. apply Qle_bool_iff in E. lra. }
  assert (Qle_bool 0 (- x) = true) as -> by (apply Qle_bool_iff; lra).
  rewrite (ms_to_times_comp (Qabs (- x)) (Qabs x)) by apply Qabs_opp.
  cbn [negb]. destruct (time.ms_to_times (Qabs x)). by destruct fractions.
Qed.

Lemma ms_to_str_negative_witness :
  (-1500 < 0)%Q
  /\ time.ms_to_str (-1500)%Q true = "-" ++ time.ms_to_str (- (-1500))%Q true.
Proof.
  split; [reflexivity | apply (ms_to_str_negative (-1500)%Q true); reflexivity].
Defined.

Example ms_to_str_samples :
  time.ms_to_str (-1500)%Q true = ("-0:00:01.500" : str)
  /\ time.ms_to_str 360000000%Q true = ("100:00:00.000" : str)
  /\ time.ms_to_str 3723004%Q false = ("1:02:03" : str)
  /\ time.ms_to_str (- (2 # 5))%Q false = ("-0:00:00" : str).
Proof. vm_compute. done. Qed.

Lemma format_0d_1_checked :
  forallb (fun k => bool_decide
             (Py.format_0d 1 (Z.of_nat k)
              = if Z.of_nat k <? 10 then [Spec.digit_char (Z.of_nat k)]
                else Spec.two_digits (Z.of_nat k)))
          (seq 0 100) = true.
Proof. vm_compute. reflexivity. Qed.

Lemma format_0d_1 (n : Z) :
  0 <= n < 100 ->
  Py.format_0d 1 n
  = if n <? 10 then [Spec.digit_char n] else Spec.two_digits n.
Proof.
  intros Hn. pose proof format_0d_1_checked as H.
  rewrite forallb_forall in H. specialize (H (Z.to_nat n)).
  rewrite Z2Nat.id in H by lia. eapply bool_decide_eq_true_1, H, in_seq. lia.
Qed.

(** The pattern on a timestamp with one digit of hours. *)
Lemma match_at_TIMESTAMP_h (a c d e f g h i sep : ascii) (rest : str) :
  Forall (fun x => Py.isdigit x = true) [a; c; d; e; f; g; h; i] ->
  sep = "."%char \/ sep = ","%char ->
  Re.match_at time.TIMESTAMP 4
    (a :: ":"%char :: c :: d :: ":"%char :: e :: f :: sep :: g :: h :: i :: rest)
  = Some (11%nat, [Some [a]; Some [c; d]; Some [e; f]; Some [g; h; i]]).
Proof.
  intros D Hsep.
  apply Forall_cons in D as [Ha D].
  apply Forall_cons in D as [Hc D]. apply Forall_cons in D as [Hd D].
  apply Forall_cons in D as [He D]. apply Forall_cons in D as [Hf D].
  apply Forall_cons in D as [Hg D]. apply Forall_cons in D as [Hh D].
  apply Forall_cons in D as [Hi _].
  unfold Re.match_at, time.TIMESTAMP, Re.d.
  apply run_Seq_intro.
  apply (run_Group_Repeat_intro 0 Py.isdigit [a]);
    [by repeat constructor | cbn; lia | right; by apply digits_stop_at |].
  apply run_Seq_intro, run_lit_intro, run_Seq_intro.
  apply (run_Group_Repeat_intro 1 Py.isdigit [c; d]);
    [by repeat constructor | cbn; lia | by left |].
  apply run_Seq_intro, run_lit_intro, run_Seq_intro.
  apply (run_Group_Repeat_intro 2 Py.isdigit [e; f]);
    [by repeat constructor | cbn; lia | by left |].
  apply run_Seq_intro, run_Chars_intro; [by destruct Hsep as [-> | ->] |].
  apply (run_Group_Repeat_intro 3 Py.isdigit [g; h; i]);
    [by repeat constructor | cbn; lia | by left |].
  cbn [length]. do 2 f_equal. lia.
Qed.

Lemma ms_to_str_int (ms : Z) :
  0 <= ms <= 359999999 ->
  time.ms_to_str (inject_Z ms) true
  = Py.format_0d 1 (ms / 3600000) ++ ":"
      ++ Spec.two_digits (ms / 60000 mod 60) ++ ":"
      ++ Spec.two_digits (ms / 1000 mod 60) ++ "."
      ++ Spec.three_digits (ms mod 1000).
Proof.
  intros Hms. unfold time.ms_to_str.
  assert (Qle_bool 0 (inject_Z ms) = true) as ->.
  { apply Qle_bool_iff. change 0%Q with (inject_Z 0). rewrite <- Zle_Qle. lia. }
  rewrite (ms_to_times_comp (Qabs (inject_Z ms)) (inject_Z ms)).
  - rewrite ms_to_times_fields by done. cbn [negb app list_ascii_of_string].
    rewrite !format_0d_2, format_0d_3 by (Z.div_mod_to_equations; lia). done.
  - apply Qabs_pos. change 0%Q with (inject_Z 0). rewrite <- Zle_Qle. lia.
Qed.

(** X7.  The promise of the docstring, within its reach: for a whole number of
    milliseconds from 0 up to 99:59:59.999, what [ms_to_str] prints with the
    fraction is matched from its start to its end by [TIMESTAMP], and
    [timestamp_to_ms] reads the number back from the groups. *)
Theorem ms_to_str_read_back (ms : Z) :
  0 <= ms <= 359999999 ->
  exists caps,
    Re.match_at time.TIMESTAMP 4 (time.ms_to_str (inject_Z ms) true)
    = Some (length (time.ms_to_str (inject_Z ms) true), caps)
    /\ time.timestamp_to_ms (Re.groups caps) = Ok ms.
Proof.
  intros Hms. rewrite ms_to_str_int by done.
  pose proof (render_timestamp_digits ms Hms) as D.
  apply Forall_cons in D as [Ha D]. apply Forall_cons in D as [Hb D].
  destruct (two_digits_facts (ms / 60000 mod 60) ltac:(Z.div_mod_to_equations; lia))
    as [D2 V2].
  destruct (two_digits_facts (ms / 1000 mod 60) ltac:(Z.div_mod_to_equations; lia))
    as [D3 V3].
  destruct (three_digits_facts (ms mod 1000) ltac:(Z.div_mod_to_equations; lia))
    as [D4 V4].
  rewrite format_0d_1 by (Z.div_mod_to_equations; lia).
  destruct (Z.ltb_spec (ms / 3600000) 10) as [Hh | Hh].
  - destruct (digit_char_facts (ms / 3600000) ltac:(Z.div_mod_to_equations; lia))
      as [Hd Vd].
    unfold Spec.two_digits, Spec.three_digits in *.
    cbn [app list_ascii_of_string].
    eexists. split.
    + apply (match_at_TIMESTAMP_h _ _ _ _ _ _ _ _ "." []); [| by left].
      constructor; [done | exact D].
    + cbn [Re.groups map length]. rewrite timestamp_to_ms_digits;
        [| split; [done | by repeat constructor] | done..].
      rewrite V2, V3, V4. unfold Spec.decimal at 1. cbn [fold_left length].
      rewrite Vd. f_equal. Z.div_mod_to_equations. lia.
  - destruct (two_digits_facts (ms / 3600000) ltac:(Z.div_mod_to_equations; lia))
      as [D1 V1].
    unfold Spec.two_digits, Spec.three_digits in *.
    cbn [app list_ascii_of_string].
    eexists. split.
    + apply (match_at_TIMESTAMP_hh _ _ _ _ _ _ _ _ _ "." []); [| by left].
      constructor; [done |]. constructor; [done | exact D].
    + cbn [Re.groups map length]. rewrite timestamp_to_ms_digits by done.
      rewrite V1, V2, V3, V4. cbn [length].
      f_equal. Z.div_mod_to_equations. lia.
Qed.

(** 1 h 2 min 3.004 s *)
Lemma ms_to_str_read_back_witness :
  0 <= 3723004 <= 359999999
  /\ exists caps,
       Re.match_at time.TIMESTAMP 4 (time.ms_to_str (inject_Z 3723004) true)
       = Some (length (time.ms_to_str (inject_Z 3723004) true), caps)
       /\ time.timestamp_to_ms (Re.groups caps) = Ok 3723004.
Proof. split; [lia | apply (ms_to_str_read_back 3723004); lia]. Defined.

(** From 100 hours on the hours have three digits and [TIMESTAMP] does not
    match at the start any more. *)
Example ms_to_str_100_hours_not_matched :
  Re.match_at time.TIMESTAMP 4 (time.ms_to_str 360000000%Q true) = None.
Proof. vm_compute. reflexivity. Qed.

(** ** The SubRip reader on any file *)

Section RunSound.
Context {R : Type}.
Implicit Types (k : str -> Re.captures -> option R) (v : R).

(** What a success of a repeated class covers. *)
Lemma run_Repeat_Chars_sound p hi :
  forall lo s caps k v,
    Re.run (Re.Repeat (Re.Chars p) lo hi) s caps k = Some v ->
    exists a rest,
      s = a ++ rest /\ Forall (fun c => p c = true) a
      /\ (lo <= length a <= hi)%nat /\ k rest caps = Some v.
Proof.
  induction hi as [| hi IH]; intros lo s caps k v; cbn [Re.run].
  - destruct lo; [| done]. intros H. exists [], s. split_and!; try done; cbn; lia.
  - assert (forall x : option R,
              match x with
              | Some y => Some y
              | None => match lo with O => k s caps | S _ => None end
              end = Some v ->
              x = Some v \/ (lo = 0%nat /\ k s caps = Some v)) as Hcase.
    { intros [y |] H; [by left | right]. by destruct lo. }
    intros H. apply Hcase in H as [H | [-> H]].
    + destruct s as [| c s]; [done |]. cbn [Re.run] in H.
      destruct (p c) eqn:Hc; [| done].
      pose proof (IH (Nat.pred lo) s caps k v) as IH'. cbn [Re.run] in IH'.
      destruct (IH' H) as (a & rest & -> & Ha & Hlen & Hk).
      exists (c :: a), rest. split_and!; [done | by constructor | cbn; lia | cbn; lia | done].
    + exists [], s. split_and!; try done; cbn; lia.
Qed.

Lemma run_Group_Repeat_sound i p lo hi s caps k v :
  Re.run (Re.Group i (Re.Repeat (Re.Chars p) lo hi)) s caps k = Some v ->
  exists a rest,
    s = a ++ rest /\ Forall (fun c => p c = true) a
    /\ (lo <= length a <= hi)%nat /\ k rest (<[i := Some a]> caps) = Some v.
Proof.
  intros H.
  pose proof (run_Repeat_Chars_sound p hi lo s caps
                (fun s' caps' =>
                   k s' (<[i := Some (take (length s - length s') s)]> caps')) v)
    as S.
  cbn [Re.run] in S, H. destruct (S H) as (a & rest & -> & Ha & Hlen & Hk).
  rewrite take_length_prefix in Hk. by exists a, rest.
Qed.

Lemma run_Seq_sound r1 r2 s caps k v :
  Re.run (Re.Seq r1 r2) s caps k = Some v ->
  Re.run r1 s caps (fun s' caps' => Re.run r2 s' caps' k) = Some v.
Proof. done. Qed.

Lemma run_Chars_sound p s caps k v :
  Re.run (Re.Chars p) s caps k = Some v ->
  exists c rest, s = c :: rest /\ p c = true /\ k rest caps = Some v.
Proof.
  destruct s as [| c s]; [done |]. cbn. destruct (p c) eqn:E; [| done].
  intros H. by exists c, s.
Qed.
End RunSound.

Lemma digit_string_of_run (a : str) (lo hi : nat) :
  Forall (fun c => Py.isdigit c = true) a -> (S lo <= length a <= hi)%nat ->
  Spec.digit_string a.
Proof. intros Ha Hlen. split; [| done]. intros ->. cbn in Hlen. lia. Qed.

(** What a match of the SubRip pattern captures: four texts of digits, the
    last of three digits at most. *)
Lemma match_at_TIMESTAMP_sound (s : str) (len : nat) (caps : Re.captures) :
  Re.match_at time.TIMESTAMP 4 s = Some (len, caps) ->
  exists g1 g2 g3 g4,
    caps = [Some g1; Some g2; Some g3; Some g4]
    /\ Spec.digit_string g1 /\ Spec.digit_string g2 /\ Spec.digit_string g3
    /\ Spec.digit_string g4 /\ (length g4 <= 3)%nat.
Proof.
  unfold Re.match_at, time.TIMESTAMP, Re.d, Re.lit. intros H.
  apply run_Seq_sound, run_Group_Repeat_sound in H
    as (g1 & s1 & _ & D1 & L1 & H).
  apply run_Seq_sound, run_Chars_sound in H as (? & s1' & _ & _ & H).
  apply run_Seq_sound, run_Group_Repeat_sound in H
    as (g2 & s2 & _ & D2 & L2 & H).
  apply run_Seq_sound, run_Chars_sound in H as (? & s2' & _ & _ & H).
  apply run_Seq_sound, run_Group_Repeat_sound in H
    as (g3 & s3 & _ & D3 & L3 & H).
  apply run_Seq_sound, run_Chars_sound in H as (? & s3' & _ & _ & H).
  apply run_Group_Repeat_sound in H as (g4 & s4 & _ & D4 & L4 & H).
  injection H as _ <-.
  exists g1, g2, g3, g4. split; [done |].
  split_and!; try (by eapply (digit_string_of_run _ 0)). lia.
Qed.

(** Every tuple [findall] returns for the SubRip pattern is read without
    error by [timestamp_to_ms], as a time that is not negative. *)
Lemma findall_TIMESTAMP_readable (s : str) (skip : nat) :
  Forall (fun groups =>
            exists ms, time.timestamp_to_ms groups = Ok ms /\ 0 <= ms)
         (Re.findall_from time.TIMESTAMP 4 s skip).
Proof.
  revert skip. induction s as [| c s IH]; intros skip; cbn [Re.findall_from];
    [constructor |].
  destruct skip as [| skip]; [| apply IH].
  destruct (Re.match_at time.TIMESTAMP 4 (c :: s)) as [[len caps] |] eqn:E;
    [| apply IH].
  constructor; [| apply IH].
  apply match_at_TIMESTAMP_sound in E
    as (g1 & g2 & g3 & g4 & -> & D1 & D2 & D3 & D4 & L4).
  cbn [Re.groups map]. eexists. split.
  - by apply timestamp_to_ms_digits.
  - by apply timestamp_to_ms_digits_nonneg.
Qed.

(** One step of the reader run for SubRip: it never fails, a timestamp line
    opens an entry with times that are not negative, any other line leaves
    the number of entries as it is. *)
Lemma read_line_subrip (st : SubripFormat.reader_state) (line : str) :
  length st.1 = length st.2 ->
  Forall (fun t => 0 <= t.1 /\ 0 <= t.2) st.1 ->
  exists st',
    SubripFormat.read_line SubripFormat.cls st line = Ok st'
    /\ length st'.1 = length st'.2
    /\ Forall (fun t => 0 <= t.1 /\ 0 <= t.2) st'.1
    /\ length st'.1
       = (length st.1
          + if decide (length (Re.findall time.TIMESTAMP 4 line) = 2%nat)
            then 1 else 0)%nat.
Proof.
  intros Hlen Hpos. destruct st as [timestamps following_lines].
  unfold SubripFormat.read_line.
  cbn [formatbase.TIMESTAMP formatbase.timestamp_to_ms SubripFormat.cls fst snd] in *.
  pose proof (findall_TIMESTAMP_readable line 0) as Hread.
  fold (Re.findall time.TIMESTAMP 4 line) in Hread.
  destruct (Re.findall time.TIMESTAMP 4 line) as [| s1 [| s2 [| s3 l]]] eqn:E;
    cbn [length]; try rewrite decide_False by lia; try rewrite decide_True by lia.
  3: { apply Forall_cons in Hread as [(a & Ha & Ha0) Hread].
       apply Forall_cons in Hread as [(b & Hb & Hb0) _].
       unfold SubripFormat.timestamp_to_ms. rewrite Ha, Hb. cbn [bind].
       eexists. split; [done |]. cbn [fst snd].
       rewrite !length_app. cbn [length]. split_and!; [lia | | lia].
       apply Forall_app. split; [done |]. by repeat constructor. }
  all: destruct timestamps as [| t ts];
    (eexists; split; [done |]); cbn [fst snd];
    rewrite ?length_alter; split_and!; try done; lia.
Qed.

Lemma read_lines_subrip (fp : list str) :
  forall st,
    length st.1 = length st.2 ->
    Forall (fun t => 0 <= t.1 /\ 0 <= t.2) st.1 ->
    exists st',
      SubripFormat.read_lines SubripFormat.cls st fp = Ok st'
      /\ length st'.1 = length st'.2
      /\ Forall (fun t => 0 <= t.1 /\ 0 <= t.2) st'.1
      /\ length st'.1
         = (length st.1
            + length (filter
                        (fun line =>
                           length (Re.findall time.TIMESTAMP 4 line) = 2%nat)
                        fp))%nat.
Proof.
  induction fp as [| line fp IH]; intros st Hlen Hpos.
  - exists st. cbn. split_and!; try done; lia.
  - destruct (read_line_subrip st line Hlen Hpos) as (st1 & E1 & Hlen1 & Hpos1 & N1).
    destruct (IH st1 Hlen1 Hpos1) as (st' & E' & Hlen' & Hpos' & N').
    exists st'. cbn [SubripFormat.read_lines]. rewrite E1. cbn [bind].
    split_and!; try done. rewrite N', N1, filter_cons.
    destruct (decide (length (Re.findall time.TIMESTAMP 4 line) = 2%nat));
      cbn [length]; lia.
Qed.

Section MapM.
Context {A B : Type}.
Variable f : A -> result B.

Lemma mapM_Ok (xs : list A) (ys : list B) :
  mapM f xs = Ok ys -> Forall2 (fun x y => f x = Ok y) xs ys.
Proof.
  revert ys. induction xs as [| x xs IH]; intros ys; cbn [mapM].
  - intros [= <-]. constructor.
  - destruct (f x) as [y | e] eqn:E; [| done]. cbn [bind].
    destruct (mapM f xs) as [ys' | e]; [| done]. cbn [bind].
    intros [= <-]. constructor; [done | by apply IH].
Qed.

Lemma mapM_Raise (xs : list A) (err : exn) :
  mapM f xs = Raise err -> exists x, x ∈ xs /\ f x = Raise err.
Proof.
  induction xs as [| x xs IH]; cbn [mapM]; [done |].
  destruct (f x) as [y | e] eqn:E; cbn [bind].
  - destruct (mapM f xs) as [ys' | e]; [done |]. cbn [bind].
    intros [= <-]. destruct (IH eq_refl) as (x' & Hin & Hx').
    exists x'. split; [by apply list_elem_of_further | done].
  - intros [= <-]. exists x. split; [apply list_elem_of_here | done].
Qed.

Lemma mapM_total (xs : list A) :
  Forall (fun x => exists y, f x = Ok y) xs -> exists ys, mapM f xs = Ok ys.
Proof.
  induction 1 as [| x xs [y Hy] _ [ys Hys]]; [by exists [] |].
  exists (y :: ys). cbn [mapM]. by rewrite Hy, Hys.
Qed.
End MapM.

(** With [top_k = 1], [get_language] returns one dict, so that the
    subscript ["lang"] raises nothing of its own. *)
Lemma language_of_raises (predict : str -> Z -> result (list str * list Q))
    (text : str) (err : exn) :
  SubripFormat.language_of predict text = Raise err ->
  lang_detector.get_language predict text 1 = Raise err.
Proof.
  unfold SubripFormat.language_of, lang_detector.get_language.
  cbn [Z.ltb Z.compare Pos.compare Pos.compare_cont orb].
  destruct (predict _ 1) as [[langs probs] | e]; cbn [bind];
    [| by intros [= ->]].
  destruct langs as [| lang langs], probs as [| prob probs]; cbn [bind];
    by intros [= <-].
Qed.

(** The entry made of a timestamp line and its body: the times are those of
    the line and the text is what [prepare_text] returns; only the
    markup-stripping step and [get_language] can make it fail, each only
    when its option calls for it. *)
Lemma make_event_spec (get_text : str -> result str)
    (predict : str -> Z -> result (list str * list Q))
    (keep_html_tags detect_language : bool) (start end_ : Z)
    (lines : list str) :
  match
    SubripFormat.make_event get_text predict keep_html_tags detect_language
      ((start, end_), lines)
  with
  | Ok e =>
      SSAEvent.start e = start /\ SSAEvent.end_ e = end_
      /\ SubripFormat.from_file_prepare_text get_text keep_html_tags lines
         = Ok (SSAEvent.text e)
  | Raise err =>
      (keep_html_tags = false /\ exists s, get_text s = Raise err)
      \/ (detect_language = true
          /\ exists s, lang_detector.get_language predict s 1 = Raise err)
  end.
Proof.
  unfold SubripFormat.make_event.
  pose proof (from_file_prepare_text_spec get_text keep_html_tags lines) as P.
  destruct (SubripFormat.from_file_prepare_text get_text keep_html_tags lines)
    as [text | err] eqn:E.
  - destruct detect_language; cbn [bind]; [| done].
    destruct (SubripFormat.language_of predict text) as [l | err] eqn:L;
      cbn [bind]; [done |].
    right. split; [done |]. exists text. by apply language_of_raises.
  - destruct P as (-> & _ & Hs).
    destruct detect_language; cbn [bind]; left; by split.
Qed.

(** X8.  The loop of the SubRip reader raises nothing of its own: reading
    fails only with what the markup-stripping step (BeautifulSoup's
    [get_text], called only when [keep_html_tags] is off) or [get_language]
    (called only when [detect_language] is on) raises, and never with
    [keep_html_tags] on and [detect_language] off.  Whenever it returns,
    it has stored one entry for each line that holds exactly two matches of
    the timestamp pattern, and no entry starts or ends before 0. *)
Theorem subrip_from_file_total (get_text : str -> result str)
    (predict : str -> Z -> result (list str * list Q))
    (keep_html_tags detect_language : bool) (fp : list str) :
  (exists events,
     SubripFormat.from_file get_text predict SubripFormat.cls true false fp
     = Ok events)
  /\ match
       SubripFormat.from_file get_text predict SubripFormat.cls
         keep_html_tags detect_language fp
     with
     | Ok events =>
         length events
         = length (filter
                     (fun line =>
                        length (Re.findall time.TIMESTAMP 4 line) = 2%nat)
                     fp)
         /\ Forall (fun e => 0 <= SSAEvent.start e /\ 0 <= SSAEvent.end_ e)
                   events
     | Raise err =>
         (keep_html_tags = false /\ exists s, get_text s = Raise err)
         \/ (detect_language = true
             /\ exists s,
                  lang_detector.get_language predict s 1 = Raise err)
     end.
Proof.
  destruct (read_lines_subrip fp ([], []) eq_refl ltac:(constructor))
    as ([timestamps following_lines] & E & Hlen & Hpos & N).
  unfold SubripFormat.from_file. rewrite E. cbn [bind fst snd] in *.
  split.
  - apply mapM_total, Forall_forall. intros [[start end_] lines] _.
    pose proof (make_event_spec get_text predict true false start end_ lines)
      as M.
    destruct (SubripFormat.make_event _ _ _ _ _) as [e | err]; [by exists e |].
    by destruct M as [[? _] | [? _]].
  - destruct (mapM _ _) as [events | err] eqn:M.
    + apply mapM_Ok in M. split.
      * apply Forall2_length in M. rewrite <- M, length_zip_with.
        cbn [length] in N. lia.
      * apply Forall_forall. intros e He.
        apply list_elem_of_lookup in He as [i Hi].
        destruct (Forall2_lookup_r _ _ _ _ _ M Hi)
          as ([[start end_] lines] & Hz & Hf).
        pose proof (make_event_spec get_text predict keep_html_tags
                      detect_language start end_ lines) as S.
        rewrite Hf in S. destruct S as (-> & -> & _).
        apply list_elem_of_lookup_2 in Hz. apply elem_of_zip_l in Hz.
        rewrite Forall_forall in Hpos. apply (Hpos (start, end_) Hz).
    + apply mapM_Raise in M as ([[start end_] lines] & _ & Hf).
      pose proof (make_event_spec get_text predict keep_html_tags
                    detect_language start end_ lines) as S.
      by rewrite Hf in S.
Qed.

(** X9.  The lines that come before the first timestamp line are ignored, for
    SubRip and for WebVTT alike. *)
Theorem from_file_ignores_leading_lines (get_text : str -> result str)
    (predict : str -> Z -> result (list str * list Q))
    (cls : formatbase.FormatBase)
    (keep_html_tags detect_language : bool) (leading fp : list str) :
  Forall (fun line =>
            length (Re.findall (formatbase.TIMESTAMP cls) 4 line) <> 2%nat)
         leading ->
  SubripFormat.from_file get_text predict cls keep_html_tags
    detect_language (leading ++ fp)
  = SubripFormat.from_file get_text predict cls keep_html_tags
      detect_language fp.
Proof.
  intros H. unfold SubripFormat.from_file. f_equal.
  induction H as [| line leading Hline _ IH]; [done |].
  cbn [app SubripFormat.read_lines]. unfold SubripFormat.read_line at 1.
  destruct (Re.findall (formatbase.TIMESTAMP cls) 4 line) as [| s1 [| s2 [| s3 l]]];
    try done.
Qed.

Lemma from_file_ignores_leading_lines_witness :
  Forall (fun line =>
            length (Re.findall (formatbase.TIMESTAMP SubripFormat.cls) 4 line)
            <> 2%nat)
         [("1" : str) ++ Samples.nl]
  /\ SubripFormat.from_file Samples.plain_text Samples.no_fasttext
       SubripFormat.cls true false
       ([("1" : str) ++ Samples.nl]
          ++ [("00:00:01,000 --> 00:00:02,000" : str) ++ Samples.nl;
              ("Hi" : str) ++ Samples.nl])
     = SubripFormat.from_file Samples.plain_text Samples.no_fasttext
         SubripFormat.cls true false
         [("00:00:01,000 --> 00:00:02,000" : str) ++ Samples.nl;
          ("Hi" : str) ++ Samples.nl].
Proof.
  assert (Forall (fun line =>
            length (Re.findall (formatbase.TIMESTAMP SubripFormat.cls) 4 line)
            <> 2%nat)
         [("1" : str) ++ Samples.nl]) as H
    by (constructor; [vm_compute; lia | constructor]).
  split; [exact H |].
  exact (from_file_ignores_leading_lines Samples.plain_text
           Samples.no_fasttext SubripFormat.cls true false _ _ H).
Defined.

(** ** More on the guesses and the writer *)

Lemma webvtt_guess_excludes_subrip (cls : formatbase.FormatBase) (text : str) :
  is_Some (WebVTTFormat.guess_format text) ->
  SubripFormat.guess_format cls text = None.
Proof.
  unfold SubripFormat.guess_format, WebVTTFormat.guess_format.
  destruct (Py.startswith (Py.lstrip text) "WEBVTT"); [| by intros []].
  by destruct (Py.contains "[Script Info]" text
               || Py.contains "[V4+ Styles]" text).
Qed.

(** X10.  SubRip and WebVTT never both claim a text: one of the two guesses is
    always None, so that the two of them never make the detection
    ambiguous. *)
Theorem subrip_webvtt_guesses_exclusive (cls : formatbase.FormatBase)
    (text : str) :
  SubripFormat.guess_format cls text = None
  \/ WebVTTFormat.guess_format text = None.
Proof.
  destruct (WebVTTFormat.guess_format text) as [g |] eqn:E; [left | by right].
  apply webvtt_guess_excludes_subrip. by rewrite E.
Qed.

Section WriterTotal.
Variable parse_tags :
  str -> SSAStyle.t -> gmap str SSAStyle.t -> list (str * SSAStyle.t).
Variable cls : formatbase.FormatBase.
Variable subs : SSAFile.t.
Variable apply_styles : bool.

Lemma join_singleton (text : str) : Py.join [text] = text.
Proof. unfold Py.join. cbn. apply app_nil_r. Qed.

Lemma write_lines_kept_tags (lines : list SSAEvent.t) (lineno : Z) :
  SubripFormat.write_lines parse_tags cls subs apply_styles true lines lineno
  = Ok (Spec.written_from cls Spec.kept_tags_text lineno lines,
        flat_map
          (fun line =>
             (formatbase.ms_to_timestamp cls (SSAEvent.start line)).2
               ++ (formatbase.ms_to_timestamp cls (SSAEvent.end_ line)).2)
          lines).
Proof.
  revert lineno. induction lines as [| line lines IH]; intros lineno; [done |].
  cbn [SubripFormat.write_lines flat_map Spec.written_from].
  destruct (formatbase.ms_to_timestamp cls (SSAEvent.start line))
    as [start w1] eqn:E1.
  destruct (formatbase.ms_to_timestamp cls (SSAEvent.end_ line))
    as [end_ w2] eqn:E2.
  unfold SubripFormat.to_file_prepare_text. cbn [bind]. rewrite join_singleton.
  rewrite IH. cbn [bind fst snd]. unfold Spec.written_entry, Spec.kept_tags_text.
  rewrite E1, E2. cbn [fst].
  f_equal. f_equal; [by rewrite <- !app_assoc | by rewrite <- app_assoc].
Qed.

(** The loop of the writer never fails, with the inline tags converted or
    kept. *)
Lemma write_lines_total (keep_ssa_tags : bool) (lines : list SSAEvent.t)
    (lineno : Z) :
  exists out,
    SubripFormat.write_lines parse_tags cls subs apply_styles keep_ssa_tags
      lines lineno = Ok out.
Proof.
  destruct keep_ssa_tags.
  - rewrite write_lines_kept_tags. by eexists.
  - rewrite write_lines_spec. by eexists.
Qed.
End WriterTotal.

(** X11.  With [keep_ssa_tags] on, the writer of SubRip and of WebVTT never fails
    and leaves out no visible entry: each is written under the numbers 1,
    2, ... with its text as it is, but for the whitespace escapes, the
    stripped ends and the runs of newlines; neither the tag parser nor
    [apply_styles] has any part in it. *)
Theorem writer_keeps_every_entry_with_ssa_tags
    (parse_tags :
       str -> SSAStyle.t -> gmap str SSAStyle.t -> list (str * SSAStyle.t))
    (subs : SSAFile.t) (apply_styles : bool) :
  SubripFormat.to_file parse_tags SubripFormat.cls subs apply_styles true
  = Ok (Spec.written_from SubripFormat.cls Spec.kept_tags_text 1
          (SubripFormat._get_visible_lines subs),
        Spec.timestamp_warnings SubripFormat.cls subs)
  /\ WebVTTFormat.to_file parse_tags subs apply_styles true
     = Ok ("WEBVTT" ++ [Py.LF; Py.LF]
             ++ Spec.written_from WebVTTFormat.cls Spec.kept_tags_text 1
                  (WebVTTFormat._get_visible_lines subs),
           Spec.timestamp_warnings WebVTTFormat.cls subs).
Proof.
  unfold WebVTTFormat.to_file, SubripFormat.to_file.
  rewrite !write_lines_kept_tags. done.
Qed.

(** X12.  What the WebVTT writer writes, [WebVTTFormat.guess_format] takes for
    WebVTT and [SubripFormat.guess_format] does not take for SubRip,
    whatever the entries and the options. *)
Theorem webvtt_output_guessed_as_webvtt
    (parse_tags :
       str -> SSAStyle.t -> gmap str SSAStyle.t -> list (str * SSAStyle.t))
    (subs : SSAFile.t) (apply_styles keep_ssa_tags : bool) :
  exists out warnings,
    WebVTTFormat.to_file parse_tags subs apply_styles keep_ssa_tags
    = Ok (out, warnings)
    /\ WebVTTFormat.guess_format out = Some ("vtt" : str)
    /\ SubripFormat.guess_format SubripFormat.cls out = None.
Proof.
  unfold WebVTTFormat.to_file, SubripFormat.to_file.
  destruct (write_lines_total parse_tags WebVTTFormat.cls subs apply_styles
              keep_ssa_tags (formatbase._get_visible_lines WebVTTFormat.cls subs) 1)
    as [[out w] ->].
  cbn [bind fst snd]. eexists _, _. split; [done |].
  assert (WebVTTFormat.guess_format ("WEBVTT" ++ [Py.LF; Py.LF] ++ out)
          = Some ("vtt" : str)) as G by reflexivity.
  split; [exact G |].
  apply webvtt_guess_excludes_subrip. by rewrite G.
Qed.

(** *** Comment entries *)

Section Comments.
Variable parse_tags :
  str -> SSAStyle.t -> gmap str SSAStyle.t -> list (str * SSAStyle.t).
Variable apply_styles keep_ssa_tags : bool.

(** The loop of the writer reads the collection for its styles only. *)
Lemma write_lines_styles_only (cls : formatbase.FormatBase)
    (subs subs' : SSAFile.t) (lines : list SSAEvent.t) (lineno : Z) :
  SSAFile.styles subs = SSAFile.styles subs' ->
  SubripFormat.write_lines parse_tags cls subs apply_styles keep_ssa_tags
    lines lineno
  = SubripFormat.write_lines parse_tags cls subs' apply_styles keep_ssa_tags
      lines lineno.
Proof.
  intros Hs. revert lineno. induction lines as [| line lines IH]; intros lineno;
    [done |].
  cbn [SubripFormat.write_lines]. unfold SubripFormat.to_file_prepare_text.
  rewrite Hs. by rewrite !IH.
Qed.

Lemma filter_not_comment_idemp (events : list SSAEvent.t) :
  filter (fun line => negb (SSAEvent.is_comment line))
    (filter (fun line => negb (SSAEvent.is_comment line)) events)
  = filter (fun line => negb (SSAEvent.is_comment line)) events.
Proof.
  induction events as [| e events IH]; [done |].
  rewrite filter_cons. destruct (decide _) as [H | H]; [| done].
  rewrite filter_cons, decide_True by done. by rewrite IH.
Qed.
End Comments.

(** X13.  Comment entries leave no trace in what is written: the writer of SubRip
    and the writer of WebVTT give the same text and the same warnings for a
    collection and for that collection without its comment entries. *)
Theorem comments_are_not_written
    (parse_tags :
       str -> SSAStyle.t -> gmap str SSAStyle.t -> list (str * SSAStyle.t))
    (subs : SSAFile.t) (apply_styles keep_ssa_tags : bool) :
  SubripFormat.to_file parse_tags SubripFormat.cls subs apply_styles
    keep_ssa_tags
  = SubripFormat.to_file parse_tags SubripFormat.cls (Spec.without_comments subs)
      apply_styles keep_ssa_tags
  /\ WebVTTFormat.to_file parse_tags subs apply_styles keep_ssa_tags
     = WebVTTFormat.to_file parse_tags (Spec.without_comments subs) apply_styles
         keep_ssa_tags.
Proof.
  unfold WebVTTFormat.to_file, SubripFormat.to_file.
  cbn [formatbase._get_visible_lines SubripFormat.cls WebVTTFormat.cls].
  unfold SubripFormat._get_visible_lines, WebVTTFormat._get_visible_lines,
    Spec.without_comments.
  cbn [SSAFile.events]. rewrite !filter_not_comment_idemp.
  split.
  - by apply write_lines_styles_only.
  - f_equal; by apply write_lines_styles_only.
Qed.

(** *** Newlines in the written text *)

Section Newlines.

(** [\n+] at the front of a text takes all the newlines it starts with. *)
Lemma many_leading {R} (p : ascii -> bool) (f : str -> R) (s : str) :
  forall lo,
    Re.many p lo s (fun s' => Some (f s'))
    = if (lo <=? length s - length (Py.lstrip_with p s))%nat
      then Some (f (Py.lstrip_with p s)) else None.
Proof.
  induction s as [| c s IH]; intros lo.
  - cbn. by destruct lo.
  - destruct (lstrip_with_split p s) as (sp & Hs & _).
    assert (length (Py.lstrip_with p s) <= length s)%nat as Hle.
    { rewrite Hs at 2. rewrite length_app. lia. }
    cbn [Re.many Py.lstrip_with]. destruct (p c) eqn:Hc.
    + rewrite IH. cbn [length].
      replace (S (length s) - length (Py.lstrip_with p s))%nat
        with (S (length s - length (Py.lstrip_with p s))) by lia.
      destruct lo as [| lo]; cbn [Nat.pred].
      * done.
      * cbn [Nat.leb].
        by destruct (lo <=? length s - length (Py.lstrip_with p s))%nat.
    + rewrite Nat.sub_diag. by destruct lo.
Qed.
End Newlines.

Lemma match_at_newlines (s : str) :
  Re.match_at (Re.Many Re.is_LF 1) 0 s
  = if (1 <=? length s - length (Py.lstrip_with Re.is_LF s))%nat
    then Some ((length s - length (Py.lstrip_with Re.is_LF s))%nat, [])
    else None.
Proof.
  unfold Re.match_at. cbn [Re.run replicate].
  apply (many_leading Re.is_LF (fun s' => ((length s - length s')%nat, []))).
Qed.

Lemma sub_from_skip (r : Re.regex) (n : nat) (repl s : str) (k : nat) :
  (k <= length s)%nat ->
  Re.sub_from r n repl s k = Re.sub_from r n repl (drop k s) 0.
Proof.
  revert k. induction s as [| c s IH]; intros k Hk.
  - cbn in Hk. by replace k with 0%nat by lia.
  - destruct k as [| k]; [done |]. cbn in Hk. cbn [drop]. rewrite <- IH by lia. done.
Qed.

Lemma drop_to_lstrip (p : ascii -> bool) (s : str) :
  drop (length s - length (Py.lstrip_with p s)) s = Py.lstrip_with p s.
Proof.
  destruct (lstrip_with_split p s) as (sp & Hs & _).
  rewrite Hs at 1 3. rewrite length_app, Nat.add_sub. apply drop_app_length.
Qed.

Lemma occurs_in_cons (c : ascii) (marker s : str) :
  Spec.occurs_in marker (c :: s) ->
  (exists after, c :: s = marker ++ after) \/ Spec.occurs_in marker s.
Proof.
  intros ([| b before] & after & H).
  - left. by exists after.
  - right. injection H as _ ->. by exists before, after.
Qed.

(** [re.sub("\n+", "\n", s)] leaves no two newlines in a row, and starts
    with a newline only if [s] does. *)
Lemma sub_newlines_invariant (n : nat) :
  forall s, (length s <= n)%nat ->
    ~ Spec.occurs_in [Py.LF; Py.LF]
        (Re.sub_from (Re.Many Re.is_LF 1) 0 [Py.LF] s 0)
    /\ (forall out,
          Re.sub_from (Re.Many Re.is_LF 1) 0 [Py.LF] s 0 = Py.LF :: out ->
          exists s', s = Py.LF :: s').
Proof.
  induction n as [| n IH]; intros s Hlen.
  - destruct s; [| cbn in Hlen; lia]. cbn. split; [| done].
    intros (before & after & H). by destruct before.
  - destruct s as [| c s]; [apply IH; cbn; lia |]. cbn in Hlen.
    cbn [Re.sub_from]. rewrite match_at_newlines.
    cbn [Py.lstrip_with]. destruct (Re.is_LF c) eqn:Hc.
    + apply Ascii.eqb_eq in Hc as ->.
      destruct (lstrip_with_split Re.is_LF s) as (sp & Hs & _).
      assert (length (Py.lstrip_with Re.is_LF s) <= length s)%nat as Hle
        by (rewrite Hs at 2; rewrite length_app; lia).
      cbn [length].
      replace (S (length s) - length (Py.lstrip_with Re.is_LF s))%nat
        with (S (length s - length (Py.lstrip_with Re.is_LF s))) by lia.
      cbn [Nat.leb Nat.pred app].
      rewrite sub_from_skip by lia. rewrite drop_to_lstrip.
      destruct (IH (Py.lstrip_with Re.is_LF s) ltac:(lia)) as [Hno Hhead].
      split; [| intros out _; by exists s].
      intros [[after H] | H]%occurs_in_cons; [| done].
      injection H as H. destruct (Hhead _ H) as [s' Hs'].
      assert (Re.is_LF Py.LF = false) as X; [| done].
      apply (lstrip_with_head Re.is_LF s). by rewrite Hs'.
    + rewrite Nat.sub_diag. cbn [Nat.leb].
      destruct (IH s ltac:(lia)) as [Hno Hhead].
      split.
      * intros [[after H] | H]%occurs_in_cons; [| done].
        injection H as -> _. done.
      * intros out [= -> _]. done.
Qed.

(** X14.  The text the writer prepares for an entry never holds two newline
    characters (LF) in a row, with the tags converted or kept: every run of
    newlines is made one.  Nothing more is said: other line boundaries are
    left alone, and a carriage return between two newlines stays between
    them. *)
Theorem written_text_has_no_double_newline
    (parse_tags :
       str -> SSAStyle.t -> gmap str SSAStyle.t -> list (str * SSAStyle.t))
    (subs : SSAFile.t) (apply_styles keep_ssa_tags : bool) (text : str)
    (style : SSAStyle.t) (out : str) :
  SubripFormat.to_file_prepare_text parse_tags subs apply_styles keep_ssa_tags
    text style = Ok out ->
  Py.contains [Py.LF; Py.LF] out = false.
Proof.
  unfold SubripFormat.to_file_prepare_text. intros H.
  destruct (if keep_ssa_tags then _ else _) as [body | e]; [| done].
  cbn [bind] in H. injection H as <-.
  apply not_true_is_false. rewrite contains_spec.
  eapply (sub_newlines_invariant _ _ (Nat.le_refl _)).
Qed.

(** Two escaped newlines in a row in the text of an entry become one. *)
Lemma written_text_has_no_double_newline_witness :
  SubripFormat.to_file_prepare_text substation.parse_tags
    Samples.one_drawing_entry true false "a\n\nb" SSAStyle.DEFAULT_STYLE
  = Ok ("a" ++ [Py.LF] ++ "b")
  /\ Py.contains [Py.LF; Py.LF] (("a" : str) ++ [Py.LF] ++ "b") = false.
Proof.
  split; [reflexivity |].
  apply (written_text_has_no_double_newline substation.parse_tags
           Samples.one_drawing_entry true false "a\n\nb" SSAStyle.DEFAULT_STYLE).
  reflexivity.
Defined.

(** A carriage return between two newlines is no run of newlines: the three
    characters are written as they are, and [splitlines] finds an empty
    line between them. *)
Example written_text_keeps_cr_between_newlines :
  SubripFormat.to_file_prepare_text substation.parse_tags
    Samples.one_drawing_entry true true ("a\n" ++ [Py.CR] ++ "\nb")
    SSAStyle.DEFAULT_STYLE
  = Ok ("a" ++ [Py.LF; Py.CR; Py.LF] ++ "b")
  /\ Py.splitlines (("a" : str) ++ [Py.LF; Py.CR; Py.LF] ++ "b")
     = [("a" : str); ([] : str); ("b" : str)].
Proof. vm_compute. done. Qed.

(** ** More on [SSAEvent] *)

(** X15.  The setter of [duration] raises ValueError exactly for a negative
    value; for any other value it sets [end] to [start + ms] and changes no
    other field, and [duration] then reads the value that was set.
    Writing back the duration that was read leaves the entry as it is when
    that duration is not negative, and raises ValueError when it is: an
    entry that ends before it starts cannot be given its own duration. *)
Theorem duration_set_then_read (e : SSAEvent.t) (ms : Z) :
  match SSAEvent.set_duration e ms with
  | Ok e' =>
      0 <= ms
      /\ SSAEvent.duration e' = ms
      /\ SSAEvent.end_ e' = SSAEvent.start e + ms
      /\ SSAEvent.start e' = SSAEvent.start e
      /\ SSAEvent.text e' = SSAEvent.text e
      /\ SSAEvent.marked e' = SSAEvent.marked e
      /\ SSAEvent.layer e' = SSAEvent.layer e
      /\ SSAEvent.style e' = SSAEvent.style e
      /\ SSAEvent.name e' = SSAEvent.name e
      /\ SSAEvent.marginl e' = SSAEvent.marginl e
      /\ SSAEvent.marginr e' = SSAEvent.marginr e
      /\ SSAEvent.marginv e' = SSAEvent.marginv e
      /\ SSAEvent.effect e' = SSAEvent.effect e
      /\ SSAEvent.type e' = SSAEvent.type e
      /\ SSAEvent.language e' = SSAEvent.language e
  | Raise err => ms < 0 /\ err = ValueError
  end
  /\ SSAEvent.set_duration e (SSAEvent.duration e)
     = if 0 <=? SSAEvent.duration e then Ok e else Raise ValueError.
Proof.
  unfold SSAEvent.set_duration, SSAEvent.duration. split.
  - destruct (Z.leb_spec 0 ms); cbn; split_and!; try done; lia.
  - destruct (0 <=? SSAEvent.end_ e - SSAEvent.start e); [| done].
    destruct e. cbn. do 2 f_equal. lia.
Qed.

(** An entry that ends before it starts: its duration cannot be written
    back. *)
Example duration_of_a_reversed_entry :
  SSAEvent.duration (SSAEvent.new 2000 1000 "Hi" None) = -1000
  /\ SSAEvent.set_duration (SSAEvent.new 2000 1000 "Hi" None) (-1000)
     = Raise ValueError.
Proof. done. Qed.

(** X16.  [is_comment] reads what its setter wrote; the setter knows two types
    only, so that writing back the value read leaves the entry as it was
    exactly when its type is ["Comment"] or ["Dialogue"]: any other type
    becomes ["Dialogue"]. *)
Theorem is_comment_set_then_read (e : SSAEvent.t) (value : bool) :
  SSAEvent.is_comment (SSAEvent.set_is_comment e value) = value
  /\ (SSAEvent.set_is_comment e (SSAEvent.is_comment e) = e
      <-> SSAEvent.type e = "Comment" \/ SSAEvent.type e = "Dialogue").
Proof.
  split; [by destruct value |].
  unfold SSAEvent.set_is_comment, SSAEvent.is_comment. destruct e as [? ? ? ? ? ? ? ? ? ? ? ty ?].
  cbn [SSAEvent.type SSAEvent.start SSAEvent.end_ SSAEvent.text SSAEvent.marked
       SSAEvent.layer SSAEvent.style SSAEvent.name SSAEvent.marginl
       SSAEvent.marginr SSAEvent.marginv SSAEvent.effect SSAEvent.language].
  case_bool_decide as Hty.
  - split; [by left | intros _; by rewrite Hty].
  - split; [intros [= <-]; by right | intros [? | ->]; done].
Qed.

Lemma tuple_compare_cases (a b : Z * Z) :
  Py.tuple_compare Z.ltb false a b
  = (a.1 <? b.1) || ((a.1 =? b.1) && (a.2 <? b.2))
  /\ Py.tuple_compare Z.leb true a b
     = (a.1 <? b.1) || ((a.1 =? b.1) && (a.2 <=? b.2))
  /\ Py.tuple_compare Z.gtb false a b
     = (b.1 <? a.1) || ((a.1 =? b.1) && (b.2 <? a.2))
  /\ Py.tuple_compare Z.geb true a b
     = (b.1 <? a.1) || ((a.1 =? b.1) && (b.2 <=? a.2)).
Proof.
  unfold Py.tuple_compare. rewrite !Z.gtb_ltb, !Z.geb_leb.
  destruct (Z.eqb_spec a.1 b.1) as [E1 | E1]; cbn [negb andb];
    [destruct (Z.eqb_spec a.2 b.2) as [E2 | E2]; cbn [negb] |];
    split_and!; lia.
Qed.

(** X17.  The six comparison operators agree with one another as those of a total
    order do: of [a < b], [a == b] and [a > b] exactly one holds; [<=] is
    [<] or [==], [>=] is [>] or [==]; [>] and [>=] are [<] and [<=] with
    the sides exchanged; [<] is transitive.  Sorting entries with them is
    sound. *)
Theorem comparisons_form_total_order (a b c : SSAEvent.t) :
  (SSAEvent.__lt__ a b = true /\ SSAEvent.__eq__ a b = false
     /\ SSAEvent.__gt__ a b = false
   \/ SSAEvent.__lt__ a b = false /\ SSAEvent.__eq__ a b = true
     /\ SSAEvent.__gt__ a b = false
   \/ SSAEvent.__lt__ a b = false /\ SSAEvent.__eq__ a b = false
     /\ SSAEvent.__gt__ a b = true)
  /\ SSAEvent.__le__ a b = SSAEvent.__lt__ a b || SSAEvent.__eq__ a b
  /\ SSAEvent.__ge__ a b = SSAEvent.__gt__ a b || SSAEvent.__eq__ a b
  /\ SSAEvent.__gt__ a b = SSAEvent.__lt__ b a
  /\ SSAEvent.__ge__ a b = SSAEvent.__le__ b a
  /\ (SSAEvent.__lt__ a b = true -> SSAEvent.__lt__ b c = true ->
      SSAEvent.__lt__ a c = true).
Proof.
  unfold SSAEvent.__lt__, SSAEvent.__le__, SSAEvent.__gt__, SSAEvent.__ge__,
    SSAEvent.__eq__.
  destruct (tuple_compare_cases (SSAEvent.start a, SSAEvent.end_ a)
              (SSAEvent.start b, SSAEvent.end_ b)) as (-> & -> & -> & ->).
  destruct (tuple_compare_cases (SSAEvent.start b, SSAEvent.end_ b)
              (SSAEvent.start a, SSAEvent.end_ a)) as (-> & -> & _ & _).
  destruct (tuple_compare_cases (SSAEvent.start b, SSAEvent.end_ b)
              (SSAEvent.start c, SSAEvent.end_ c)) as (-> & _ & _ & _).
  destruct (tuple_compare_cases (SSAEvent.start a, SSAEvent.end_ a)
              (SSAEvent.start c, SSAEvent.end_ c)) as (-> & _ & _ & _).
  cbn [fst snd].
  split_and!; lia.
Qed.

(** X18.  Whenever a time-based shift of an entry that ends no sooner than
    it starts is carried out, that is, whenever [make_time] returns a
    delta, the entry still ends no sooner than it starts and is not longer
    than before; its duration is the same whenever the shifted start is not
    clamped at 0.  The delta is the one [make_time] computes, with floats
    as with ints. *)
Theorem shift_by_time_and_duration (e : SSAEvent.t) (h m s ms : Number.t)
    (delta : Z) :
  SSAEvent.start e <= SSAEvent.end_ e ->
  time.make_time h m s ms None None None = Ok delta ->
  exists e',
    SSAEvent.shift e h m s ms None None = Ok e'
    /\ 0 <= SSAEvent.duration e' <= SSAEvent.duration e
    /\ (0 <= SSAEvent.start e + delta ->
        SSAEvent.duration e' = SSAEvent.duration e).
Proof.
  intros H D. unfold SSAEvent.shift. rewrite D. cbn [bind].
  eexists. split; [reflexivity |].
  unfold SSAEvent.duration. cbn [SSAEvent.start SSAEvent.end_]. lia.
Qed.

(** An entry at 1 s .. 2.5 s shifted back by 1.5 s (a float) is left with
    0 .. 1 s. *)
Lemma shift_by_time_and_duration_witness :
  exists e',
    SSAEvent.shift (SSAEvent.new 1000 2500 "Hi" None) (Number.Int 0)
      (Number.Int 0) (Number.literal (-3) 2) (Number.Int 0) None None
    = Ok e'
    /\ 0 <= SSAEvent.duration e'
       <= SSAEvent.duration (SSAEvent.new 1000 2500 "Hi" None)
    /\ (0 <= SSAEvent.start (SSAEvent.new 1000 2500 "Hi" None) + -1500 ->
        SSAEvent.duration e'
        = SSAEvent.duration (SSAEvent.new 1000 2500 "Hi" None)).
Proof.
  apply (shift_by_time_and_duration (SSAEvent.new 1000 2500 "Hi" None)
           (Number.Int 0) (Number.Int 0) (Number.literal (-3) 2)
           (Number.Int 0) (-1500)).
  - cbn. lia.
  - vm_compute. reflexivity.
Defined.

(** The entry, the float and the outcome of a shift that binary64
    arithmetic decides: [shift(s=0.0005)] of an entry at -1 .. 5 ms gives
    0 .. 5 ms, a millisecond shorter. *)
Example shift_shortens_by_clamping :
  SSAEvent.duration (SSAEvent.new (-1) 5 "Hi" None) = 6
  /\ exists e',
       SSAEvent.shift (SSAEvent.new (-1) 5 "Hi" None) (Number.Int 0)
         (Number.Int 0) (Number.literal 5 10000) (Number.Int 0) None None
       = Ok e'
       /\ SSAEvent.start e' = 0 /\ SSAEvent.end_ e' = 5
       /\ SSAEvent.duration e' = 5.
Proof. split; [done |]. eexists. split; [by vm_compute |]. done. Qed.

(** ** The order of the WebVTT writer *)

Section Sorted.
Context {A : Type}.
Variable key : A -> Z.

Lemma insert_by_key_perm (x : A) (xs : list A) :
  Py.insert_by_key key x xs ≡ₚ x :: xs.
Proof.
  induction xs as [| y xs IH]; [done |]. cbn [Py.insert_by_key].
  destruct (key y <=? key x); [| done].
  rewrite IH. apply Permutation_swap.
Qed.

Lemma insert_by_key_sorted (x : A) (xs : list A) :
  StronglySorted (fun a b => key a <= key b) xs ->
  StronglySorted (fun a b => key a <= key b) (Py.insert_by_key key x xs).
Proof.
  induction 1 as [| y xs Hs IH Hy]; [repeat constructor |].
  cbn [Py.insert_by_key]. destruct (Z.leb_spec (key y) (key x)) as [L | L].
  - constructor; [done |]. rewrite insert_by_key_perm.
    constructor; [done | exact Hy].
  - constructor; [by constructor |].
    constructor; [lia |]. eapply Forall_impl; [exact Hy |].
    cbn. intros z Hz. lia.
Qed.

Lemma insert_by_key_stable (x : A) (xs : list A) (t : Z) :
  StronglySorted (fun a b => key a <= key b) xs ->
  filter (fun a => key a = t) (Py.insert_by_key key x xs)
  = filter (fun a => key a = t) xs ++ filter (fun a => key a = t) [x].
Proof.
  induction 1 as [| y xs Hs IH Hy]; [done |].
  cbn [Py.insert_by_key]. destruct (Z.leb_spec (key y) (key x)) as [L | L].
  - rewrite !(filter_cons _ y), IH. by destruct (decide (key y = t)).
  - rewrite (filter_cons _ x), (filter_cons _ x [] ), filter_nil.
    destruct (decide (key x = t)) as [E | E]; [| by rewrite app_nil_r].
    assert (filter (fun a => key a = t) (y :: xs) = []) as ->; [| done].
    rewrite filter_cons, decide_False by lia.
    clear Hs IH. induction Hy as [| z xs Hz Hy IHy]; [done |].
    by rewrite filter_cons, decide_False by lia.
Qed.

Lemma sorted_by_key_from (xs acc : list A) :
  StronglySorted (fun a b => key a <= key b) acc ->
  let out := fold_left (fun placed x => Py.insert_by_key key x placed) xs acc in
  StronglySorted (fun a b => key a <= key b) out
  /\ out ≡ₚ acc ++ xs
  /\ forall t, filter (fun a => key a = t) out
               = filter (fun a => key a = t) acc
                 ++ filter (fun a => key a = t) xs.
Proof.
  revert acc. induction xs as [| x xs IH]; intros acc Hacc.
  - cbn [fold_left]. split_and!; [done | by rewrite app_nil_r |].
    intros t. by rewrite filter_nil, app_nil_r.
  - cbn [fold_left].
    destruct (IH _ (insert_by_key_sorted x acc Hacc)) as (S1 & P1 & F1).
    split_and!; [done | |].
    + rewrite P1, insert_by_key_perm. by rewrite <- Permutation_middle.
    + intros t. rewrite F1, insert_by_key_stable by done.
      rewrite <- app_assoc. f_equal.
      rewrite (filter_cons _ x xs), (filter_cons _ x []), filter_nil.
      by destruct (decide (key x = t)).
Qed.
End Sorted.

(** X19.  The entries the WebVTT writer prints are the entries that are not
    comments, each as often as it is in the collection, in the order of
    their start times; those that start at the same time keep the order they
    have in the collection. *)
Theorem webvtt_visible_lines_sorted (subs : SSAFile.t) :
  let kept :=
    filter (fun line => negb (SSAEvent.is_comment line)) (SSAFile.events subs) in
  let lines := WebVTTFormat._get_visible_lines subs in
  StronglySorted (fun a b => SSAEvent.start a <= SSAEvent.start b) lines
  /\ lines ≡ₚ kept
  /\ forall t, filter (fun e => SSAEvent.start e = t) lines
               = filter (fun e => SSAEvent.start e = t) kept.
Proof.
  cbv zeta. unfold WebVTTFormat._get_visible_lines, Py.sorted_by_key.
  destruct (sorted_by_key_from SSAEvent.start
              (filter (fun line => negb (SSAEvent.is_comment line))
                 (SSAFile.events subs)) [] ltac:(constructor))
    as (S1 & P1 & F1).
  split_and!; [exact S1 | exact P1 | exact F1].
Qed.

(** ** The look-ups of [formats.py] *)

Section Lookups.
Variables substation microdvd json mpl2 tmp : str -> option str.

Lemma get_file_extension_of_identifier (ext format_ : str) :
  formats.get_format_identifier ext = inl format_ ->
  formats.get_file_extension substation microdvd json mpl2 tmp format_ = inl ext.
Proof.
  unfold formats.get_format_identifier,
    formats.FILE_EXTENSION_TO_FORMAT_IDENTIFIER.
  cbn [Py.dict_get].
  repeat (case_bool_decide;
          [subst ext; intros [= <-]; vm_compute; reflexivity |]).
  done.
Qed.

Lemma get_format_identifier_of_extension (ext format_ : str) :
  formats.get_file_extension substation microdvd json mpl2 tmp format_ = inl ext ->
  formats.get_format_identifier ext = inl format_.
Proof.
  unfold formats.get_file_extension, formats.FORMAT_IDENTIFIER_TO_FORMAT_CLASS.
  cbn [Py.dict_get].
  repeat (case_bool_decide;
          [subst format_; intros H'; vm_compute in H';
           first [discriminate H' | injection H' as <-; vm_compute; reflexivity] |]).
  done.
Qed.

Lemma get_format_class_known (format_ : str) :
  format_ ∈ formats.FORMAT_IDENTIFIERS substation microdvd json mpl2 tmp ->
  exists impl,
    formats.get_format_class substation microdvd json mpl2 tmp format_ = inl impl.
Proof.
  unfold formats.FORMAT_IDENTIFIERS, formats.get_format_class,
    formats.FORMAT_IDENTIFIER_TO_FORMAT_CLASS.
  cbn [map fst Py.dict_get]. intros H.
  repeat (case_bool_decide; [by eexists |]).
  repeat (apply elem_of_cons in H as [-> | H]; [done |]).
  by apply elem_of_nil in H.
Qed.

Lemma get_format_class_unknown (format_ : str) :
  format_ ∉ formats.FORMAT_IDENTIFIERS substation microdvd json mpl2 tmp ->
  formats.get_format_class substation microdvd json mpl2 tmp format_
  = inr (formats.UnknownFormatIdentifierError format_)
  /\ formats.get_file_extension substation microdvd json mpl2 tmp format_
     = inr (formats.UnknownFormatIdentifierError format_).
Proof.
  unfold formats.FORMAT_IDENTIFIERS, formats.get_format_class,
    formats.get_file_extension, formats.FORMAT_IDENTIFIER_TO_FORMAT_CLASS.
  cbn [map fst Py.dict_get]. intros H.
  repeat (case_bool_decide;
          [exfalso; apply H; subst format_;
           repeat first [apply list_elem_of_here | apply list_elem_of_further] |]).
  done.
Qed.

Lemma get_file_extension_runtime_error (format_ : str) :
  formats.get_file_extension substation microdvd json mpl2 tmp format_
  = inr (formats.RuntimeError format_)
  <-> format_ = "mpl2".
Proof.
  split; [| by intros ->].
  unfold formats.get_file_extension, formats.FORMAT_IDENTIFIER_TO_FORMAT_CLASS.
  cbn [Py.dict_get].
  repeat (case_bool_decide; [subst format_; vm_compute; by intros [=] |]).
  done.
Qed.
End Lookups.

(** X20.  Between file extensions and format identifiers the two look-ups are
    inverse to each other: [get_format_identifier] maps an extension to an
    identifier exactly when [get_file_extension] maps that identifier to
    that extension, whatever the classes registered. *)
Theorem extension_identifier_round_trip
    (substation microdvd json mpl2 tmp : str -> option str)
    (ext format_ : str) :
  formats.get_format_identifier ext = inl format_
  <-> formats.get_file_extension substation microdvd json mpl2 tmp format_
      = inl ext.
Proof.
  split.
  - apply get_file_extension_of_identifier.
  - apply get_format_identifier_of_extension.
Qed.

(** X21.  How the look-ups fail.  [get_format_class] succeeds on the members of
    [FORMAT_IDENTIFIERS] and raises UnknownFormatIdentifierError on every
    other text, as [get_file_extension] does; [get_file_extension] raises
    RuntimeError for ["mpl2"] and for nothing else (the one identifier
    without an extension); the identifier of every known extension has a
    class. *)
Theorem lookup_failures
    (substation microdvd json mpl2 tmp : str -> option str)
    (ext format_ : str) :
  let known :=
    formats.FORMAT_IDENTIFIERS substation microdvd json mpl2 tmp in
  let get_format_class :=
    formats.get_format_class substation microdvd json mpl2 tmp in
  let get_file_extension :=
    formats.get_file_extension substation microdvd json mpl2 tmp in
  (format_ ∈ known -> exists impl, get_format_class format_ = inl impl)
  /\ (format_ ∉ known ->
      get_format_class format_
      = inr (formats.UnknownFormatIdentifierError format_)
      /\ get_file_extension format_
         = inr (formats.UnknownFormatIdentifierError format_))
  /\ (get_file_extension format_ = inr (formats.RuntimeError format_)
      <-> format_ = "mpl2")
  /\ (formats.get_format_identifier ext = inl format_ ->
      exists impl, get_format_class format_ = inl impl)
  /\ (formats.get_format_identifier ext
      = inr (formats.UnknownFileExtensionError ext)
      \/ exists f, formats.get_format_identifier ext = inl f).
Proof.
  cbv zeta. split_and!.
  - apply get_format_class_known.
  - apply get_format_class_unknown.
  - apply get_file_extension_runtime_error.
  - intros H. apply get_format_class_known.
    apply (get_file_extension_of_identifier substation microdvd json mpl2 tmp)
      in H.
    unfold formats.get_file_extension in H.
    unfold formats.FORMAT_IDENTIFIERS.
    destruct (Py.dict_get _ format_) eqn:E; [| done].
    clear H. revert E.
    unfold formats.FORMAT_IDENTIFIER_TO_FORMAT_CLASS. cbn [Py.dict_get map fst].
    repeat (case_bool_decide; [subst format_; intros _;
            repeat first [apply list_elem_of_here | apply list_elem_of_further] |]).
    done.
  - unfold formats.get_format_identifier.
    destruct (Py.dict_get _ ext); [right; by eexists | by left].
Qed.

(** ** Detection of what the WebVTT writer writes *)

Lemma autodetect_webvtt_text
    (substation microdvd json mpl2 tmp : str -> option str) (text : str) :
  WebVTTFormat.guess_format text = Some ("vtt" : str) ->
  substation text = None -> microdvd text = None -> json text = None ->
  mpl2 text = None -> tmp text = None ->
  formats.autodetect_format substation microdvd json mpl2 tmp text
  = Ok ("vtt" : str).
Proof.
  intros Hvtt H1 H2 H3 H4 H5.
  unfold formats.autodetect_format, formats.FORMAT_IDENTIFIER_TO_FORMAT_CLASS,
    formats.collect_guesses.
  cbn [map snd fold_left].
  rewrite (webvtt_guess_excludes_subrip SubripFormat.cls text)
    by (by rewrite Hvtt).
  rewrite H1, H2, H3, H4, H5, Hvtt.
  rewrite (left_id_L ∅ (∪)). unfold formats.resolve.
  by rewrite size_singleton, elements_singleton.
Qed.

(** X22.  [autodetect_format] takes for ["vtt"] what the WebVTT writer wrote,
    whatever the entries and the options, as long as none of the five
    classes outside these sources claims that text. *)
Theorem webvtt_output_autodetected
    (parse_tags :
       str -> SSAStyle.t -> gmap str SSAStyle.t -> list (str * SSAStyle.t))
    (subs : SSAFile.t) (apply_styles keep_ssa_tags : bool)
    (substation microdvd json mpl2 tmp : str -> option str)
    (out : str) (warnings : list warning) :
  WebVTTFormat.to_file parse_tags subs apply_styles keep_ssa_tags
  = Ok (out, warnings) ->
  substation out = None -> microdvd out = None -> json out = None ->
  mpl2 out = None -> tmp out = None ->
  formats.autodetect_format substation microdvd json mpl2 tmp out
  = Ok ("vtt" : str).
Proof.
  intros Hout. apply autodetect_webvtt_text.
  revert Hout. unfold WebVTTFormat.to_file.
  destruct (SubripFormat.to_file _ _ _ _ _) as [[body w] | e]; [| done].
  cbn [bind fst snd]. by intros [= <- _].
Qed.

(** The three sample entries, the drawing left out. *)
Lemma webvtt_output_autodetected_witness :
  exists out warnings,
    WebVTTFormat.to_file substation.parse_tags Samples.three_entries true false
    = Ok (out, warnings)
    /\ formats.autodetect_format Samples.no_guess Samples.no_guess
         Samples.no_guess Samples.no_guess Samples.no_guess out
       = Ok ("vtt" : str).
Proof.
  destruct (WebVTTFormat.to_file substation.parse_tags Samples.three_entries
              true false) as [[out warnings] | e] eqn:E;
    [| by vm_compute in E].
  exists out, warnings. split; [reflexivity |].
  by apply (webvtt_output_autodetected substation.parse_tags
              Samples.three_entries true false Samples.no_guess
              Samples.no_guess Samples.no_guess Samples.no_guess
              Samples.no_guess out warnings).
Defined.

(** ** [text_preprocess] of the language detector *)

Lemma rstrip_with_split (p : ascii -> bool) (s : str) :
  exists spaces,
    s = Py.rstrip_with p s ++ spaces /\ Forall (fun c => p c = true) spaces.
Proof.
  unfold Py.rstrip_with.
  destruct (lstrip_with_split p (rev s)) as (sp & Hs & Hsp).
  exists (rev sp). split.
  - rewrite <- rev_app_distr, <- Hs. by rewrite rev_involutive.
  - by apply Forall_rev.
Qed.

Lemma strip_split (s : str) :
  exists a b, s = a ++ Py.strip s ++ b.
Proof.
  unfold Py.strip, Py.rstrip, Py.lstrip.
  destruct (lstrip_with_split Py.isspace s) as (a & Ha & _).
  destruct (rstrip_with_split Py.isspace (Py.lstrip_with Py.isspace s))
    as (b & Hb & _).
  exists a, b. by rewrite <- Hb.
Qed.

Lemma strip_ends (s : str) (c : ascii) :
  head (Py.strip s) = Some c \/ last (Py.strip s) = Some c ->
  Py.isspace c = false.
Proof.
  unfold Py.strip, Py.rstrip, Py.lstrip. intros [H | H].
  - destruct (rstrip_with_split Py.isspace (Py.lstrip_with Py.isspace s))
      as (b & Hb & _).
    apply (lstrip_with_head Py.isspace s). rewrite Hb.
    by destruct (Py.rstrip_with Py.isspace (Py.lstrip_with Py.isspace s)).
  - unfold Py.rstrip_with in H.
    apply (lstrip_with_head Py.isspace (rev (Py.lstrip_with Py.isspace s))).
    destruct (Py.lstrip_with Py.isspace (rev (Py.lstrip_with Py.isspace s)))
      as [| d l]; [done |].
    cbn [rev] in H. rewrite last_snoc in H. done.
Qed.

Lemma replace_line_noise (text : str) :
  Py.replace (Py.replace (Py.replace text [Py.LF] " ") [Py.CR] " ")
    [ascii_of_N 9] " "
  = map (fun c => if Spec.is_line_noise c then " "%char else c) text.
Proof.
  change (list_ascii_of_string " ") with [" "%char].
  rewrite !replace_char, !map_map. apply map_ext. intros c.
  unfold Spec.is_line_noise.
  rewrite (Ascii.eqb_sym c Py.LF), (Ascii.eqb_sym c Py.CR),
    (Ascii.eqb_sym c (ascii_of_N 9)).
  destruct (Ascii.eqb_spec Py.LF c) as [<- | _]; [done |].
  destruct (Ascii.eqb_spec Py.CR c) as [<- | _]; [done |].
  by destruct (Ascii.eqb_spec (ascii_of_N 9) c) as [<- | _].
Qed.

(** X23.  [text_preprocess] is one pass that turns every newline, carriage return
    and tab into a space, followed by a strip: none of the three is left in
    the result, which neither starts nor ends with whitespace and is no
    longer than the text. *)
Theorem text_preprocess_one_line (text : str) :
  let out := lang_detector.text_preprocess text in
  out = Py.strip
          (map (fun c => if Spec.is_line_noise c then " "%char else c) text)
  /\ Forall (fun c => Spec.is_line_noise c = false) out
  /\ (forall c, head out = Some c \/ last out = Some c -> Py.isspace c = false)
  /\ (length out <= length text)%nat.
Proof.
  cbv zeta. unfold lang_detector.text_preprocess. rewrite replace_line_noise.
  set (flat := map _ text).
  assert (Forall (fun c => Spec.is_line_noise c = false) flat) as Hflat.
  { apply Forall_forall. intros c Hc. unfold flat in Hc.
    apply list_elem_of_fmap in Hc as (d & -> & _).
    by destruct (Spec.is_line_noise d) eqn:E. }
  destruct (strip_split flat) as (a & b & Hab).
  split_and!.
  - done.
  - rewrite Hab in Hflat.
    by apply Forall_app in Hflat as [_ [H _]%Forall_app].
  - apply strip_ends.
  - assert (length flat = length text) as <- by apply length_map.
    rewrite Hab at 2. rewrite !length_app. lia.
Qed.

(** ** [SSAEvent.plaintext] *)

Section Plaintext.
Context {R : Type}.

(** A run [class]* followed by something that cannot start with a character
    of the class takes the longest run. *)
Lemma many_until (p : ascii -> bool) (k : str -> option R) (s : str) :
  (forall c t, p c = true -> k (c :: t) = None) ->
  Re.many p 0 s k = k (Py.lstrip_with p s).
Proof.
  intros Hk. induction s as [| c s IH]; [done |].
  cbn [Re.many Py.lstrip_with Nat.pred]. destruct (p c) eqn:E; [| done].
  rewrite IH. destruct (k (Py.lstrip_with p s)) eqn:K; [done |].
  by apply Hk.
Qed.
End Plaintext.

Lemma match_at_OVERRIDE_SEQUENCE (c : ascii) (s : str) :
  Re.match_at SSAEvent.OVERRIDE_SEQUENCE 0 (c :: s)
  = if Ascii.eqb "{" c then
      match Py.lstrip_with (fun c => negb (Ascii.eqb c "}")) s with
      | d :: t =>
          if Ascii.eqb "}" d
          then Some ((length (c :: s) - length t)%nat, [])
          else None
      | [] => None
      end
    else None.
Proof.
  unfold Re.match_at, SSAEvent.OVERRIDE_SEQUENCE, Re.lit.
  cbn [Re.run replicate]. destruct (Ascii.eqb "{" c); [| done].
  rewrite many_until; [done |].
  intros d t Hd. apply negb_true_iff in Hd.
  by rewrite Ascii.eqb_sym, Hd.
Qed.

Lemma no_override_sequence_cons (c : ascii) (s : str) :
  Spec.no_override_sequence (c :: s)
  <-> (c = "{"%char -> "}"%char ∉ s) /\ Spec.no_override_sequence s.
Proof.
  unfold Spec.no_override_sequence. split.
  - intros H. split.
    + intros ->. by apply (H []).
    + intros before after ->. by apply (H (c :: before)).
  - intros [H1 H2] [| b before] after E.
    + injection E as -> ->. by apply H1.
    + injection E as -> ->. by apply (H2 before).
Qed.

Lemma no_override_sequence_app (a s : str) :
  "{"%char ∉ a -> Spec.no_override_sequence s ->
  Spec.no_override_sequence (a ++ s).
Proof.
  induction a as [| c a IH]; intros Ha Hs; [done |].
  apply not_elem_of_cons in Ha as [Hc Ha].
  cbn [app]. apply no_override_sequence_cons. split; [done | by apply IH].
Qed.

Lemma sub_from_elements (P : ascii -> Prop) (r : Re.regex) (n : nat) (s : str) :
  forall skip, Forall P s -> Forall P (Re.sub_from r n [] s skip).
Proof.
  induction s as [| c s IH]; intros skip H; [done |].
  apply Forall_cons in H as [Hc H]. cbn [Re.sub_from].
  destruct skip as [| k]; [| by apply IH].
  destruct (Re.match_at r n (c :: s)) as [[len caps] |].
  - by apply IH.
  - constructor; [done | by apply IH].
Qed.

Lemma replace_from_elements (P : ascii -> Prop) (old new s : str) :
  forall skip, Forall P new -> Forall P s ->
               Forall P (Py.replace_from old new s skip).
Proof.
  induction s as [| c s IH]; intros skip Hnew H; [done |].
  apply Forall_cons in H as [Hc H]. cbn [Py.replace_from].
  destruct skip as [| k]; [| by apply IH].
  destruct (Py.startswith (c :: s) old).
  - apply Forall_app. split; [done | by apply IH].
  - constructor; [done | by apply IH].
Qed.

Lemma lstrip_with_nil (p : ascii -> bool) (s : str) :
  Py.lstrip_with p s = [] <-> Forall (fun c => p c = true) s.
Proof.
  induction s as [| c s IH]; [done |]. cbn [Py.lstrip_with].
  destruct (p c) eqn:E.
  - rewrite IH. split; [by constructor | by intros [_ ?]%Forall_cons].
  - split; [done | intros [? _]%Forall_cons; congruence].
Qed.

Lemma not_closing_brace (s : str) :
  Forall (fun c => negb (Ascii.eqb c "}") = true) s <-> "}"%char ∉ s.
Proof.
  rewrite Forall_forall. split.
  - intros H Hin. specialize (H _ Hin). by rewrite Ascii.eqb_refl in H.
  - intros H c Hc. apply negb_true_iff. apply Ascii.eqb_neq. by intros ->.
Qed.

(** [re.sub] with [OVERRIDE_SEQUENCE] and the empty replacement leaves no
    override sequence. *)
Lemma sub_OVERRIDE_SEQUENCE (n : nat) :
  forall s, (length s <= n)%nat ->
    Spec.no_override_sequence
      (Re.sub_from SSAEvent.OVERRIDE_SEQUENCE 0 [] s 0).
Proof.
  induction n as [| n IH]; intros s Hlen.
  - destruct s; [| cbn in Hlen; lia]. by intros [| ? ?] ?.
  - destruct s as [| c s]; [apply IH; cbn; lia |]. cbn [length] in Hlen.
    cbn [Re.sub_from]. rewrite match_at_OVERRIDE_SEQUENCE.
    destruct (Ascii.eqb_spec "{" c) as [<- | Hc].
    + destruct (Py.lstrip_with _ s) as [| d t] eqn:E.
      * apply no_override_sequence_cons. split; [| apply IH; lia].
        intros _. apply not_closing_brace.
        apply (sub_from_elements (fun c => negb (Ascii.eqb c "}") = true)).
        by apply lstrip_with_nil.
      * destruct (lstrip_with_split (fun c => negb (Ascii.eqb c "}")) s)
          as (sp & Hs & _).
        rewrite E in Hs.
        assert (length s = length sp + S (length t))%nat as Hl
          by (rewrite Hs at 1; rewrite length_app; cbn [length]; lia).
        destruct (Ascii.eqb "}" d) eqn:Hd.
        -- cbn [length app].
           replace (Nat.pred (S (length s) - length t))
             with (length sp + 1)%nat by lia.
           rewrite sub_from_skip by lia.
           replace (drop (length sp + 1) s) with t; [apply IH; lia |].
           rewrite Hs at 1. rewrite drop_app_add'; [done | done].
        -- exfalso.
           pose proof (lstrip_with_head (fun c => negb (Ascii.eqb c "}")) s d)
             as X.
           rewrite E in X. specialize (X eq_refl). cbv beta in X.
           apply negb_false_iff in X. by rewrite Ascii.eqb_sym, Hd in X.
    + apply no_override_sequence_cons. split; [| apply IH; lia].
      by intros ->.
Qed.

Lemma replace_no_override_sequence (old new s : str) :
  "{"%char ∉ new -> "}"%char ∉ new ->
  forall skip, Spec.no_override_sequence s ->
               Spec.no_override_sequence (Py.replace_from old new s skip).
Proof.
  intros Ho Hc. induction s as [| c s IH]; intros skip H; [done |].
  apply no_override_sequence_cons in H as [H1 H2]. cbn [Py.replace_from].
  destruct skip as [| k]; [| by apply IH].
  destruct (Py.startswith (c :: s) old).
  - apply no_override_sequence_app; [done | by apply IH].
  - apply no_override_sequence_cons. split; [| by apply IH].
    intros E. apply not_closing_brace.
    apply replace_from_elements; by apply not_closing_brace; auto.
Qed.

Lemma no_override_sequence_no_match (s : str) :
  Spec.no_override_sequence s ->
  forall n, Re.match_at SSAEvent.OVERRIDE_SEQUENCE 0 (drop n s) = None.
Proof.
  intros H n.
  assert (Spec.no_override_sequence (drop n s)) as Hd.
  { intros before after E. apply (H (take n s ++ before) after).
    by rewrite <- app_assoc, <- E, take_drop. }
  destruct (drop n s) as [| c t]; [done |].
  rewrite match_at_OVERRIDE_SEQUENCE.
  destruct (Ascii.eqb_spec "{" c) as [<- | Hc]; [| done].
  apply no_override_sequence_cons in Hd as [Hd _].
  specialize (Hd eq_refl). apply not_closing_brace, lstrip_with_nil in Hd.
  by rewrite Hd.
Qed.

(** X24.  [plaintext] holds no override sequence: the pattern [OVERRIDE_SEQUENCE]
    matches at none of its positions, that is, no opening brace of it has a
    closing brace anywhere after it.  (Removing the sequences once removes
    also those that the removal brings together.) *)
Theorem plaintext_has_no_override_sequence (e : SSAEvent.t) :
  (forall n,
     Re.match_at SSAEvent.OVERRIDE_SEQUENCE 0 (drop n (SSAEvent.plaintext e))
     = None)
  /\ (forall before inner after,
        SSAEvent.plaintext e
        <> before ++ "{"%char :: inner ++ "}"%char :: after).
Proof.
  assert (Spec.no_override_sequence (SSAEvent.plaintext e)) as H.
  { unfold SSAEvent.plaintext, Py.replace, Re.sub.
    apply replace_no_override_sequence;
      [by vm_compute; intros ?%list_elem_of_singleton
      | by vm_compute; intros ?%list_elem_of_singleton |].
    apply replace_no_override_sequence;
      [by vm_compute; intros ?%list_elem_of_singleton
      | by vm_compute; intros ?%list_elem_of_singleton |].
    apply (sub_OVERRIDE_SEQUENCE _ _ (Nat.le_refl _)). }
  split.
  - by apply no_override_sequence_no_match.
  - intros before inner after E. apply (H before _ E).
    apply elem_of_app. right. apply list_elem_of_here.
Qed.

(** ** A line the WebVTT reader cannot read *)

(** The hours of the WebVTT pattern may be a bare colon. *)
Lemma match_at_WebVTT_colon (c d e f g h i : ascii) (rest : str) :
  Forall (fun x => Py.isdigit x = true) [c; d; e; f; g; h; i] ->
  Re.match_at WebVTTFormat.TIMESTAMP 4
    (":"%char :: c :: d :: ":"%char :: e :: f :: "."%char :: g :: h :: i
       :: rest)
  = Some (10%nat,
          [Some [":"%char]; Some [c; d]; Some [e; f]; Some [g; h; i]]).
Proof.
  intros D.
  apply Forall_cons in D as [Hc D]. apply Forall_cons in D as [Hd D].
  apply Forall_cons in D as [He D]. apply Forall_cons in D as [Hf D].
  apply Forall_cons in D as [Hg D]. apply Forall_cons in D as [Hh D].
  apply Forall_cons in D as [Hi _].
  unfold Re.match_at, WebVTTFormat.TIMESTAMP, Re.d.
  apply run_Seq_intro, run_optional_intro, run_Group_intro, run_Seq_intro.
  apply (run_Repeat_Chars_intro Py.isdigit []);
    [by constructor | cbn; lia | right; by apply digits_stop_at |].
  cbn [app]. apply run_lit_intro.
  rewrite (take_length_prefix [":"%char]
             (c :: d :: ":"%char :: e :: f :: "."%char :: g :: h :: i :: rest)
           : take (length (":"%char :: c :: d :: ":"%char :: e :: f
                             :: "."%char :: g :: h :: i :: rest)
                   - length (c :: d :: ":"%char :: e :: f :: "."%char
                               :: g :: h :: i :: rest))
               (":"%char :: c :: d :: ":"%char :: e :: f
                  :: "."%char :: g :: h :: i :: rest)
             = [":"%char]).
  apply run_Seq_intro.
  apply (run_Group_Repeat_intro 1 Py.isdigit [c; d]);
    [by repeat constructor | cbn; lia | by left |].
  apply run_Seq_intro, run_lit_intro, run_Seq_intro.
  apply (run_Group_Repeat_intro 2 Py.isdigit [e; f]);
    [by repeat constructor | cbn; lia | by left |].
  apply run_Seq_intro, run_lit_intro.
  apply (run_Group_Repeat_intro 3 Py.isdigit [g; h; i]);
    [by repeat constructor | cbn; lia | by left |].
  cbn [length]. do 2 f_equal. lia.
Qed.

(** X25.  Unlike the reader of SubRip, the reader run for WebVTT can fail.  The
    pattern of WebVTT takes a colon without digits before it for the hours
    of a timestamp [:mm:ss.fff], and [timestamp_to_ms] then calls [int] on
    the empty text: a timestamp line whose first timestamp follows a bare
    colon raises ValueError, and so does the reading of a file in which
    such a line comes first. *)
Theorem webvtt_reader_fails_on_bare_colon (get_text : str -> result str)
    (predict : str -> Z -> result (list str * list Q))
    (keep_html_tags detect_language : bool)
    (c d e f g h i : ascii) (end_ : Z) (st : SubripFormat.reader_state)
    (fp : list str) :
  Forall (fun x => Py.isdigit x = true) [c; d; e; f; g; h; i] ->
  let line :=
    ":"%char :: c :: d :: ":"%char :: e :: f :: "."%char :: g :: h :: i
      :: " --> " ++ (WebVTTFormat.ms_to_timestamp end_).1 ++ [Py.LF] in
  Re.findall WebVTTFormat.TIMESTAMP 4 line
  = [[[":"%char]; [c; d]; [e; f]; [g; h; i]];
     Spec.webvtt_timestamp_groups (Spec.clamp end_)]
  /\ SubripFormat.read_line WebVTTFormat.cls st line = Raise ValueError
  /\ SubripFormat.from_file get_text predict WebVTTFormat.cls
       keep_html_tags detect_language (line :: fp)
     = Raise ValueError.
Proof.
  intros D. cbv zeta.
  pose proof (clamp_range end_) as H2.
  assert ((WebVTTFormat.ms_to_timestamp end_).1
          = Spec.render_timestamp "." (Spec.clamp end_)) as ->.
  { unfold WebVTTFormat.ms_to_timestamp.
    rewrite subrip_ms_to_timestamp_clamped. cbn [fst].
    apply replace_comma_in_timestamp, clamp_range. }
  match goal with
  | |- ?F = _ /\ _ =>
      assert (F = [[[":"%char]; [c; d]; [e; f]; [g; h; i]];
                   Spec.webvtt_timestamp_groups (Spec.clamp end_)]) as HF
  end.
  { unfold Re.findall.
    rewrite (findall_from_match_at _ _ _ _ _ (match_at_WebVTT_colon _ _ _ _ _ _ _ _ D))
      by (cbn [length]; lia).
    cbn [Re.groups map]. f_equal.
    cbn [drop app list_ascii_of_string].
    rewrite !findall_from_no_match by (by apply match_at_WebVTT_not_digit).
    rewrite (findall_from_match_at _ _ _ _ _
               (match_at_WebVTT_rendered (Spec.clamp end_) _ H2))
      by (rewrite length_app, render_timestamp_length; cbn; lia).
    rewrite groups_map_Some. by f_equal. }
  assert (forall st',
            SubripFormat.read_line WebVTTFormat.cls st'
              (":"%char :: c :: d :: ":"%char :: e :: f :: "."%char :: g :: h
                 :: i :: " --> " ++ Spec.render_timestamp "." (Spec.clamp end_)
                 ++ [Py.LF])
            = Raise ValueError) as HR.
  { intros [timestamps following_lines]. unfold SubripFormat.read_line.
    cbn [formatbase.TIMESTAMP formatbase.timestamp_to_ms WebVTTFormat.cls].
    rewrite HF. reflexivity. }
  split_and!; [exact HF | apply HR |].
  unfold SubripFormat.from_file. cbn [SubripFormat.read_lines].
  by rewrite HR.
Qed.

(** [:01:02.345 --> 00:01:03.000] *)
Lemma webvtt_reader_fails_on_bare_colon_witness :
  SubripFormat.from_file Samples.plain_text Samples.no_fasttext
    WebVTTFormat.cls true false
    [(":01:02.345 --> 00:01:03.000" : str) ++ Samples.nl]
  = Raise ValueError.
Proof.
  apply (webvtt_reader_fails_on_bare_colon Samples.plain_text
           Samples.no_fasttext true false
           "0" "1" "0" "2" "3" "4" "5" 63000 ([], []) []).
  by repeat constructor.
Defined.

(** ** What the SubRip reader stores *)

Section ReadEntries.
Variable cls : formatbase.FormatBase.

Lemma read_line_other (st : SubripFormat.reader_state) (line : str) :
  ~ Spec.timestamp_line cls line ->
  SubripFormat.read_line cls st line
  = Ok match st.1 with
       | _ :: _ =>
           (st.1,
            alter (fun lines => lines ++ [line]) (Nat.pred (length st.2)) st.2)
       | [] => st
       end.
Proof.
  unfold Spec.timestamp_line, SubripFormat.read_line. intros H.
  destruct st as [timestamps following_lines]. cbn [fst snd].
  destruct (Re.findall (formatbase.TIMESTAMP cls) 4 line)
    as [| s1 [| s2 [| s3 l]]]; try done; by destruct timestamps.
Qed.

(** The lines before the first timestamp line are passed over. *)
Lemma read_lines_leading (leading rest : list str) :
  Forall (fun line => ~ Spec.timestamp_line cls line) leading ->
  SubripFormat.read_lines cls ([], []) (leading ++ rest)
  = SubripFormat.read_lines cls ([], []) rest.
Proof.
  induction 1 as [| line leading Hline _ IH]; [done |].
  cbn [app SubripFormat.read_lines]. by rewrite read_line_other.
Qed.

(** The lines after a timestamp line, up to the next one, are collected as
    the body of the entry the timestamp line opened. *)
Lemma read_lines_body (timestamps : list (Z * Z))
    (following_lines : list (list str)) (body rest : list str) :
  timestamps <> [] ->
  Forall (fun line => ~ Spec.timestamp_line cls line) body ->
  forall cur,
    SubripFormat.read_lines cls (timestamps, following_lines ++ [cur])
      (body ++ rest)
    = SubripFormat.read_lines cls (timestamps, following_lines ++ [cur ++ body])
        rest.
Proof.
  intros Hts. induction 1 as [| line body Hline _ IH]; intros cur.
  - by rewrite app_nil_r.
  - cbn [app SubripFormat.read_lines]. rewrite read_line_other by done.
    cbn [fst snd bind]. destruct timestamps as [| t ts]; [done |].
    rewrite length_app. cbn [length].
    replace (Nat.pred (length following_lines + 1))
      with (length following_lines + 0)%nat by lia.
    rewrite alter_app_r. cbn [alter list_alter].
    rewrite IH. by rewrite <- app_assoc.
Qed.
End ReadEntries.

(** A timestamp line of SubRip opens an entry with the two times read from
    it. *)
Lemma read_line_timestamp_subrip (st : SubripFormat.reader_state)
    (line : str) :
  Spec.timestamp_line SubripFormat.cls line ->
  exists stamp1 stamp2 start end_,
    Re.findall time.TIMESTAMP 4 line = [stamp1; stamp2]
    /\ time.timestamp_to_ms stamp1 = Ok start
    /\ time.timestamp_to_ms stamp2 = Ok end_
    /\ SubripFormat.read_line SubripFormat.cls st line
       = Ok (st.1 ++ [(start, end_)], st.2 ++ [[]]).
Proof.
  unfold Spec.timestamp_line, SubripFormat.read_line.
  cbn [formatbase.TIMESTAMP formatbase.timestamp_to_ms SubripFormat.cls].
  intros H. destruct st as [timestamps following_lines].
  pose proof (findall_TIMESTAMP_readable line 0) as Hread.
  fold (Re.findall time.TIMESTAMP 4 line) in Hread.
  destruct (Re.findall time.TIMESTAMP 4 line) as [| s1 [| s2 [| s3 l]]];
    try done.
  apply Forall_cons in Hread as [(a & Ha & _) Hread].
  apply Forall_cons in Hread as [(b & Hb & _) _].
  exists s1, s2, a, b. unfold SubripFormat.timestamp_to_ms.
  by rewrite Ha, Hb.
Qed.

(** The loop of the reader over the entries of a file. *)
Lemma read_lines_entries (entries : list (str * list str)) :
  Forall (fun entry =>
            Spec.timestamp_line SubripFormat.cls entry.1
            /\ Forall (fun line => ~ Spec.timestamp_line SubripFormat.cls line)
                      entry.2)
         entries ->
  forall timestamps following_lines,
  exists times,
    SubripFormat.read_lines SubripFormat.cls (timestamps, following_lines)
      (concat (map (fun entry => entry.1 :: entry.2) entries))
    = Ok (timestamps ++ times, following_lines ++ map snd entries)
    /\ Forall2
         (fun t entry =>
            exists stamp1 stamp2,
              Re.findall time.TIMESTAMP 4 entry.1 = [stamp1; stamp2]
              /\ time.timestamp_to_ms stamp1 = Ok t.1
              /\ time.timestamp_to_ms stamp2 = Ok t.2)
         times entries.
Proof.
  induction 1 as [| [line body] entries [Hline Hbody] _ IH];
    intros timestamps following_lines.
  - exists []. cbn. by rewrite !app_nil_r.
  - cbn [map concat fst snd app SubripFormat.read_lines] in *.
    destruct (read_line_timestamp_subrip (timestamps, following_lines) line
                Hline) as (s1 & s2 & a & b & Hf & Ha & Hb & ->).
    cbn [bind fst snd].
    rewrite (read_lines_body SubripFormat.cls) by (done || by destruct timestamps).
    cbn [app].
    destruct (IH (timestamps ++ [(a, b)]) (following_lines ++ [body]))
      as (times & -> & HT).
    exists ((a, b) :: times). split.
    + by rewrite <- !app_assoc.
    + constructor; [by exists s1, s2 | done].
Qed.

(** The entries made of the times and the bodies collected. *)
Lemma make_events_spec (get_text : str -> result str)
    (predict : str -> Z -> result (list str * list Q))
    (keep_html_tags detect_language : bool)
    (times : list (Z * Z)) (entries : list (str * list str)) :
  Forall2
    (fun t entry =>
       exists stamp1 stamp2,
         Re.findall time.TIMESTAMP 4 entry.1 = [stamp1; stamp2]
         /\ time.timestamp_to_ms stamp1 = Ok t.1
         /\ time.timestamp_to_ms stamp2 = Ok t.2)
    times entries ->
  forall events,
    mapM (SubripFormat.make_event get_text predict keep_html_tags
            detect_language)
         (zip times (map snd entries))
    = Ok events ->
    Forall2
      (fun event entry =>
         (exists stamp1 stamp2,
            Re.findall time.TIMESTAMP 4 entry.1 = [stamp1; stamp2]
            /\ time.timestamp_to_ms stamp1 = Ok (SSAEvent.start event)
            /\ time.timestamp_to_ms stamp2 = Ok (SSAEvent.end_ event))
         /\ Spec.stored_of_body get_text keep_html_tags entry.2
              (SSAEvent.text event))
      events entries.
Proof.
  induction 1 as [| [start end_] [line body] times entries Ht _ IH];
    intros events; cbn [map zip zip_with mapM snd].
  - intros [= <-]. constructor.
  - pose proof (make_event_spec get_text predict keep_html_tags
                  detect_language start end_ body) as S.
    destruct (SubripFormat.make_event _ _ _ _ _) as [event | err]; [| done].
    cbn [bind]. destruct (mapM _ _) as [events' | err]; [| done].
    cbn [bind]. intros [= <-].
    destruct S as (Hs & He & Htext).
    constructor; [| by apply IH].
    cbn [fst snd] in *. subst start end_. split; [done |].
    pose proof (from_file_prepare_text_spec get_text keep_html_tags body) as P.
    by rewrite Htext in P.
Qed.

(** C9.  Take the file as the SubRip reader sees it: lines before the first
    timestamp line, then the entries, each a timestamp line (a line with
    exactly two timestamps) followed by its body, the lines up to the next
    timestamp line.  The reader stores one entry for each of them, in
    order, with the times read from the timestamp line and a text made of
    the body: the empty string for a body of at least two lines of which
    all but the last are blank and the last is a bare number; for every
    other body the joined lines, stripped of whitespace at both ends,
    without the longest end made of newlines and a number (the number of
    the next entry), kept as it is when [keep_html_tags] is set and passed
    through the markup-stripping step and one more strip when it is not.
    The reader fails only with what the markup-stripping step or
    [get_language] raises, each called only when its option asks for
    it. *)
Theorem reader_prepare_text (get_text : str -> result str)
    (predict : str -> Z -> result (list str * list Q))
    (keep_html_tags detect_language : bool)
    (fp leading : list str) (entries : list (str * list str)) :
  Spec.file_entries SubripFormat.cls fp leading entries ->
  match
    SubripFormat.from_file get_text predict SubripFormat.cls keep_html_tags
      detect_language fp
  with
  | Ok events =>
      Forall2
        (fun event entry =>
           (exists stamp1 stamp2,
              Re.findall time.TIMESTAMP 4 entry.1 = [stamp1; stamp2]
              /\ time.timestamp_to_ms stamp1 = Ok (SSAEvent.start event)
              /\ time.timestamp_to_ms stamp2 = Ok (SSAEvent.end_ event))
           /\ Spec.stored_of_body get_text keep_html_tags entry.2
                (SSAEvent.text event))
        events entries
  | Raise err =>
      (keep_html_tags = false /\ exists s, get_text s = Raise err)
      \/ (detect_language = true
          /\ exists s, lang_detector.get_language predict s 1 = Raise err)
  end.
Proof.
  intros (-> & Hleading & Hentries).
  unfold SubripFormat.from_file. rewrite read_lines_leading by done.
  destruct (read_lines_entries entries Hentries [] []) as (times & -> & HT).
  cbn [bind app].
  destruct (mapM _ _) as [events | err] eqn:M.
  - by apply (make_events_spec get_text predict keep_html_tags
                detect_language times entries HT).
  - apply mapM_Raise in M as ([[start end_] lines] & _ & Hf).
    pose proof (make_event_spec get_text predict keep_html_tags
                  detect_language start end_ lines) as S.
    by rewrite Hf in S.
Qed.

(** A file of two entries: a number line, then an entry whose body ends
    with a blank line and the number of the next entry, then that entry. *)
Lemma reader_prepare_text_witness :
  Spec.file_entries SubripFormat.cls Samples.two_entries_file
    [("1" : str) ++ Samples.nl]
    [(("00:00:01,000 --> 00:00:02,000" : str) ++ Samples.nl,
      [("Hi" : str) ++ Samples.nl; Samples.nl; ("2" : str) ++ Samples.nl]);
     (("00:00:03,000 --> 00:00:04,000" : str) ++ Samples.nl,
      [("Bye" : str) ++ Samples.nl])]
  /\ match
       SubripFormat.from_file Samples.plain_text Samples.no_fasttext
         SubripFormat.cls true false Samples.two_entries_file
     with
     | Ok events =>
         Forall2
           (fun event entry =>
              (exists stamp1 stamp2,
                 Re.findall time.TIMESTAMP 4 entry.1 = [stamp1; stamp2]
                 /\ time.timestamp_to_ms stamp1 = Ok (SSAEvent.start event)
                 /\ time.timestamp_to_ms stamp2 = Ok (SSAEvent.end_ event))
              /\ Spec.stored_of_body Samples.plain_text true entry.2
                   (SSAEvent.text event))
           events
           [(("00:00:01,000 --> 00:00:02,000" : str) ++ Samples.nl,
             [("Hi" : str) ++ Samples.nl; Samples.nl;
              ("2" : str) ++ Samples.nl]);
            (("00:00:03,000 --> 00:00:04,000" : str) ++ Samples.nl,
             [("Bye" : str) ++ Samples.nl])]
     | Raise err =>
         (true = false /\ exists s, Samples.plain_text s = Raise err)
         \/ (false = true
             /\ exists s,
                  lang_detector.get_language Samples.no_fasttext s 1
                  = Raise err)
     end.
Proof.
  assert (forall line : str,
            length (Re.findall time.TIMESTAMP 4 line) <> 2%nat ->
            ~ Spec.timestamp_line SubripFormat.cls line) as N by done.
  assert (Spec.file_entries SubripFormat.cls Samples.two_entries_file
            [("1" : str) ++ Samples.nl]
            [(("00:00:01,000 --> 00:00:02,000" : str) ++ Samples.nl,
              [("Hi" : str) ++ Samples.nl; Samples.nl;
               ("2" : str) ++ Samples.nl]);
             (("00:00:03,000 --> 00:00:04,000" : str) ++ Samples.nl,
              [("Bye" : str) ++ Samples.nl])]) as H.
  { split; [reflexivity |]. split.
    - repeat constructor; apply N; vm_compute; lia.
    - repeat constructor; try (apply N; vm_compute; lia);
        vm_compute; reflexivity. }
  split; [exact H |].
  exact (reader_prepare_text Samples.plain_text Samples.no_fasttext true false
           _ _ _ H).
Defined.

(** The entries stored for that file. *)
Example from_file_two_entries :
  SubripFormat.from_file Samples.plain_text Samples.no_fasttext
    SubripFormat.cls true false Samples.two_entries_file
  = Ok [SSAEvent.new 1000 2000 "Hi" None; SSAEvent.new 3000 4000 "Bye" None].
Proof. vm_compute. reflexivity. Qed.

(** With the detection of the language on and fastText at hand, the same
    file with the language stored; without fastText, the exception it
    raises. *)
Example from_file_with_language :
  SubripFormat.from_file Samples.plain_text Samples.english
    SubripFormat.cls true true Samples.two_entries_file
  = Ok [SSAEvent.new 1000 2000 "Hi" (Some ("en" : str));
        SSAEvent.new 3000 4000 "Bye" (Some ("en" : str))]
  /\ SubripFormat.from_file Samples.plain_text Samples.no_fasttext
       SubripFormat.cls true true Samples.two_entries_file
     = Raise (Other "NameError").
Proof. vm_compute. done. Qed.

(** Every file is made of leading lines and entries in this way. *)
Lemma file_entries_exist (cls : formatbase.FormatBase) (fp : list str) :
  exists leading entries, Spec.file_entries cls fp leading entries.
Proof.
  induction fp as [| line fp (leading & entries & -> & Hl & He)].
  - exists [], []. split; [done |]. split; constructor.
  - destruct (decide (length (Re.findall (formatbase.TIMESTAMP cls) 4 line)
                      = 2%nat)) as [T | T].
    + exists [], ((line, leading) :: entries).
      split; [reflexivity |]. split; [constructor |].
      constructor; [by split | done].
    + exists (line :: leading), entries. split; [done |].
      split; [by constructor | done].
Qed.
